(** * SEO audit toolkit: structured-data parser and meta extractor

    A shallow embedding of [src/javascript/structured-data.js], which holds
    the two classes [StructuredDataParser] and [MetaExtractor], followed by
    the properties of the extraction, validation and scoring passes.
    The classes that use them come after: the issue counters of
    [PageSpeedAnalyzer], the class [SEOAuditToolkit] of
    [src/javascript/index.js], and the crawl of the site-scan example.

    Conventions of the embedding.
    - A JavaScript string is a [string]; a character stands for one code
      unit in the Latin-1 range, so [String.length] is [.length].
    - A JavaScript number that the code computes (a counter, a score, a
      length) is a [Z].
    - [undefined] is [None] of an [option].
    - The [results] object that the methods of a class mutate in place is
      threaded explicitly; a method that may raise runs in the monad [M],
      whose state survives a raised exception just as the mutated object
      survives a [throw].
    - Functions of the platform (JSON.parse, the WHATWG URL constructor,
      the Date constructor) are [Variable]s of a Section.
    - A selector is a test on nodes; tag and attribute names are as the
      HTML parser leaves them, in lower case.
    - What [require] binds [ora] and [chalk] to is a [Variable] too: the
      function the code calls, or the namespace object of the ES module
      that [package.json] asks for. *)

From Stdlib Require Import String Ascii List ZArith Lia Bool Arith.
From Stdlib Require Import DecimalString ZifyBool.
Import ListNotations.

Set Warnings "-register-all".

Open Scope string_scope.
Open Scope list_scope.
Open Scope Z_scope.

(** String concatenation, the [+] and the template literals of the source. *)
Infix "+:+" := String.append (right associativity, at level 60).

(* ===================================================================== *)
(** ** JavaScript primitives *)
(* ===================================================================== *)

Module JS.

(** WhiteSpace and LineTerminator code units below 256, the ones
    [String.prototype.trim] removes: TAB, LF, VT, FF, CR, SP, NBSP. *)
Definition isWhiteSpace (c : ascii) : bool :=
  let n := nat_of_ascii c in
  ((9 <=? n)%nat && (n <=? 13)%nat) || (n =? 32)%nat || (n =? 160)%nat.

Fixpoint trimStart (s : string) : string :=
  match s with
  | EmptyString => EmptyString
  | String c s' => if isWhiteSpace c then trimStart s' else s
  end.

Fixpoint reverse (s : string) : string :=
  match s with
  | EmptyString => EmptyString
  | String c s' => reverse s' +:+ String c EmptyString
  end.

Definition trimEnd (s : string) : string := reverse (trimStart (reverse s)).

(** [s.trim()] *)
Definition trim (s : string) : string := trimEnd (trimStart s).

(** [s.length] *)
Definition length (s : string) : Z := Z.of_nat (String.length s).

(** [s.startsWith(p)] *)
Definition startsWith (p s : string) : bool := String.prefix p s.

(** [s.endsWith(p)] *)
Definition endsWith (p s : string) : bool := String.prefix (reverse p) (reverse s).

(** [s.includes(sub)] *)
Fixpoint includes (sub s : string) : bool :=
  String.prefix sub s ||
  match s with
  | EmptyString => false
  | String _ s' => includes sub s'
  end.

(** [toLowerCase] on one code unit: A-Z, and the Latin-1 capitals
    0xC0-0xDE except the multiplication sign 0xD7. *)
Definition lowerChar (c : ascii) : ascii :=
  let n := nat_of_ascii c in
  if ((65 <=? n) && (n <=? 90))%nat then ascii_of_nat (n + 32)
  else if ((192 <=? n) && (n <=? 222) && negb (n =? 215))%nat
       then ascii_of_nat (n + 32)
       else c.

Fixpoint toLowerCase (s : string) : string :=
  match s with
  | EmptyString => EmptyString
  | String c s' => String (lowerChar c) (toLowerCase s')
  end.

(** [a.join(sep)] on an array of strings. *)
Fixpoint join (sep : string) (l : list string) : string :=
  match l with
  | [] => ""
  | [x] => x
  | x :: rest => x +:+ sep +:+ join sep rest
  end.

(** A string used as a condition: the empty string is falsy. *)
Definition truthyString (s : string) : bool :=
  match s with EmptyString => false | _ => true end.

(** An optional string used as a condition ([undefined] is falsy). *)
Definition truthyAttr (o : option string) : bool :=
  match o with Some s => truthyString s | None => false end.

(** [a || b] on optional strings where [b] is a string. *)
Definition orElse (o : option string) (d : string) : string :=
  match o with
  | Some s => if truthyString s then s else d
  | None => d
  end.

(** ToString of an integer-valued number, as a template literal prints it. *)
Definition numberToString (z : Z) : string :=
  NilZero.string_of_int (Z.to_int z).

(** ToNumber of a boolean, as a relational operator applies it. *)
Definition boolToNumber (b : bool) : Z := if b then 1 else 0.

(** The double quote character, as a string. *)
Definition dquote : string := String (ascii_of_nat 34) EmptyString.

(** [Math.min] and [Math.max] on integers. *)
Definition Math_min (a b : Z) : Z := Z.min a b.
Definition Math_max (a b : Z) : Z := Z.max a b.

End JS.

(* ===================================================================== *)
(** ** The parsed document, as cheerio exposes it *)
(* ===================================================================== *)

Module Dom.

(** A node of the parsed tree: a text node or an element with its tag
    name, its attributes in source order and its children. *)
Inductive node : Type :=
| Text (data : string)
| Element (name : string) (attribs : list (string * string)) (children : list node).

(** What [cheerio.load] returns: the children of the document root. *)
Definition document := list node.

(** A selected element together with its ancestors, innermost first. *)
Record located : Type := Loc { parents_of : list node; elem : node }.

Definition tagName (n : node) : string :=
  match n with Text _ => "" | Element t _ _ => t end.

Definition attribs_of (n : node) : list (string * string) :=
  match n with Text _ => [] | Element _ a _ => a end.

Definition children_of (n : node) : list node :=
  match n with Text _ => [] | Element _ _ c => c end.

Fixpoint lookup (k : string) (l : list (string * string)) : option string :=
  match l with
  | [] => None
  | (k', v) :: rest => if String.eqb k k' then Some v else lookup k rest
  end.

(** [$(elem).attr(k)]: the value, or [undefined]. *)
Definition attr (n : node) (k : string) : option string := lookup k (attribs_of n).

(** [$(elem).text()]: the text of all descendant text nodes. *)
Fixpoint text (n : node) : string :=
  match n with
  | Text d => d
  | Element _ _ cs => String.concat "" (map text cs)
  end.

(** The element itself and its descendant elements, in document order. *)
Fixpoint elements (anc : list node) (n : node) : list located :=
  match n with
  | Text _ => []
  | Element _ _ cs => Loc anc n :: flat_map (elements (n :: anc)) cs
  end.

(** [$(selector)]: every element of the document that matches. *)
Definition select (p : node -> bool) (doc : document) : list located :=
  filter (fun l => p (elem l)) (flat_map (elements []) doc).

(** [$item.find(selector)]: the matching proper descendants. *)
Definition find (p : node -> bool) (item : located) : list located :=
  filter (fun l => p (elem l))
    (flat_map (elements (elem item :: parents_of item)) (children_of (elem item))).

(** [$elem.parents(selector)]: the matching ancestors. *)
Definition parents (p : node -> bool) (l : located) : list node :=
  filter p (parents_of l).

(** [sel.attr(k)] on a selection reads the first element of the selection. *)
Definition first_attr (sel : list located) (k : string) : option string :=
  match sel with
  | [] => None
  | l :: _ => attr (elem l) k
  end.

(** [sel.text()] on a selection concatenates the text of its elements. *)
Definition text_of (sel : list located) : string :=
  String.concat "" (map (fun l => text (elem l)) sel).

(** Selector tests. *)
Definition is_tag (t : string) (n : node) : bool :=
  match n with Text _ => false | Element t' _ _ => String.eqb t t' end.

Definition has_attr (k : string) (n : node) : bool :=
  match attr n k with Some _ => true | None => false end.

Definition attr_is (k v : string) (n : node) : bool :=
  match attr n k with Some v' => String.eqb v v' | None => false end.

(** The selector [[k="v"]] on an attribute whose values an HTML document
    compares without regard to case; of the attributes the source selects
    by value these are [type], [rel] and [http-equiv] ([name] and
    [property] are compared as they are).  The selector engine lower-cases
    both sides. *)
Definition attr_is_nocase (k v : string) (n : node) : bool :=
  match attr n k with
  | Some v' => String.eqb (JS.toLowerCase v) (JS.toLowerCase v')
  | None => false
  end.

End Dom.

(* ===================================================================== *)
(** ** JSON values *)
(* ===================================================================== *)

Module Json.

(** A value as [JSON.parse] builds it.  The fields of an object are in
    the order [Object.keys] lists them and have distinct keys.  A number
    is integer valued. *)
Inductive value : Type :=
| JNull
| JBool (b : bool)
| JNumber (z : Z)
| JString (s : string)
| JArray (items : list value)
| JObject (fields : list (string * value)).

(** A value used as a condition. *)
Definition truthy (v : value) : bool :=
  match v with
  | JNull => false
  | JBool b => b
  | JNumber z => negb (z =? 0)
  | JString s => JS.truthyString s
  | JArray _ => true
  | JObject _ => true
  end.

(** A possibly [undefined] value used as a condition. *)
Definition truthy_opt (o : option value) : bool :=
  match o with Some v => truthy v | None => false end.

(** [Array.isArray(v)] *)
Definition isArray (v : value) : bool :=
  match v with JArray _ => true | _ => false end.

(** [typeof v === 'string'] *)
Definition isString (v : value) : bool :=
  match v with JString _ => true | _ => false end.

(** [typeof v === 'object'] (null, arrays and objects). *)
Definition typeofObject (v : value) : bool :=
  match v with JNull | JArray _ | JObject _ => true | _ => false end.

(** [Array.isArray(v) ? v : [v]] *)
Definition toArray (v : value) : list value :=
  match v with JArray items => items | _ => [v] end.

(** ToString, as a template literal or a property key applies it. *)
Fixpoint ToString (v : value) : string :=
  match v with
  | JNull => "null"
  | JBool true => "true"
  | JBool false => "false"
  | JNumber z => JS.numberToString z
  | JString s => s
  | JArray items =>
      JS.join "," (map (fun x => match x with JNull => "" | _ => ToString x end) items)
  | JObject _ => "[object Object]"
  end.

Fixpoint lookup (k : string) (l : list (string * value)) : option value :=
  match l with
  | [] => None
  | (k', v) :: rest => if String.eqb k k' then Some v else lookup k rest
  end.

(** [o[k] = v] on an object held as its list of own properties: an
    existing key keeps its place, a new key goes last. *)
Fixpoint set (k : string) (v : value) (l : list (string * value))
  : list (string * value) :=
  match l with
  | [] => [(k, v)]
  | (k', v') :: rest =>
      if String.eqb k k' then (k, v) :: rest else (k', v') :: set k v rest
  end.

Fixpoint indexed (i : nat) (items : list value) : list (string * value) :=
  match items with
  | [] => []
  | x :: rest => (JS.numberToString (Z.of_nat i), x) :: indexed (S i) rest
  end.

(** The own enumerable properties [Object.keys] walks. *)
Definition entries (v : value) : list (string * value) :=
  match v with
  | JObject fields => fields
  | JArray items => indexed 0 items
  | _ => []
  end.

(** [v[k]] for a key other than [length] that names no inherited member:
    the own property of an object, [undefined] otherwise.  [None] on the
    outside is the TypeError that reading a property of [null] raises. *)
Definition member (v : value) (k : string) : option (option value) :=
  match v with
  | JNull => None
  | JObject fields => Some (lookup k fields)
  | _ => Some None
  end.

End Json.

(* ===================================================================== *)
(** ** Mutation and exceptions *)
(* ===================================================================== *)

(** A computation over a mutable object of type [S] that returns an [A]
    or raises an exception carrying its [message].  The object is returned
    in both cases: what was pushed before a [throw] stays pushed. *)
Definition M (S A : Type) : Type := S -> (A + string) * S.

Definition ret {S A : Type} (a : A) : M S A := fun s => (inl a, s).

Definition throw {S A : Type} (message : string) : M S A :=
  fun s => (inr message, s).

Definition bind {S A B : Type} (c : M S A) (k : A -> M S B) : M S B :=
  fun s =>
    match c s with
    | (inl a, s') => k a s'
    | (inr e, s') => (inr e, s')
    end.

Definition modify {S : Type} (f : S -> S) : M S unit := fun s => (inl tt, f s).

Definition get_state {S : Type} : M S S := fun s => (inl s, s).

(** Reading a field of the object. *)
Definition gets {S A : Type} (f : S -> A) : M S A := fun s => (inl (f s), s).

(** [try { body } catch (error) { handler(error.message) }] *)
Definition try_catch {S A : Type} (body : M S A) (handler : string -> M S A)
  : M S A :=
  fun s =>
    match body s with
    | (inl a, s') => (inl a, s')
    | (inr e, s') => handler e s'
    end.

Declare Scope js_scope.
Delimit Scope js_scope with js.
Notation "x <- c ;; k" := (bind c (fun x => k))
  (at level 61, c at next level, right associativity) : js_scope.
Notation "c ;; k" := (bind c (fun _ => k))
  (at level 61, right associativity) : js_scope.
Open Scope js_scope.

(** [l.forEach(f)]; it stops at the first exception. *)
Fixpoint forEach {S A : Type} (f : A -> M S unit) (l : list A) : M S unit :=
  match l with
  | [] => ret tt
  | x :: rest => f x ;; forEach f rest
  end.

(** [l.forEach((x, index) => f)], counting from [i]. *)
Fixpoint forEachIndex {S A : Type} (f : A -> Z -> M S unit) (i : Z) (l : list A)
  : M S unit :=
  match l with
  | [] => ret tt
  | x :: rest => f x i ;; forEachIndex f (i + 1) rest
  end.

(** [l.some(f)]; it stops at the first element that satisfies [f]. *)
Fixpoint some {S A : Type} (f : A -> M S bool) (l : list A) : M S bool :=
  match l with
  | [] => ret false
  | x :: rest => b <- f x ;; if b then ret true else some f rest
  end.

(** A conditional statement without [else]. *)
Definition when {S : Type} (b : bool) (c : M S unit) : M S unit :=
  if b then c else ret tt.

(* ===================================================================== *)
(** ** class StructuredDataParser *)
(* ===================================================================== *)

Module StructuredDataParser.

Import Json.

(** The record [_processSchema] builds. *)
Record SchemaRecord : Type := {
  format : string;
  type : value;
  properties : list (string * value);
  schema_errors : list string;
  schema_warnings : list string
}.

(** The [results] object of [parse]; [formats], [validation] and [issues]
    are flattened into their fields.  [error] is absent until the
    handler of [parse] sets it. *)
Record Results : Type := {
  url : string;
  timestamp : string;
  status : string;
  error : option string;
  formats_jsonLd : list SchemaRecord;
  formats_microdata : list SchemaRecord;
  formats_rdfa : list SchemaRecord;
  schemas : list SchemaRecord;
  validation_errors : list string;
  validation_warnings : list string;
  recommendations : list string;
  score : Z;
  issues_critical : Z;
  issues_warnings : Z;
  issues_passed : Z
}.

(** Field updates. *)
Definition set_status (v : string) (r : Results) : Results :=
  Build_Results (url r) (timestamp r) v (error r) (formats_jsonLd r)
    (formats_microdata r) (formats_rdfa r) (schemas r) (validation_errors r)
    (validation_warnings r) (recommendations r) (score r) (issues_critical r)
    (issues_warnings r) (issues_passed r).

Definition set_error (v : option string) (r : Results) : Results :=
  Build_Results (url r) (timestamp r) (status r) v (formats_jsonLd r)
    (formats_microdata r) (formats_rdfa r) (schemas r) (validation_errors r)
    (validation_warnings r) (recommendations r) (score r) (issues_critical r)
    (issues_warnings r) (issues_passed r).

Definition set_formats_jsonLd (v : list SchemaRecord) (r : Results) : Results :=
  Build_Results (url r) (timestamp r) (status r) (error r) v
    (formats_microdata r) (formats_rdfa r) (schemas r) (validation_errors r)
    (validation_warnings r) (recommendations r) (score r) (issues_critical r)
    (issues_warnings r) (issues_passed r).

Definition set_formats_microdata (v : list SchemaRecord) (r : Results) : Results :=
  Build_Results (url r) (timestamp r) (status r) (error r) (formats_jsonLd r)
    v (formats_rdfa r) (schemas r) (validation_errors r)
    (validation_warnings r) (recommendations r) (score r) (issues_critical r)
    (issues_warnings r) (issues_passed r).

Definition set_formats_rdfa (v : list SchemaRecord) (r : Results) : Results :=
  Build_Results (url r) (timestamp r) (status r) (error r) (formats_jsonLd r)
    (formats_microdata r) v (schemas r) (validation_errors r)
    (validation_warnings r) (recommendations r) (score r) (issues_critical r)
    (issues_warnings r) (issues_passed r).

Definition set_schemas (v : list SchemaRecord) (r : Results) : Results :=
  Build_Results (url r) (timestamp r) (status r) (error r) (formats_jsonLd r)
    (formats_microdata r) (formats_rdfa r) v (validation_errors r)
    (validation_warnings r) (recommendations r) (score r) (issues_critical r)
    (issues_warnings r) (issues_passed r).

Definition set_validation_errors (v : list string) (r : Results) : Results :=
  Build_Results (url r) (timestamp r) (status r) (error r) (formats_jsonLd r)
    (formats_microdata r) (formats_rdfa r) (schemas r) v
    (validation_warnings r) (recommendations r) (score r) (issues_critical r)
    (issues_warnings r) (issues_passed r).

Definition set_validation_warnings (v : list string) (r : Results) : Results :=
  Build_Results (url r) (timestamp r) (status r) (error r) (formats_jsonLd r)
    (formats_microdata r) (formats_rdfa r) (schemas r) (validation_errors r)
    v (recommendations r) (score r) (issues_critical r)
    (issues_warnings r) (issues_passed r).

Definition set_recommendations (v : list string) (r : Results) : Results :=
  Build_Results (url r) (timestamp r) (status r) (error r) (formats_jsonLd r)
    (formats_microdata r) (formats_rdfa r) (schemas r) (validation_errors r)
    (validation_warnings r) v (score r) (issues_critical r)
    (issues_warnings r) (issues_passed r).

Definition set_score (v : Z) (r : Results) : Results :=
  Build_Results (url r) (timestamp r) (status r) (error r) (formats_jsonLd r)
    (formats_microdata r) (formats_rdfa r) (schemas r) (validation_errors r)
    (validation_warnings r) (recommendations r) v (issues_critical r)
    (issues_warnings r) (issues_passed r).

Definition set_issues_critical (v : Z) (r : Results) : Results :=
  Build_Results (url r) (timestamp r) (status r) (error r) (formats_jsonLd r)
    (formats_microdata r) (formats_rdfa r) (schemas r) (validation_errors r)
    (validation_warnings r) (recommendations r) (score r) v
    (issues_warnings r) (issues_passed r).

Definition set_issues_warnings (v : Z) (r : Results) : Results :=
  Build_Results (url r) (timestamp r) (status r) (error r) (formats_jsonLd r)
    (formats_microdata r) (formats_rdfa r) (schemas r) (validation_errors r)
    (validation_warnings r) (recommendations r) (score r) (issues_critical r)
    v (issues_passed r).

Definition set_issues_passed (v : Z) (r : Results) : Results :=
  Build_Results (url r) (timestamp r) (status r) (error r) (formats_jsonLd r)
    (formats_microdata r) (formats_rdfa r) (schemas r) (validation_errors r)
    (validation_warnings r) (recommendations r) (score r) (issues_critical r)
    (issues_warnings r) v.

(** The statements the methods repeat. *)

(** [results.validation.errors.push(msg)] *)
Definition push_error (msg : string) : M Results unit :=
  modify (fun r => set_validation_errors (validation_errors r ++ [msg]) r).

(** [results.validation.warnings.push(msg)] *)
Definition push_warning (msg : string) : M Results unit :=
  modify (fun r => set_validation_warnings (validation_warnings r ++ [msg]) r).

(** [results.recommendations.push(msg)] *)
Definition push_recommendation (msg : string) : M Results unit :=
  modify (fun r => set_recommendations (recommendations r ++ [msg]) r).

(** [results.issues.critical++] *)
Definition incr_critical : M Results unit :=
  modify (fun r => set_issues_critical (issues_critical r + 1) r).

(** [results.issues.warnings++] *)
Definition incr_warnings : M Results unit :=
  modify (fun r => set_issues_warnings (issues_warnings r + 1) r).

(** The object literal at the head of [parse]; [now] is what
    [new Date().toISOString()] returns at the call. *)
Definition initial (url now : string) : Results := {|
  url := url;
  timestamp := now;
  status := "completed";
  error := None;
  formats_jsonLd := [];
  formats_microdata := [];
  formats_rdfa := [];
  schemas := [];
  validation_errors := [];
  validation_warnings := [];
  recommendations := [];
  score := 100;
  issues_critical := 0;
  issues_warnings := 0;
  issues_passed := 0
|}.

Section Methods.

(** [JSON.parse]: the decoded value, or the message of the SyntaxError. *)
Variable JSON_parse : string -> value + string.

(** [!isNaN(new Date(v))]: whether the Date constructor accepts [v]. *)
Variable Date_accepts : value -> bool.

(** The class declares neither [_validateSchemaType], nor
    [_extractNestedMicrodata], nor [_validateLocalBusiness].  Reading such a
    member of [this] gives [undefined]; calling it raises the TypeError
    whose message V8 words as below. *)
Definition _validateSchemaType (processed : SchemaRecord) : M Results unit :=
  throw "this._validateSchemaType is not a function".

Definition _extractNestedMicrodata (e : Dom.located) : M Results value :=
  throw "this._extractNestedMicrodata is not a function".

(** [s] without the prefix [p], when it has it. *)
Fixpoint strip_prefix (p s : string) : option string :=
  match p, s with
  | EmptyString, _ => Some s
  | String a p', String b s' => if Ascii.eqb a b then strip_prefix p' s' else None
  | String _ _, EmptyString => None
  end.

(** What [.] of a regular expression matches: no LF, no CR. *)
Fixpoint noLineTerminator (s : string) : bool :=
  match s with
  | EmptyString => true
  | String c s' =>
      negb (Nat.eqb (nat_of_ascii c) 10) && negb (Nat.eqb (nat_of_ascii c) 13)
      && noLineTerminator s'
  end.

(** [url.match(/schema\.org\/(.+)$/)]: the capture of the leftmost match. *)
Fixpoint match_schema_org (s : string) : option string :=
  match strip_prefix "schema.org/" s with
  | Some rest =>
      if JS.truthyString rest && noLineTerminator rest then Some rest
      else match s with
           | EmptyString => None
           | String _ s' => match_schema_org s'
           end
  | None =>
      match s with
      | EmptyString => None
      | String _ s' => match_schema_org s'
      end
  end.

Definition _extractTypeFromUrl (url : string) : string :=
  match match_schema_org url with
  | Some t => t
  | None => "Thing"
  end.

Definition _isValidDate (dateString : value) : bool := Date_accepts dateString.

(** *** _processSchema *)

(** The object literal and the [Object.keys] loop, then the call of the
    undeclared method: the record is built and then lost to the TypeError. *)
Definition processed_of (schema : value) (format : string) : SchemaRecord := {|
  format := format;
  type := match lookup "@type" (entries schema) with
          | Some t => if truthy t then t else JString "Unknown"
          | None => JString "Unknown"
          end;
  properties :=
    filter (fun kv => negb (JS.startsWith "@" (fst kv))
                      && negb (String.eqb (fst kv) "_format"))
           (entries schema);
  schema_errors := [];
  schema_warnings := []
|}.

Definition _processSchema (schema : value) (format : string)
  : M Results SchemaRecord :=
  let processed := processed_of schema format in
  _validateSchemaType processed ;;
  ret processed.

(** *** _parseJsonLd *)

Definition is_jsonld_script (n : Dom.node) : bool :=
  Dom.is_tag "script" n && Dom.attr_is_nocase "type" "application/ld+json" n.

(** [$(elem).html()] of a script element: its raw text. *)
Definition html (n : Dom.node) : string := Dom.text n.

Definition _parseJsonLd (doc : Dom.document) : M Results unit :=
  let scripts := Dom.select is_jsonld_script doc in
  forEach (fun l =>
    let content := html (Dom.elem l) in
    try_catch
      (match JSON_parse content with
       | inr message => throw message
       | inl json =>
           let items := toArray json in
           forEach (fun schema =>
             when (truthy schema && typeofObject schema)
               (processed <- _processSchema schema "JSON-LD" ;;
                modify (fun r => set_formats_jsonLd (formats_jsonLd r ++ [processed]) r) ;;
                modify (fun r => set_schemas (schemas r ++ [processed]) r)))
             items
       end)
      (fun message =>
         push_error ("Invalid JSON-LD: " +:+ message) ;;
         incr_critical))
    scripts.

(** *** Microdata *)

Definition _getMicrodataValue (e : Dom.located) : M Results value :=
  match Dom.attr (Dom.elem e) "itemscope" with
  | Some _ => _extractNestedMicrodata e
  | None =>
      (* Order matters: content, src, href, text *)
      let n := Dom.elem e in
      ret (JString
             (JS.orElse (Dom.attr n "content")
                (JS.orElse (Dom.attr n "src")
                   (JS.orElse (Dom.attr n "href")
                      (JS.trim (Dom.text n))))))
  end.

(** The guard of the loop,
    [propName && !$prop.parents('[itemscope]').length > 1].
    Negation binds tighter than [>]: the operand of [>] is the boolean
    [!length], which ToNumber turns into 0 or 1. *)
Definition microdata_guard (propName : string) (prop : Dom.located) : bool :=
  let length := Z.of_nat (List.length (Dom.parents (Dom.has_attr "itemscope") prop)) in
  JS.truthyString propName && (JS.boolToNumber (length =? 0) >? 1).

Definition _extractMicrodataProperties (item : Dom.located)
  (schema : list (string * value)) : M Results (list (string * value)) :=
  let properties := Dom.find (Dom.has_attr "itemprop") item in
  fold_left
    (fun (acc : M Results (list (string * value))) prop =>
       schema <- acc ;;
       match Dom.attr (Dom.elem prop) "itemprop" with
       | Some propName =>
           if microdata_guard propName prop then
             v <- _getMicrodataValue prop ;;
             if truthy_opt (lookup propName schema) then
               (* Convert to array if multiple values *)
               match lookup propName schema with
               | Some old => ret (set propName (JArray (toArray old ++ [v])) schema)
               | None => ret schema
               end
             else ret (set propName v schema)
           else ret schema
       | None => ret schema
       end)
    properties (ret schema).

Definition _parseMicrodata (doc : Dom.document) : M Results unit :=
  let items := Dom.select (Dom.has_attr "itemscope") doc in
  forEach (fun item =>
    match Dom.attr (Dom.elem item) "itemtype" with
    | Some itemType =>
        when (JS.truthyString itemType)
          (let schema := [("@type", JString (_extractTypeFromUrl itemType));
                          ("@context", JString "http://schema.org");
                          ("_format", JString "Microdata")] in
           (* Extract properties *)
           schema <- _extractMicrodataProperties item schema ;;
           processed <- _processSchema (JObject schema) "Microdata" ;;
           modify (fun r => set_formats_microdata (formats_microdata r ++ [processed]) r) ;;
           modify (fun r => set_schemas (schemas r ++ [processed]) r))
    | None => ret tt
    end)
    items.

(** *** RDFa *)

(** [schema[propName] = content] on the object literal of [_parseRDFa], for
    a string [content].  The key [__proto__] names the accessor that the
    literal inherits from [Object.prototype], and its setter ignores a
    string: that assignment stores nothing. *)
Definition assign (propName content : string) (schema : list (string * value))
  : list (string * value) :=
  if String.eqb propName "__proto__" then schema
  else set propName (JString content) schema.

Definition _extractRDFaProperties (e : Dom.located)
  (schema : list (string * value)) : list (string * value) :=
  let properties := Dom.find (Dom.has_attr "property") e in
  fold_left
    (fun schema prop =>
       let n := Dom.elem prop in
       let content := JS.orElse (Dom.attr n "content") (JS.trim (Dom.text n)) in
       match Dom.attr n "property" with
       | Some propName =>
           if JS.truthyString propName && JS.truthyString content
           then assign propName content schema
           else schema
       | None => schema
       end)
    properties schema.

Definition _parseRDFa (doc : Dom.document) : M Results unit :=
  let rdfaElements := Dom.select (Dom.has_attr "typeof") doc in
  forEach (fun e =>
    let vocab := JS.orElse (Dom.attr (Dom.elem e) "vocab") "http://schema.org/" in
    match Dom.attr (Dom.elem e) "typeof" with
    | Some type =>
        when (JS.truthyString type)
          (let schema := [("@type", JString type);
                          ("@context", JString vocab);
                          ("_format", JString "RDFa")] in
           (* Extract RDFa properties *)
           let schema := _extractRDFaProperties e schema in
           processed <- _processSchema (JObject schema) "RDFa" ;;
           modify (fun r => set_formats_rdfa (formats_rdfa r ++ [processed]) r) ;;
           modify (fun r => set_schemas (schemas r ++ [processed]) r))
    | None => ret tt
    end)
    rdfaElements.

(** *** Validation *)

(** [schema.properties[prop]] used as a condition. *)
Definition has (schema : SchemaRecord) (prop : string) : bool :=
  truthy_opt (lookup prop (properties schema)).

(** [v[k]] inside a validator; reading a property of [null] raises. *)
Definition read (v : value) (k : string) : M Results (option value) :=
  match member v k with
  | Some o => ret o
  | None => throw ("Cannot read properties of null (reading '" +:+ k +:+ "')")
  end.

Definition _checkRequiredProperties (schema : SchemaRecord) (required : list string)
  : M Results unit :=
  forEach (fun prop =>
    when (negb (has schema prop))
      (push_error (ToString (type schema) +:+ " missing required property: " +:+ prop) ;;
       incr_critical))
    required.

Definition _checkRecommendedProperties (schema : SchemaRecord)
  (recommended : list string) : M Results unit :=
  let missing := filter (fun prop => negb (has schema prop)) recommended in
  when (0 <? Z.of_nat (List.length missing))
    (push_warning (ToString (type schema) +:+ " missing recommended properties: "
                   +:+ JS.join ", " missing) ;;
     incr_warnings).

Definition _validateOrganization (schema : SchemaRecord) : M Results unit :=
  let required := ["name"; "url"] in
  let recommended := ["logo"; "sameAs"; "contactPoint"; "address"] in
  _checkRequiredProperties schema required ;;
  _checkRecommendedProperties schema recommended ;;
  (* Special validation for logo *)
  when (has schema "logo"
        && match lookup "logo" (properties schema) with
           | Some v => isString v
           | None => false
           end)
    (push_warning "Organization logo should be an ImageObject with width and height" ;;
     incr_warnings).

Definition _validateProduct (schema : SchemaRecord) : M Results unit :=
  let required := ["name"; "image"] in
  let recommended :=
    ["description"; "sku"; "offers"; "aggregateRating"; "brand"; "review"] in
  _checkRequiredProperties schema required ;;
  _checkRecommendedProperties schema recommended ;;
  (* Validate offers *)
  match lookup "offers" (properties schema) with
  | Some v =>
      when (truthy v)
        (forEach (fun offer =>
           price <- read offer "price" ;;
           noPrice <- (if negb (truthy_opt price)
                       then priceRange <- read offer "priceRange" ;;
                            ret (negb (truthy_opt priceRange))
                       else ret false) ;;
           when noPrice
             (push_error "Product offer missing price information" ;;
              incr_critical) ;;
           priceCurrency <- read offer "priceCurrency" ;;
           when (negb (truthy_opt priceCurrency))
             (push_error "Product offer missing priceCurrency" ;;
              incr_critical))
           (toArray v))
  | None => ret tt
  end ;;
  (* Check for rich results eligibility *)
  when (negb (has schema "aggregateRating") && negb (has schema "review"))
    (push_warning "Product missing ratings/reviews - needed for rich results" ;;
     incr_warnings).

Definition _validateArticle (schema : SchemaRecord) : M Results unit :=
  let required := ["headline"; "image"; "author"; "datePublished"] in
  let recommended := ["dateModified"; "publisher"; "mainEntityOfPage"; "description"] in
  _checkRequiredProperties schema required ;;
  _checkRecommendedProperties schema recommended ;;
  (* Validate images *)
  match lookup "image" (properties schema) with
  | Some v =>
      when (truthy v && (Z.of_nat (List.length (toArray v)) =? 0))
        (push_error "Article requires at least one image" ;;
         incr_critical)
  | None => ret tt
  end ;;
  (* Validate dates *)
  match lookup "datePublished" (properties schema) with
  | Some v =>
      when (truthy v && negb (_isValidDate v))
        (push_error "Invalid datePublished format - use ISO 8601" ;;
         incr_critical)
  | None => ret tt
  end.

Definition _validateBreadcrumbList (schema : SchemaRecord) : M Results unit :=
  match lookup "itemListElement" (properties schema) with
  | Some v =>
      if truthy v then
        forEachIndex (fun item index =>
          position <- read item "position" ;;
          when (negb (truthy_opt position))
            (push_error ("BreadcrumbList item " +:+ JS.numberToString index
                         +:+ " missing position") ;;
             incr_critical) ;;
          name <- read item "name" ;;
          when (negb (truthy_opt name))
            (push_error ("BreadcrumbList item " +:+ JS.numberToString index
                         +:+ " missing name") ;;
             incr_critical))
          0 (toArray v)
      else push_error "BreadcrumbList missing itemListElement" ;; incr_critical
  | None => push_error "BreadcrumbList missing itemListElement" ;; incr_critical
  end.

Definition _validateFAQPage (schema : SchemaRecord) : M Results unit :=
  match lookup "mainEntity" (properties schema) with
  | Some v =>
      if truthy v then
        forEachIndex (fun question index =>
          name <- read question "name" ;;
          when (negb (truthy_opt name))
            (push_error ("FAQ question " +:+ JS.numberToString index
                         +:+ " missing name") ;;
             incr_critical) ;;
          acceptedAnswer <- read question "acceptedAnswer" ;;
          match acceptedAnswer with
          | Some a =>
              if truthy a then
                text <- read a "text" ;;
                when (negb (truthy_opt text))
                  (push_error ("FAQ question " +:+ JS.numberToString index
                               +:+ " acceptedAnswer missing text") ;;
                   incr_critical)
              else
                push_error ("FAQ question " +:+ JS.numberToString index
                            +:+ " missing acceptedAnswer") ;;
                incr_critical
          | None =>
              push_error ("FAQ question " +:+ JS.numberToString index
                          +:+ " missing acceptedAnswer") ;;
              incr_critical
          end)
          0 (toArray v)
      else push_error "FAQPage missing mainEntity" ;; incr_critical
  | None => push_error "FAQPage missing mainEntity" ;; incr_critical
  end.

Definition _validateRecipe (schema : SchemaRecord) : M Results unit :=
  let required := ["name"; "image"; "recipeIngredient"; "recipeInstructions"] in
  let recommended :=
    ["prepTime"; "cookTime"; "totalTime"; "recipeYield";
     "nutrition"; "aggregateRating"; "author"; "description"] in
  _checkRequiredProperties schema required ;;
  _checkRecommendedProperties schema recommended.

Definition _validateEvent (schema : SchemaRecord) : M Results unit :=
  let required := ["name"; "startDate"; "location"] in
  let recommended := ["endDate"; "description"; "image"; "performer"; "offers"] in
  _checkRequiredProperties schema required ;;
  _checkRecommendedProperties schema recommended ;;
  (* Validate dates *)
  match lookup "startDate" (properties schema) with
  | Some v =>
      when (truthy v && negb (_isValidDate v))
        (push_error "Invalid startDate format - use ISO 8601" ;;
         incr_critical)
  | None => ret tt
  end.

Definition _validatePerson (schema : SchemaRecord) : M Results unit :=
  let required := ["name"] in
  let recommended := ["image"; "jobTitle"; "worksFor"; "sameAs"; "url"] in
  _checkRequiredProperties schema required ;;
  _checkRecommendedProperties schema recommended.

Definition _validateWebSite (schema : SchemaRecord) : M Results unit :=
  let required := ["name"; "url"] in
  let recommended := ["potentialAction"; "publisher"] in
  _checkRequiredProperties schema required ;;
  _checkRecommendedProperties schema recommended ;;
  (* Check for SearchAction *)
  when (negb (has schema "potentialAction"))
    (push_warning "WebSite schema missing SearchAction - add for sitelinks searchbox" ;;
     incr_warnings).

Definition _validateSearchAction (schema : SchemaRecord) : M Results unit :=
  let required := ["target"; "query-input"] in
  _checkRequiredProperties schema required ;;
  (* Validate target *)
  match lookup "target" (properties schema) with
  | Some (JString target) =>
      when (JS.truthyString target && negb (JS.includes "{search_term_string}" target))
        (push_error "SearchAction target must include {search_term_string} placeholder" ;;
         incr_critical)
  | _ => ret tt
  end.

(** The members every object literal inherits from [Object.prototype] whose
    call with [(schema, results)] returns without touching [results]. *)
Definition inherited_quiet : list string :=
  ["constructor"; "toString"; "valueOf"; "hasOwnProperty"; "isPrototypeOf";
   "propertyIsEnumerable"; "toLocaleString"; "__lookupGetter__"; "__lookupSetter__"].

(** The table [typeValidators], read at a key.  [_validateLocalBusiness] is
    not declared, so that entry holds [undefined] and the test
    [if (validator)] skips it like a type without an entry.  A key that
    names an inherited member finds that member: most return quietly,
    [__defineGetter__] and [__defineSetter__] reject [results] as accessor,
    and [__proto__] is an object without [call]. *)
Definition typeValidators (key : string) : option (SchemaRecord -> M Results unit) :=
  if String.eqb key "Organization" then Some _validateOrganization
  else if String.eqb key "LocalBusiness" then None
  else if String.eqb key "Product" then Some _validateProduct
  else if String.eqb key "Article" then Some _validateArticle
  else if String.eqb key "BlogPosting" then Some _validateArticle
  else if String.eqb key "NewsArticle" then Some _validateArticle
  else if String.eqb key "BreadcrumbList" then Some _validateBreadcrumbList
  else if String.eqb key "FAQPage" then Some _validateFAQPage
  else if String.eqb key "Recipe" then Some _validateRecipe
  else if String.eqb key "Event" then Some _validateEvent
  else if String.eqb key "Person" then Some _validatePerson
  else if String.eqb key "WebSite" then Some _validateWebSite
  else if String.eqb key "SearchAction" then Some _validateSearchAction
  else if existsb (String.eqb key) inherited_quiet then Some (fun _ => ret tt)
  else if String.eqb key "__defineGetter__"
  then Some (fun _ => throw "Object.prototype.__defineGetter__: Expecting function")
  else if String.eqb key "__defineSetter__"
  then Some (fun _ => throw "Object.prototype.__defineSetter__: Expecting function")
  else if String.eqb key "__proto__"
  then Some (fun _ => throw "validator.call is not a function")
  else None.

Definition _validateSchemas : M Results unit :=
  all <- gets schemas ;;
  forEach (fun schema =>
    match typeValidators (ToString (type schema)) with
    | Some validator => validator schema
    | None => ret tt
    end)
    all.

(** *** Recommendations *)

Definition _detectPageType (url : string) (schemaTypes : list value) : string :=
  let urlLower := JS.toLowerCase url in
  if JS.endsWith "/" url || JS.includes "/home" urlLower then "homepage"
  else if JS.includes "/product" urlLower || JS.includes "/item" urlLower then "product"
  else if JS.includes "/article" urlLower || JS.includes "/blog" urlLower then "article"
  else if JS.includes "/category" urlLower || JS.includes "/shop" urlLower then "category"
  else if JS.includes "/faq" urlLower then "faq"
  else if JS.includes "/contact" urlLower || JS.includes "/location" urlLower then "local"
  else if JS.includes "/event" urlLower then "event"
  (* Check by existing schemas *)
  else if existsb (fun t => match t with JString s => String.eqb s "Product" | _ => false end)
            schemaTypes then "product"
  else if existsb (fun t => match t with
                            | JString s => existsb (String.eqb s)
                                             ["Article"; "BlogPosting"; "NewsArticle"]
                            | _ => false
                            end) schemaTypes then "article"
  else "general".

(** The table [recommendations], read at an own key. *)
Definition recommendations_for (pageType : string) : option (list string) :=
  if String.eqb pageType "homepage"
  then Some ["Organization or LocalBusiness"; "WebSite with SearchAction"; "BreadcrumbList"]
  else if String.eqb pageType "product"
  then Some ["Product with offers and reviews"; "BreadcrumbList"; "Organization"]
  else if String.eqb pageType "article"
  then Some ["Article or BlogPosting"; "BreadcrumbList"; "Author (Person)"; "Publisher"]
  else if String.eqb pageType "category"
  then Some ["BreadcrumbList"; "ItemList"; "WebPage"]
  else if String.eqb pageType "faq"
  then Some ["FAQPage"; "BreadcrumbList"; "Organization"]
  else if String.eqb pageType "local"
  then Some ["LocalBusiness with address"; "OpeningHoursSpecification"; "Review"]
  else if String.eqb pageType "event"
  then Some ["Event with location and dates"; "Organization"; "Offers"]
  else None.

(** [type.toLowerCase()]: a method of strings only. *)
Definition toLowerCase_of (t : value) : M Results string :=
  match t with
  | JString s => ret (JS.toLowerCase s)
  | JNull => throw "Cannot read properties of null (reading 'toLowerCase')"
  | _ => throw "type.toLowerCase is not a function"
  end.

Definition _analyzeAndRecommend (url : string) : M Results unit :=
  schemaTypes <- gets (fun results => map type (schemas results)) ;;
  let pageType := _detectPageType url schemaTypes in
  let recommended :=
    match recommendations_for pageType with
    | Some l => l
    | None => ["Organization or LocalBusiness"; "WebSite with SearchAction"; "BreadcrumbList"]
    end in
  forEach (fun rec =>
    hasSchema <- some (fun t =>
                   lower <- toLowerCase_of t ;;
                   ret (JS.includes lower (JS.toLowerCase rec)))
                 schemaTypes ;;
    when (negb hasSchema)
      (push_recommendation ("Consider adding " +:+ rec +:+ " schema")))
    recommended ;;
  (* General recommendations *)
  found <- gets (fun results => Z.of_nat (List.length (schemas results))) ;;
  when (found =? 0)
    (push_recommendation
       "No structured data found - add appropriate schemas for rich results") ;;
  jsonLd <- gets (fun results => Z.of_nat (List.length (formats_jsonLd results))) ;;
  when (jsonLd =? 0)
    (push_recommendation
       "Use JSON-LD format for structured data (Google's preferred format)") ;;
  (* Calculate passed checks *)
  modify (fun r =>
    set_issues_passed
      (Z.of_nat (List.length (schemas r)) - issues_critical r - issues_warnings r) r).

(** *** Score *)

Definition _calculateScore : M Results unit :=
  modify (fun results =>
    let score := 100 in
    (* Deduct for errors (15 points each) *)
    let score := score - Z.of_nat (List.length (validation_errors results)) * 15 in
    (* Deduct for warnings (5 points each) *)
    let score := score - Z.of_nat (List.length (validation_warnings results)) * 5 in
    (* Bonus for having schemas *)
    let score :=
      if 0 <? Z.of_nat (List.length (schemas results)) then score + 10 else score in
    (* Bonus for using JSON-LD *)
    let score :=
      if 0 <? Z.of_nat (List.length (formats_jsonLd results)) then score + 5 else score in
    set_score (JS.Math_max 0 (JS.Math_min 100 score)) results).

(** *** parse *)

(** The [try] statement of [parse].  [response] is what [axios.get]
    followed by [cheerio.load] gives: the parsed document, or the message of
    the error that rejected the request. *)
Definition parse_try (url : string) (response : Dom.document + string)
  : M Results unit :=
  try_catch
    (match response with
     | inr message => throw message
     | inl doc =>
         (* Parse different formats *)
         _parseJsonLd doc ;;
         _parseMicrodata doc ;;
         _parseRDFa doc ;;
         (* Validate schemas *)
         _validateSchemas ;;
         (* Analyze page type and generate recommendations *)
         _analyzeAndRecommend url ;;
         (* Calculate final score *)
         _calculateScore
     end)
    (fun message =>
       modify (set_status "error") ;;
       modify (set_error (Some message)) ;;
       push_error ("Failed to fetch URL: " +:+ message)).

(** The body of [parse] run on the freshly built [results]: the [try]
    statement, then [return results]. *)
Definition parse_body (url : string) (response : Dom.document + string)
  : M Results Results :=
  parse_try url response ;;
  get_state.

(** [parse(url)] called when the clock reads [now]: [inl] is the value the
    promise resolves to, [inr] the message of an exception that escapes. *)
Definition parse (now url : string) (response : Dom.document + string)
  : Results + string :=
  fst (parse_body url response (initial url now)).

End Methods.

End StructuredDataParser.

(* ===================================================================== *)
(** ** class MetaExtractor *)
(* ===================================================================== *)

Module MetaExtractor.

(** A value of the [meta] object: [null], a trimmed string, or the
    [{content, length}] object of the title and the description. *)
Inductive metaValue : Type :=
| MNull
| MString (s : string)
| MContent (content : string) (length : Z).

(** An entry of [images.images]. *)
Record ImageInfo : Type := {
  src : string;
  alt : string;
  title : string;
  width : string;
  height : string
}.

(** The [results] object of [extract]; [headings], [images] and [links] are
    flattened into their fields.  [error] is absent until the handler of
    [extract] sets it. *)
Record Results : Type := {
  url : string;
  timestamp : string;
  status : string;
  error : option string;
  meta : list (string * metaValue);
  headings_h1 : list string;
  headings_h2 : list string;
  headings_h3 : list string;
  headings_h4 : list string;
  headings_h5 : list string;
  headings_h6 : list string;
  images_total : Z;
  images_withAlt : Z;
  images_withoutAlt : Z;
  images_images : list ImageInfo;
  links_internal : Z;
  links_external : Z;
  links_total : Z;
  issues : list string;
  warnings : list string;
  recommendations : list string;
  score : Z
}.

(** Field updates. *)
Definition set_status (v : string) (r : Results) : Results :=
  Build_Results (url r) (timestamp r) v (error r) (meta r) (headings_h1 r)
    (headings_h2 r) (headings_h3 r) (headings_h4 r) (headings_h5 r)
    (headings_h6 r) (images_total r) (images_withAlt r) (images_withoutAlt r)
    (images_images r) (links_internal r) (links_external r) (links_total r)
    (issues r) (warnings r) (recommendations r) (score r).

Definition set_error (v : option string) (r : Results) : Results :=
  Build_Results (url r) (timestamp r) (status r) v (meta r) (headings_h1 r)
    (headings_h2 r) (headings_h3 r) (headings_h4 r) (headings_h5 r)
    (headings_h6 r) (images_total r) (images_withAlt r) (images_withoutAlt r)
    (images_images r) (links_internal r) (links_external r) (links_total r)
    (issues r) (warnings r) (recommendations r) (score r).

Definition set_meta (v : list (string * metaValue)) (r : Results) : Results :=
  Build_Results (url r) (timestamp r) (status r) (error r) v (headings_h1 r)
    (headings_h2 r) (headings_h3 r) (headings_h4 r) (headings_h5 r)
    (headings_h6 r) (images_total r) (images_withAlt r) (images_withoutAlt r)
    (images_images r) (links_internal r) (links_external r) (links_total r)
    (issues r) (warnings r) (recommendations r) (score r).

Definition set_headings_h1 (v : list string) (r : Results) : Results :=
  Build_Results (url r) (timestamp r) (status r) (error r) (meta r) v
    (headings_h2 r) (headings_h3 r) (headings_h4 r) (headings_h5 r)
    (headings_h6 r) (images_total r) (images_withAlt r) (images_withoutAlt r)
    (images_images r) (links_internal r) (links_external r) (links_total r)
    (issues r) (warnings r) (recommendations r) (score r).

Definition set_headings_h2 (v : list string) (r : Results) : Results :=
  Build_Results (url r) (timestamp r) (status r) (error r) (meta r)
    (headings_h1 r) v (headings_h3 r) (headings_h4 r) (headings_h5 r)
    (headings_h6 r) (images_total r) (images_withAlt r) (images_withoutAlt r)
    (images_images r) (links_internal r) (links_external r) (links_total r)
    (issues r) (warnings r) (recommendations r) (score r).

Definition set_headings_h3 (v : list string) (r : Results) : Results :=
  Build_Results (url r) (timestamp r) (status r) (error r) (meta r)
    (headings_h1 r) (headings_h2 r) v (headings_h4 r) (headings_h5 r)
    (headings_h6 r) (images_total r) (images_withAlt r) (images_withoutAlt r)
    (images_images r) (links_internal r) (links_external r) (links_total r)
    (issues r) (warnings r) (recommendations r) (score r).

Definition set_headings_h4 (v : list string) (r : Results) : Results :=
  Build_Results (url r) (timestamp r) (status r) (error r) (meta r)
    (headings_h1 r) (headings_h2 r) (headings_h3 r) v (headings_h5 r)
    (headings_h6 r) (images_total r) (images_withAlt r) (images_withoutAlt r)
    (images_images r) (links_internal r) (links_external r) (links_total r)
    (issues r) (warnings r) (recommendations r) (score r).

Definition set_headings_h5 (v : list string) (r : Results) : Results :=
  Build_Results (url r) (timestamp r) (status r) (error r) (meta r)
    (headings_h1 r) (headings_h2 r) (headings_h3 r) (headings_h4 r) v
    (headings_h6 r) (images_total r) (images_withAlt r) (images_withoutAlt r)
    (images_images r) (links_internal r) (links_external r) (links_total r)
    (issues r) (warnings r) (recommendations r) (score r).

Definition set_headings_h6 (v : list string) (r : Results) : Results :=
  Build_Results (url r) (timestamp r) (status r) (error r) (meta r)
    (headings_h1 r) (headings_h2 r) (headings_h3 r) (headings_h4 r)
    (headings_h5 r) v (images_total r) (images_withAlt r)
    (images_withoutAlt r) (images_images r) (links_internal r)
    (links_external r) (links_total r) (issues r) (warnings r)
    (recommendations r) (score r).

Definition set_images_total (v : Z) (r : Results) : Results :=
  Build_Results (url r) (timestamp r) (status r) (error r) (meta r)
    (headings_h1 r) (headings_h2 r) (headings_h3 r) (headings_h4 r)
    (headings_h5 r) (headings_h6 r) v (images_withAlt r) (images_withoutAlt r)
    (images_images r) (links_internal r) (links_external r) (links_total r)
    (issues r) (warnings r) (recommendations r) (score r).

Definition set_images_withAlt (v : Z) (r : Results) : Results :=
  Build_Results (url r) (timestamp r) (status r) (error r) (meta r)
    (headings_h1 r) (headings_h2 r) (headings_h3 r) (headings_h4 r)
    (headings_h5 r) (headings_h6 r) (images_total r) v (images_withoutAlt r)
    (images_images r) (links_internal r) (links_external r) (links_total r)
    (issues r) (warnings r) (recommendations r) (score r).

Definition set_images_withoutAlt (v : Z) (r : Results) : Results :=
  Build_Results (url r) (timestamp r) (status r) (error r) (meta r)
    (headings_h1 r) (headings_h2 r) (headings_h3 r) (headings_h4 r)
    (headings_h5 r) (headings_h6 r) (images_total r) (images_withAlt r) v
    (images_images r) (links_internal r) (links_external r) (links_total r)
    (issues r) (warnings r) (recommendations r) (score r).

Definition set_images_images (v : list ImageInfo) (r : Results) : Results :=
  Build_Results (url r) (timestamp r) (status r) (error r) (meta r)
    (headings_h1 r) (headings_h2 r) (headings_h3 r) (headings_h4 r)
    (headings_h5 r) (headings_h6 r) (images_total r) (images_withAlt r)
    (images_withoutAlt r) v (links_internal r) (links_external r)
    (links_total r) (issues r) (warnings r) (recommendations r) (score r).

Definition set_links_internal (v : Z) (r : Results) : Results :=
  Build_Results (url r) (timestamp r) (status r) (error r) (meta r)
    (headings_h1 r) (headings_h2 r) (headings_h3 r) (headings_h4 r)
    (headings_h5 r) (headings_h6 r) (images_total r) (images_withAlt r)
    (images_withoutAlt r) (images_images r) v (links_external r)
    (links_total r) (issues r) (warnings r) (recommendations r) (score r).

Definition set_links_external (v : Z) (r : Results) : Results :=
  Build_Results (url r) (timestamp r) (status r) (error r) (meta r)
    (headings_h1 r) (headings_h2 r) (headings_h3 r) (headings_h4 r)
    (headings_h5 r) (headings_h6 r) (images_total r) (images_withAlt r)
    (images_withoutAlt r) (images_images r) (links_internal r) v
    (links_total r) (issues r) (warnings r) (recommendations r) (score r).

Definition set_links_total (v : Z) (r : Results) : Results :=
  Build_Results (url r) (timestamp r) (status r) (error r) (meta r)
    (headings_h1 r) (headings_h2 r) (headings_h3 r) (headings_h4 r)
    (headings_h5 r) (headings_h6 r) (images_total r) (images_withAlt r)
    (images_withoutAlt r) (images_images r) (links_internal r)
    (links_external r) v (issues r) (warnings r) (recommendations r) (score r).

Definition set_issues (v : list string) (r : Results) : Results :=
  Build_Results (url r) (timestamp r) (status r) (error r) (meta r)
    (headings_h1 r) (headings_h2 r) (headings_h3 r) (headings_h4 r)
    (headings_h5 r) (headings_h6 r) (images_total r) (images_withAlt r)
    (images_withoutAlt r) (images_images r) (links_internal r)
    (links_external r) (links_total r) v (warnings r) (recommendations r)
    (score r).

Definition set_warnings (v : list string) (r : Results) : Results :=
  Build_Results (url r) (timestamp r) (status r) (error r) (meta r)
    (headings_h1 r) (headings_h2 r) (headings_h3 r) (headings_h4 r)
    (headings_h5 r) (headings_h6 r) (images_total r) (images_withAlt r)
    (images_withoutAlt r) (images_images r) (links_internal r)
    (links_external r) (links_total r) (issues r) v (recommendations r)
    (score r).

Definition set_recommendations (v : list string) (r : Results) : Results :=
  Build_Results (url r) (timestamp r) (status r) (error r) (meta r)
    (headings_h1 r) (headings_h2 r) (headings_h3 r) (headings_h4 r)
    (headings_h5 r) (headings_h6 r) (images_total r) (images_withAlt r)
    (images_withoutAlt r) (images_images r) (links_internal r)
    (links_external r) (links_total r) (issues r) (warnings r) v (score r).

Definition set_score (v : Z) (r : Results) : Results :=
  Build_Results (url r) (timestamp r) (status r) (error r) (meta r)
    (headings_h1 r) (headings_h2 r) (headings_h3 r) (headings_h4 r)
    (headings_h5 r) (headings_h6 r) (images_total r) (images_withAlt r)
    (images_withoutAlt r) (images_images r) (links_internal r)
    (links_external r) (links_total r) (issues r) (warnings r)
    (recommendations r) v.

(** The object literal at the head of [extract]; [now] is what
    [new Date().toISOString()] returns at the call. *)
Definition initial (url now : string) : Results := {|
  url := url;
  timestamp := now;
  status := "completed";
  error := None;
  meta := [("title", MNull); ("description", MNull); ("keywords", MNull);
           ("robots", MNull); ("canonical", MNull); ("viewport", MNull);
           ("charset", MNull); ("og:title", MNull); ("og:description", MNull);
           ("og:image", MNull); ("og:url", MNull); ("og:type", MNull);
           ("twitter:card", MNull); ("twitter:title", MNull);
           ("twitter:description", MNull); ("twitter:image", MNull)];
  headings_h1 := []; headings_h2 := []; headings_h3 := [];
  headings_h4 := []; headings_h5 := []; headings_h6 := [];
  images_total := 0; images_withAlt := 0; images_withoutAlt := 0;
  images_images := [];
  links_internal := 0; links_external := 0; links_total := 0;
  issues := [];
  warnings := [];
  recommendations := [];
  score := 100
|}.

(** The statements the methods repeat. *)

(** [results.issues.push(msg)] *)
Definition push_issue (msg : string) (r : Results) : Results :=
  set_issues (issues r ++ [msg]) r.

(** [results.warnings.push(msg)] *)
Definition push_warning (msg : string) (r : Results) : Results :=
  set_warnings (warnings r ++ [msg]) r.

(** [results.score -= n] *)
Definition deduct (n : Z) (r : Results) : Results :=
  set_score (score r - n) r.

Fixpoint meta_lookup (k : string) (l : list (string * metaValue)) : option metaValue :=
  match l with
  | [] => None
  | (k', v) :: rest => if String.eqb k k' then Some v else meta_lookup k rest
  end.

Fixpoint meta_set (k : string) (v : metaValue) (l : list (string * metaValue))
  : list (string * metaValue) :=
  match l with
  | [] => [(k, v)]
  | (k', v') :: rest =>
      if String.eqb k k' then (k, v) :: rest else (k', v') :: meta_set k v rest
  end.

(** [results.meta[k] = v] *)
Definition set_meta_key (k : string) (v : metaValue) (r : Results) : Results :=
  set_meta (meta_set k v (meta r)) r.

(** [results.meta[k]] used as a condition. *)
Definition has_meta (k : string) (r : Results) : bool :=
  match meta_lookup k (meta r) with
  | Some (MString s) => JS.truthyString s
  | Some (MContent _ _) => true
  | Some MNull => false
  | None => false
  end.

(** A statement under [if (b)] without [else]. *)
Definition when (b : bool) (f : Results -> Results) (r : Results) : Results :=
  if b then f r else r.

(** [meta[name="v"]] and [meta[property="v"]] *)
Definition meta_named (v : string) (n : Dom.node) : bool :=
  Dom.is_tag "meta" n && Dom.attr_is "name" v n.

Definition meta_property (v : string) (n : Dom.node) : bool :=
  Dom.is_tag "meta" n && Dom.attr_is "property" v n.

Section Methods.

(** [new URL(input, base).hostname]: the host name of the parsed URL, or
    [None] when the constructor raises its TypeError.  The page URL object
    that the code passes as base is given by the string it was built from. *)
Variable URL_hostname : string -> option string -> option string.

(** *** _extractTitle *)

Definition genericTitles : list string := ["home"; "index"; "untitled"; "welcome"].

Definition _extractTitle (doc : Dom.document) (results : Results) : Results :=
  let title := JS.trim (Dom.text_of (Dom.select (Dom.is_tag "title") doc)) in
  if negb (JS.truthyString title) then
    deduct 20 (push_issue "Missing page title" results)
  else
    let results := set_meta_key "title" (MContent title (JS.length title)) results in
    (* Check title length *)
    let results :=
      if JS.length title <? 30 then
        deduct 5 (push_warning ("Title too short (" +:+ JS.numberToString (JS.length title)
                                +:+ " chars) - aim for 30-60 characters") results)
      else if JS.length title >? 60 then
        deduct 5 (push_warning ("Title too long (" +:+ JS.numberToString (JS.length title)
                                +:+ " chars) - keep under 60 characters") results)
      else results in
    (* Check for generic titles *)
    when (existsb (String.eqb (JS.toLowerCase title)) genericTitles)
      (fun r => deduct 10
         (push_issue "Generic page title detected - make it unique and descriptive" r))
      results.

(** *** _extractOpenGraphTags, _extractTwitterCardTags *)

(** The body of the loop over the tag names: it stores the trimmed content
    of a tag that is found and raises the flag. *)
Definition collect_step (sel : string -> Dom.node -> bool) (prefix : string)
  (doc : Dom.document) (acc : Results * bool) (tag : string) : Results * bool :=
  let content := Dom.first_attr (Dom.select (sel (prefix +:+ tag)) doc) "content" in
  match content with
  | Some c =>
      if JS.truthyString c
      then (set_meta_key (prefix +:+ tag) (MString (JS.trim c)) (fst acc), true)
      else acc
  | None => acc
  end.

Definition collect_tags (sel : string -> Dom.node -> bool) (prefix : string)
  (doc : Dom.document) (tags : list string) (results : Results) : Results * bool :=
  fold_left (collect_step sel prefix doc) tags (results, false).

Definition _extractOpenGraphTags (doc : Dom.document) (results : Results) : Results :=
  let ogTags := ["title"; "description"; "image"; "url"; "type"; "site_name"] in
  let (results, hasOgTags) := collect_tags meta_property "og:" doc ogTags results in
  if negb hasOgTags then
    deduct 5 (push_warning
      "No Open Graph tags found - consider adding for better social sharing" results)
  else
    (* Check for essential OG tags *)
    let results :=
      when (negb (has_meta "og:title" results))
        (push_warning "Missing og:title tag") results in
    let results :=
      when (negb (has_meta "og:description" results))
        (push_warning "Missing og:description tag") results in
    when (negb (has_meta "og:image" results))
      (push_warning "Missing og:image tag - important for social sharing") results.

Definition _extractTwitterCardTags (doc : Dom.document) (results : Results) : Results :=
  let twitterTags := ["card"; "title"; "description"; "image"; "site"; "creator"] in
  let (results, hasTwitterTags) :=
    collect_tags meta_named "twitter:" doc twitterTags results in
  when (negb hasTwitterTags)
    (fun r => deduct 3 (push_warning
       "No Twitter Card tags found - consider adding for Twitter sharing" r))
    results.

(** *** _extractMetaTags *)

(** The method is a sequence of blocks, each under its comment in the
    source; every block is a definition here, in source order. *)

(** Meta description *)
Definition meta_description (doc : Dom.document) (results : Results) : Results :=
  let description := Dom.first_attr (Dom.select (meta_named "description") doc) "content" in
  if negb (JS.truthyAttr description) then
    deduct 15 (push_issue "Missing meta description" results)
  else
    let description := JS.orElse description "" in
    let results :=
      set_meta_key "description"
        (MContent (JS.trim description) (JS.length (JS.trim description))) results in
    (* Check description length *)
    if JS.length description <? 120 then
      deduct 5 (push_warning
        ("Description too short (" +:+ JS.numberToString (JS.length description)
         +:+ " chars) - aim for 120-160 characters") results)
    else if JS.length description >? 160 then
      deduct 5 (push_warning
        ("Description too long (" +:+ JS.numberToString (JS.length description)
         +:+ " chars) - keep under 160 characters") results)
    else results.

(** Keywords (less important but still extracted) *)
Definition meta_keywords (doc : Dom.document) (results : Results) : Results :=
  let keywords := Dom.first_attr (Dom.select (meta_named "keywords") doc) "content" in
  when (JS.truthyAttr keywords)
    (set_meta_key "keywords" (MString (JS.trim (JS.orElse keywords "")))) results.

(** Robots *)
Definition meta_robots (doc : Dom.document) (results : Results) : Results :=
  let robots := Dom.first_attr (Dom.select (meta_named "robots") doc) "content" in
  when (JS.truthyAttr robots)
    (fun r =>
       let robots := JS.orElse robots "" in
       let r := set_meta_key "robots" (MString (JS.trim robots)) r in
       (* Check for indexing issues *)
       let r := when (JS.includes "noindex" robots)
                  (push_warning "Page is set to noindex - ensure this is intentional") r in
       when (JS.includes "nofollow" robots)
         (push_warning "Page is set to nofollow - this prevents link equity flow") r)
    results.

(** Viewport *)
Definition meta_viewport (doc : Dom.document) (results : Results) : Results :=
  let viewport := Dom.first_attr (Dom.select (meta_named "viewport") doc) "content" in
  if negb (JS.truthyAttr viewport) then
    deduct 10 (push_issue
      "Missing viewport meta tag - critical for mobile optimization" results)
  else
    let viewport := JS.orElse viewport "" in
    let results := set_meta_key "viewport" (MString (JS.trim viewport)) results in
    (* Check viewport content *)
    let results :=
      when (negb (JS.includes "width=device-width" viewport))
        (push_warning "Viewport should include width=device-width") results in
    when (negb (JS.includes "initial-scale=1" viewport))
      (push_warning "Viewport should include initial-scale=1") results.

(** Charset *)
Definition meta_charset (doc : Dom.document) (results : Results) : Results :=
  let charset :=
    let first :=
      Dom.first_attr
        (Dom.select (fun n => Dom.is_tag "meta" n && Dom.has_attr "charset" n) doc)
        "charset" in
    if JS.truthyAttr first then first
    else Dom.first_attr
           (Dom.select (fun n => Dom.is_tag "meta" n
                                 && Dom.attr_is_nocase "http-equiv" "Content-Type" n) doc)
           "content" in
  when (JS.truthyAttr charset)
    (set_meta_key "charset" (MString (JS.orElse charset ""))) results.

Definition _extractMetaTags (doc : Dom.document) (results : Results) : Results :=
  let results := meta_description doc results in
  let results := meta_keywords doc results in
  let results := meta_robots doc results in
  let results := meta_viewport doc results in
  let results := meta_charset doc results in
  (* Open Graph tags *)
  let results := _extractOpenGraphTags doc results in
  (* Twitter Card tags *)
  _extractTwitterCardTags doc results.

(** *** _extractCanonical *)

Definition _extractCanonical (doc : Dom.document) (results : Results) : Results :=
  let canonical :=
    Dom.first_attr
      (Dom.select (fun n => Dom.is_tag "link" n
                            && Dom.attr_is_nocase "rel" "canonical" n) doc)
      "href" in
  if negb (JS.truthyAttr canonical) then
    deduct 5 (push_warning
      "No canonical URL found - consider adding to prevent duplicate content issues"
      results)
  else
    let canonical := JS.orElse canonical "" in
    let results := set_meta_key "canonical" (MString (JS.trim canonical)) results in
    (* Validate canonical URL *)
    match URL_hostname canonical None with
    | Some _ => results
    | None => deduct 5 (push_issue "Invalid canonical URL format" results)
    end.

(** *** _extractHeadings *)

(** [results.headings[tag].push(text)] *)
Definition push_heading (tag text : string) (r : Results) : Results :=
  if String.eqb tag "h1" then set_headings_h1 (headings_h1 r ++ [text]) r
  else if String.eqb tag "h2" then set_headings_h2 (headings_h2 r ++ [text]) r
  else if String.eqb tag "h3" then set_headings_h3 (headings_h3 r ++ [text]) r
  else if String.eqb tag "h4" then set_headings_h4 (headings_h4 r ++ [text]) r
  else if String.eqb tag "h5" then set_headings_h5 (headings_h5 r ++ [text]) r
  else if String.eqb tag "h6" then set_headings_h6 (headings_h6 r ++ [text]) r
  else r.

(** The loop over the heading tags. *)
Definition collect_headings (doc : Dom.document) (results : Results) : Results :=
  let headingTags := ["h1"; "h2"; "h3"; "h4"; "h5"; "h6"] in
  fold_left
    (fun r tag =>
       fold_left
         (fun r l =>
            let text := JS.trim (Dom.text (Dom.elem l)) in
            when (JS.truthyString text) (push_heading tag text) r)
         (Dom.select (Dom.is_tag tag) doc) r)
    headingTags results.

(** The checks after the loop. *)
Definition check_headings (results : Results) : Results :=
  (* Check H1 *)
  let results :=
    if Z.of_nat (List.length (headings_h1 results)) =? 0 then
      deduct 10 (push_issue "No H1 tag found - add exactly one H1 tag" results)
    else if Z.of_nat (List.length (headings_h1 results)) >? 1 then
      deduct 5 (push_warning
        ("Multiple H1 tags found ("
         +:+ JS.numberToString (Z.of_nat (List.length (headings_h1 results)))
         +:+ ") - use only one H1 per page") results)
    else results in
  (* Check heading hierarchy *)
  when ((Z.of_nat (List.length (headings_h3 results)) >? 0)
        && (Z.of_nat (List.length (headings_h2 results)) =? 0))
    (fun r => deduct 3 (push_warning
       "H3 tags found without H2 - maintain proper heading hierarchy" r))
    results.

Definition _extractHeadings (doc : Dom.document) (results : Results) : Results :=
  let results := collect_headings doc results in
  check_headings results.

(** *** _extractImages *)

(** The body of the [each] callback for one [img] element. *)
Definition image_step (results : Results) (l : Dom.located) : Results :=
  let img := Dom.elem l in
  let src := Dom.attr img "src" in
  let alt := Dom.attr img "alt" in
  match src with
  | Some src =>
      if JS.truthyString src then
        let results := set_images_total (images_total results + 1) results in
        let imageInfo := {|
          src := src;
          alt := JS.orElse alt "";
          title := JS.orElse (Dom.attr img "title") "";
          width := JS.orElse (Dom.attr img "width") "";
          height := JS.orElse (Dom.attr img "height") ""
        |} in
        let results := set_images_images (images_images results ++ [imageInfo]) results in
        if JS.truthyAttr alt && JS.truthyString (JS.trim (JS.orElse alt "")) then
          set_images_withAlt (images_withAlt results + 1) results
        else
          set_images_withoutAlt (images_withoutAlt results + 1) results
      else results
  | None => results
  end.

(** The checks after the loop. *)
Definition check_images (results : Results) : Results :=
  (* Check for alt text issues *)
  let results :=
    when (images_withoutAlt results >? 0)
      (fun r =>
         deduct (JS.Math_min 15 (images_withoutAlt r * 2))
           (push_issue
              (JS.numberToString (images_withoutAlt r)
               +:+ " images missing alt text - add descriptive alt text for accessibility and SEO")
              r))
      results in
  (* Check for missing dimensions *)
  let missingDimensions :=
    Z.of_nat (List.length
      (filter (fun img => negb (JS.truthyString (width img))
                          || negb (JS.truthyString (height img)))
              (images_images results))) in
  when (missingDimensions >? 0)
    (fun r =>
       deduct (JS.Math_min 5 missingDimensions)
         (push_warning
            (JS.numberToString missingDimensions
             +:+ " images missing width/height attributes - add to prevent layout shift")
            r))
    results.

Definition _extractImages (doc : Dom.document) (results : Results) : Results :=
  let results := fold_left image_step (Dom.select (Dom.is_tag "img") doc) results in
  check_images results.

(** *** _extractLinks *)

(** The body of the [each] callback for one anchor.  The second component
    is [results.warnings.externalLinksNoRel], a counter the code keeps as a
    property of the array: absent (read as 0) until the first increment. *)
Definition link_step (pageUrl : string) (pageHostname : string)
  (acc : Results * Z) (l : Dom.located) : Results * Z :=
  let (results, externalLinksNoRel) := acc in
  let a := Dom.elem l in
  match Dom.attr a "href" with
  | None => acc
  | Some href =>
      if negb (JS.truthyString href) || JS.startsWith "#" href then acc
      else
        let results := set_links_total (links_total results + 1) results in
        match URL_hostname href (Some pageUrl) with
        | Some hostname =>
            if String.eqb hostname pageHostname then
              (set_links_internal (links_internal results + 1) results, externalLinksNoRel)
            else
              let results := set_links_external (links_external results + 1) results in
              (* Check for rel attributes on external links *)
              let rel := JS.orElse (Dom.attr a "rel") "" in
              if negb (JS.includes "nofollow" rel) && negb (JS.includes "noopener" rel)
              then (results, externalLinksNoRel + 1)
              else (results, externalLinksNoRel)
        | None =>
            (* Invalid URL *)
            (results, externalLinksNoRel)
        end
  end.

Definition _extractLinks (doc : Dom.document) (pageUrl pageHostname : string)
  (results : Results) : Results :=
  let anchors := Dom.select (fun n => Dom.is_tag "a" n && Dom.has_attr "href" n) doc in
  let (results, externalLinksNoRel) :=
    fold_left (link_step pageUrl pageHostname) anchors (results, 0) in
  when (externalLinksNoRel >? 0)
    (push_warning (JS.numberToString externalLinksNoRel
                   +:+ " external links missing rel=" +:+ JS.dquote +:+ "nofollow"
                   +:+ JS.dquote +:+ " or rel=" +:+ JS.dquote +:+ "noopener" +:+ JS.dquote))
    results.

(** *** _analyzeResults *)

Definition _analyzeResults (results : Results) : Results :=
  let recommendations :=
    (if negb (has_meta "title" results)
     then ["Add a unique, descriptive page title between 30-60 characters"] else [])
    ++ (if negb (has_meta "description" results)
        then ["Add a compelling meta description between 120-160 characters"] else [])
    ++ (if negb (has_meta "viewport" results)
        then ["Add viewport meta tag: <meta name=" +:+ JS.dquote +:+ "viewport"
              +:+ JS.dquote +:+ " content=" +:+ JS.dquote
              +:+ "width=device-width, initial-scale=1" +:+ JS.dquote +:+ ">"]
        else [])
    ++ (if negb (has_meta "og:image" results)
        then ["Add Open Graph image for better social media sharing"] else [])
    ++ (if Z.of_nat (List.length (headings_h1 results)) =? 0
        then ["Add an H1 tag that includes your target keywords"] else [])
    ++ (if images_withoutAlt results >? 0
        then ["Add descriptive alt text to all images for accessibility and SEO"] else [])
    ++ ["Consider adding structured data (Schema.org) for rich snippets"] in
  set_recommendations recommendations results.

(** *** extract *)

(** The [try] statement of [extract].  [response] is what [axios.get]
    followed by [cheerio.load] gives: the parsed document, or the message of
    the error that rejected the request. *)
Definition extract_try (url : string) (response : Dom.document + string)
  : M Results unit :=
  try_catch
    (match response with
     | inr message => throw message
     | inl doc =>
         pageHostname <- match URL_hostname url None with
                         | Some h => ret h
                         | None => throw "Invalid URL"
                         end ;;
         modify (_extractTitle doc) ;;
         modify (_extractMetaTags doc) ;;
         modify (_extractCanonical doc) ;;
         modify (_extractHeadings doc) ;;
         modify (_extractImages doc) ;;
         modify (_extractLinks doc url pageHostname) ;;
         modify _analyzeResults
     end)
    (fun message =>
       modify (set_status "error") ;;
       modify (set_error (Some message)) ;;
       modify (push_issue ("Failed to analyze URL: " +:+ message))).

(** The body of [extract] run on the freshly built [results]: the [try]
    statement, then [return results]. *)
Definition extract_body (url : string) (response : Dom.document + string)
  : M Results Results :=
  extract_try url response ;;
  get_state.

(** [extract(url)] called when the clock reads [now]: [inl] is the value
    the promise resolves to, [inr] the message of an exception that
    escapes. *)
Definition extract (now url : string) (response : Dom.document + string)
  : Results + string :=
  fst (extract_body url response (initial url now)).

(** *** bulkExtract *)

(** One turn of the loop of [bulkExtract]: the URL taken from [urls], what
    the clock reads when [extract] builds its result object, and what the
    request for the URL gives. *)
Record turn : Type := Turn {
  turn_url : string;
  turn_now : string;
  turn_response : Dom.document + string
}.

(** The [for ... of] loop; [results] is the array built so far.  A
    rejection of [extract] would leave the loop through the [await]. *)
Fixpoint bulkExtract_loop (turns : list turn) (results : list Results)
  : list Results + string :=
  match turns with
  | [] => inl results
  | t :: rest =>
      match extract (turn_now t) (turn_url t) (turn_response t) with
      | inl result => bulkExtract_loop rest (results ++ [result])
      | inr message => inr message
      end
  end.

(** [bulkExtract(urls)], the URLs given with what each of them meets. *)
Definition bulkExtract (turns : list turn) : list Results + string :=
  bulkExtract_loop turns [].

End Methods.

(** *** generateCSV *)

(** A cell of a row: a string or a number. *)
Inductive cell : Type :=
| CString (s : string)
| CNumber (z : Z).

(** The template literal [`"${cell}"`]. *)
Definition quote_cell (c : cell) : string :=
  match c with
  | CString s => JS.dquote +:+ s +:+ JS.dquote
  | CNumber z => JS.dquote +:+ JS.numberToString z +:+ JS.dquote
  end.

Definition csv_header : list cell :=
  map CString
    ["URL"; "Title"; "Title Length"; "Description"; "Description Length";
     "H1 Count"; "Images Total"; "Images Without Alt"; "Score"; "Issues"; "Warnings"].

(** [result.meta[k]?.content || ''] and [result.meta[k]?.length || 0] *)
Definition content_of (k : string) (result : Results) : cell :=
  match meta_lookup k (meta result) with
  | Some (MContent c _) => CString c
  | _ => CString ""
  end.

Definition length_of (k : string) (result : Results) : cell :=
  match meta_lookup k (meta result) with
  | Some (MContent _ n) => CNumber n
  | Some (MString s) => CNumber (JS.length s)
  | _ => CNumber 0
  end.

Definition csv_row (result : Results) : list cell :=
  [CString (url result);
   content_of "title" result;
   length_of "title" result;
   content_of "description" result;
   length_of "description" result;
   CNumber (Z.of_nat (List.length (headings_h1 result)));
   CNumber (images_total result);
   CNumber (images_withoutAlt result);
   CNumber (score result);
   CNumber (Z.of_nat (List.length (issues result)));
   CNumber (Z.of_nat (List.length (warnings result)))].

Definition newline : string := String (ascii_of_nat 10) EmptyString.

(** [generateCSV(results)] on an array of results. *)
Definition generateCSV (data : list Results) : string :=
  let rows := csv_header :: map csv_row data in
  JS.join newline (map (fun row => JS.join "," (map quote_cell row)) rows).

End MetaExtractor.

(* ===================================================================== *)
(** ** The packages bound with [require] *)
(* ===================================================================== *)

(** [pagespeed-analyzer.js] and the site-scan example bind [ora] and
    [chalk] with [require] and call them outside any [try] statement.
    What such a binding holds depends on the version installed.  Up to
    ora 5 and chalk 4 it is the function the code calls.  From ora 6 and
    chalk 5 on, the versions [package.json] asks for, the package is an ES
    module: [require] gives its namespace object, which is not callable
    and has none of the members of the function.  (Where [require]
    refuses an ES module the files do not load, and there is no call to
    speak of.) *)
Module Packages.

Inductive binding : Type :=
| Callable
| Namespace.

(** [ora(text).start()]: a spinner, or the TypeError of the call. *)
Definition ora_start (ora : binding) : unit + string :=
  match ora with
  | Callable => inl tt
  | Namespace => inr "ora is not a function"
  end.

(** [chalk.bold.blue(text)]: the member [bold] of the namespace object is
    [undefined]. *)
Definition chalk_bold_blue (chalk : binding) : unit + string :=
  match chalk with
  | Callable => inl tt
  | Namespace => inr "Cannot read properties of undefined (reading 'blue')"
  end.

(** [chalk.red(text)] *)
Definition chalk_red (chalk : binding) : unit + string :=
  match chalk with
  | Callable => inl tt
  | Namespace => inr "chalk.red is not a function"
  end.

(** The dependencies of [package.json]: chalk ^5.2.0 and ora ^6.1.2. *)
Definition pinned : binding := Namespace.

End Packages.

(* ===================================================================== *)
(** ** class PageSpeedAnalyzer: the issue counters *)
(* ===================================================================== *)

Module PageSpeedAnalyzer.

(** The [issues] object of a result. *)
Record Issues : Type := {
  critical : Z;
  warnings : Z;
  passed : Z
}.

Section CountIssues.

(** An entry of [opportunities] and an entry of [diagnostics]:
    [_countIssues] reads the length of the two arrays only. *)
Variables Opportunity Diagnostic : Type.

(** The part of the [results] object that [_countIssues] reads and writes:
    the [status] of the three Core Web Vitals, a string that
    [_getLCPStatus], [_getFIDStatus] and [_getCLSStatus] return, the two
    arrays, and the counters. *)
Record Results : Type := {
  metrics_lcp_status : string;
  metrics_fid_status : string;
  metrics_cls_status : string;
  opportunities : list Opportunity;
  diagnostics : list Diagnostic;
  issues : Issues
}.

(** The body of the callback for one metric. *)
Definition count_status (i : Issues) (status : string) : Issues :=
  if String.eqb status "poor" then
    {| critical := critical i + 1; warnings := warnings i; passed := passed i |}
  else if String.eqb status "needs-improvement" then
    {| critical := critical i; warnings := warnings i + 1; passed := passed i |}
  else
    {| critical := critical i; warnings := warnings i; passed := passed i + 1 |}.

Definition add_warnings (n : Z) (i : Issues) : Issues :=
  {| critical := critical i; warnings := warnings i + n; passed := passed i |}.

Definition _countIssues (results : Results) : Results :=
  (* Count based on Core Web Vitals *)
  let i :=
    fold_left count_status
      [metrics_lcp_status results; metrics_fid_status results;
       metrics_cls_status results]
      (issues results) in
  (* Count opportunities as warnings *)
  let i := add_warnings (Z.of_nat (List.length (opportunities results))) i in
  (* Count diagnostics as warnings *)
  let i := add_warnings (Z.of_nat (List.length (diagnostics results))) i in
  {| metrics_lcp_status := metrics_lcp_status results;
     metrics_fid_status := metrics_fid_status results;
     metrics_cls_status := metrics_cls_status results;
     opportunities := opportunities results;
     diagnostics := diagnostics results;
     issues := i |}.

End CountIssues.

Arguments metrics_lcp_status {Opportunity Diagnostic} _.
Arguments metrics_fid_status {Opportunity Diagnostic} _.
Arguments metrics_cls_status {Opportunity Diagnostic} _.
Arguments opportunities {Opportunity Diagnostic} _.
Arguments diagnostics {Opportunity Diagnostic} _.
Arguments issues {Opportunity Diagnostic} _.
Arguments _countIssues {Opportunity Diagnostic} _.

End PageSpeedAnalyzer.

(* ===================================================================== *)
(** ** class SEOAuditToolkit *)
(* ===================================================================== *)

(** [src/javascript/index.js]: the class that runs the analysers on a URL
    and averages their scores. *)
Module SEOAuditToolkit.

(** The [issues] object of an audit. *)
Record Issues : Type := {
  critical : Z;
  warnings : Z;
  passed : Z
}.

(** What the toolkit reads of the result of [PageSpeedAnalyzer.analyze]:
    its score, an integer ([Math.round] of a percentage), and its issue
    counters. *)
Record PageSpeedResult : Type := {
  pageSpeed_score : Z;
  pageSpeed_issues : PageSpeedAnalyzer.Issues
}.

(** The result [analyze] returns when its request is rejected: its handler
    sets [error] and [status] only, so the score and the counters are those
    of the object literal. *)
Definition pageSpeed_failed : PageSpeedResult := {|
  pageSpeed_score := 0;
  pageSpeed_issues :=
    {| PageSpeedAnalyzer.critical := 0; PageSpeedAnalyzer.warnings := 0;
       PageSpeedAnalyzer.passed := 0 |}
|}.

(** A value of the [checks] object. *)
Inductive checkResult : Type :=
| OfPageSpeed (r : PageSpeedResult)
| OfMeta (r : MetaExtractor.Results)
| OfStructuredData (r : StructuredDataParser.Results).

(** The [results] object of [audit]; [error] and [status] are absent until
    the handler of [audit] sets them. *)
Record Results : Type := {
  url : string;
  timestamp : string;
  checks : list (string * checkResult);
  score : Z;
  issues : Issues;
  error : option string;
  status : option string
}.

Definition set_checks (v : list (string * checkResult)) (r : Results) : Results :=
  Build_Results (url r) (timestamp r) v (score r) (issues r) (error r) (status r).

Definition set_score (v : Z) (r : Results) : Results :=
  Build_Results (url r) (timestamp r) (checks r) v (issues r) (error r) (status r).

Definition set_issues (v : Issues) (r : Results) : Results :=
  Build_Results (url r) (timestamp r) (checks r) (score r) v (error r) (status r).

Definition set_error (v : option string) (r : Results) : Results :=
  Build_Results (url r) (timestamp r) (checks r) (score r) (issues r) v (status r).

Definition set_status (v : option string) (r : Results) : Results :=
  Build_Results (url r) (timestamp r) (checks r) (score r) (issues r) (error r) v.

(** [o[k] = v] on the [checks] object: an existing key keeps its place, a
    new key goes last. *)
Fixpoint check_set (k : string) (v : checkResult) (l : list (string * checkResult))
  : list (string * checkResult) :=
  match l with
  | [] => [(k, v)]
  | (k', v') :: rest =>
      if String.eqb k k' then (k, v) :: rest else (k', v') :: check_set k v rest
  end.

(** [results.checks[k] = v] *)
Definition set_check (k : string) (v : checkResult) (r : Results) : Results :=
  set_checks (check_set k v (checks r)) r.

(** The object literal at the head of [audit]. *)
Definition initial (url now : string) : Results := {|
  url := url;
  timestamp := now;
  checks := [];
  score := 0;
  issues := {| critical := 0; warnings := 0; passed := 0 |};
  error := None;
  status := None
|}.

(** *** _calculateScore *)

(** [checkResult.score]; every analyser puts a number there. *)
Definition score_of (c : checkResult) : Z :=
  match c with
  | OfPageSpeed r => pageSpeed_score r
  | OfMeta r => MetaExtractor.score r
  | OfStructuredData r => StructuredDataParser.score r
  end.

(** [checkResult.issues.critical || 0] and its two siblings.  The [issues]
    of the page-speed and of the structured-data result is an object with
    the three counters; the [issues] of the meta result is an array of
    strings, which has none of the three members. *)
Definition issues_of (c : checkResult) : Issues :=
  match c with
  | OfPageSpeed r =>
      {| critical := PageSpeedAnalyzer.critical (pageSpeed_issues r);
         warnings := PageSpeedAnalyzer.warnings (pageSpeed_issues r);
         passed := PageSpeedAnalyzer.passed (pageSpeed_issues r) |}
  | OfMeta r => {| critical := 0; warnings := 0; passed := 0 |}
  | OfStructuredData r =>
      {| critical := StructuredDataParser.issues_critical r;
         warnings := StructuredDataParser.issues_warnings r;
         passed := StructuredDataParser.issues_passed r |}
  end.

(** [Math.round(a / b)] for integers [a] and [b > 0], both far below 2^53:
    the nearest integer, a tie going up. *)
Definition Math_round_div (a b : Z) : Z := (2 * a + b) / (2 * b).

(** The body of the loop over [Object.entries(results.checks)]: the state
    is [totalScore], [checkCount] and [results.issues]. *)
Definition count_check (acc : Z * Z * Issues) (entry : string * checkResult)
  : Z * Z * Issues :=
  let '(totalScore, checkCount, i) := acc in
  let checkResult := snd entry in
  (totalScore + score_of checkResult,
   checkCount + 1,
   (* Count issues *)
   {| critical := critical i + critical (issues_of checkResult);
      warnings := warnings i + warnings (issues_of checkResult);
      passed := passed i + passed (issues_of checkResult) |}).

Definition _calculateScore (results : Results) : Results :=
  let '(totalScore, checkCount, i) :=
    fold_left count_check (checks results) (0, 0, issues results) in
  set_score (if checkCount >? 0 then Math_round_div totalScore checkCount else 0)
    (set_issues i results).

(** *** audit *)

(** What the turns of the loop of [audit] meet, by the number of the turn:
    the result object [PageSpeedAnalyzer.analyze] returns once its spinner
    is started (its [try] statement catches every failure of its request);
    the clock reading and the response to the request of [extract] or
    [parse]. *)
Record world : Type := {
  pageSpeed_analyze : nat -> PageSpeedResult;
  clock : nat -> string;
  fetch : nat -> Dom.document + string
}.

Definition defaultChecks : list string := ["pageSpeed"; "meta"; "structuredData"].

Section Methods.

Variable JSON_parse : string -> Json.value + string.
Variable Date_accepts : Json.value -> bool.
Variable URL_hostname : string -> option string -> option string.

(** The binding of [ora] in [pagespeed-analyzer.js]. *)
Variable ora : Packages.binding.

(** [PageSpeedAnalyzer.analyze]: its first statement starts the spinner,
    before the [try] statement, so what that call raises rejects the
    promise; past it, [outcome] is the result object returned. *)
Definition analyze (outcome : PageSpeedResult) : PageSpeedResult + string :=
  match Packages.ora_start ora with
  | inl _ => inl outcome
  | inr message => inr message
  end.

(** The [switch] statement, at turn [i]; a name without [case] does
    nothing. *)
Definition run_check (w : world) (url : string) (i : nat) (check : string)
  : M Results unit :=
  if String.eqb check "pageSpeed" then
    match analyze (pageSpeed_analyze w i) with
    | inl result => modify (set_check "pageSpeed" (OfPageSpeed result))
    | inr message => throw message
    end
  else if String.eqb check "meta" then
    match MetaExtractor.extract URL_hostname (clock w i) url (fetch w i) with
    | inl result => modify (set_check "meta" (OfMeta result))
    | inr message => throw message
    end
  else if String.eqb check "structuredData" then
    match StructuredDataParser.parse JSON_parse Date_accepts (clock w i) url (fetch w i) with
    | inl result => modify (set_check "structuredData" (OfStructuredData result))
    | inr message => throw message
    end
  else ret tt.

(** The [for ... of] loop over [checksToRun], from turn [i] on. *)
Fixpoint run_checks (w : world) (url : string) (i : nat) (checksToRun : list string)
  : M Results unit :=
  match checksToRun with
  | [] => ret tt
  | check :: rest => run_check w url i check ;; run_checks w url (S i) rest
  end.

(** [audit(url, checks)] called when the clock reads [now]; [checks] is
    [None] for [null].  [inl] is the value the promise resolves to, [inr]
    the message of an exception that escapes. *)
Definition audit (w : world) (now url : string) (checks : option (list string))
  : Results + string :=
  (* Default checks if none specified *)
  let checksToRun := match checks with Some l => l | None => defaultChecks end in
  fst ((try_catch
          ((* Run each check *)
           run_checks w url 0 checksToRun ;;
           (* Calculate overall score and issues *)
           modify _calculateScore)
          (fun message =>
             modify (set_error (Some message)) ;;
             modify (set_status (Some "error"))) ;;
        get_state)
         (initial url now)).

(** *** bulkAnalyze *)

(** An element of the array [bulkAnalyze] returns: the result of [audit],
    or the object [{url, error, status: 'error'}] of its handler. *)
Inductive bulkResult : Type :=
| Audited (r : Results)
| Rejected (url : string) (error : string).

(** One turn of the loop of [bulkAnalyze]: the URL, the clock reading at
    the call of [audit], and what that call meets. *)
Record turn : Type := Turn {
  turn_url : string;
  turn_now : string;
  turn_world : world
}.

Definition bulkAnalyze (turns : list turn) (checks : option (list string))
  : list bulkResult :=
  fold_left
    (fun results t =>
       match audit (turn_world t) (turn_now t) (turn_url t) checks with
       | inl result => results ++ [Audited result]
       | inr message => results ++ [Rejected (turn_url t) message]
       end)
    turns [].

End Methods.

End SEOAuditToolkit.

(* ===================================================================== *)
(** ** class FullSiteScan: the crawl *)
(* ===================================================================== *)

(** The example that scans the pages of a site with the toolkit: [scan]
    up to its call of [generateReport], [scanPage] and [extractLinks]. *)
Module FullSiteScan.

Section Crawl.

(** What [toolkit.audit] resolves to. *)
Variable AuditResult : Type.

(** [this.maxPages] *)
Variable maxPages : Z.

(** The bindings of [chalk] and [ora] in the example. *)
Variables chalk ora : Packages.binding.

(** [new URL(baseUrl)]: whether the constructor accepts the base URL. *)
Variable URL_accepts : string -> bool.

(** The call of [toolkit.audit] on a URL: its result, or the message of a
    rejection.  The loop scans a URL at most once, so one answer for each
    URL is all it can meet. *)
Variable audit : string -> AuditResult + string.

(** The links of the page at a URL that get through the filters of
    [extractLinks], in document order and as it cleans them: the anchors
    with an href that is not empty, is no fragment and no [mailto:], that
    resolves against the page and whose host name is that of the base URL,
    each reduced to protocol, host and path.  The list is empty when the
    request of [extractLinks] fails. *)
Variable internal_links : string -> list string.

(** [this.visitedUrls], a set held as the list of its elements in insertion
    order; [this.urlsToVisit]; [this.results]. *)
Record state : Type := {
  visitedUrls : list string;
  urlsToVisit : list string;
  results : list AuditResult
}.

(** The three fields as the constructor leaves them. *)
Definition fresh : state :=
  {| visitedUrls := []; urlsToVisit := []; results := [] |}.

(** [set.has(u)] and [array.includes(u)] *)
Definition has (l : list string) (u : string) : bool := existsb (String.eqb u) l.

(** The body of the [each] callback for an internal link. *)
Definition enqueue (visited : list string) (queue : list string) (cleanUrl : string)
  : list string :=
  if negb (has visited cleanUrl) && negb (has queue cleanUrl)
     && (Z.of_nat (List.length visited) + Z.of_nat (List.length queue) <? maxPages)
  then queue ++ [cleanUrl]
  else queue.

Definition extractLinks (url : string) (s : state) : state :=
  {| visitedUrls := visitedUrls s;
     urlsToVisit := fold_left (enqueue (visitedUrls s)) (internal_links url) (urlsToVisit s);
     results := results s |}.

(** The [try] statement of [scanPage]: a rejected audit skips the rest.
    Its handler and the messages printed after [extractLinks] touch none of
    the three fields. *)
Definition scanPage_try (url : string) (s : state) : state :=
  match audit url with
  | inl auditResult =>
      (* Store results *)
      let s := {| visitedUrls := visitedUrls s;
                  urlsToVisit := urlsToVisit s;
                  results := results s ++ [auditResult] |} in
      (* Extract links for crawling *)
      extractLinks url s
  | inr _ => s
  end.

(** [scanPage]: the spinner is started before the [try] statement, so
    what that call raises leaves the method. *)
Definition scanPage (url : string) : M state unit :=
  match Packages.ora_start ora with
  | inl _ => modify (scanPage_try url)
  | inr message => throw message
  end.

(** [this.visitedUrls.add(url)] *)
Definition add_visited (url : string) (s : state) : state :=
  {| visitedUrls := visitedUrls s ++ [url];
     urlsToVisit := urlsToVisit s;
     results := results s |}.

(** One turn of the [while] loop of [scan]; [None] when its condition
    fails. *)
Definition turn (s : state) : option ((unit + string) * state) :=
  match urlsToVisit s with
  | url :: rest =>
      if Z.of_nat (List.length (visitedUrls s)) <? maxPages then
        let s := {| visitedUrls := visitedUrls s;
                    urlsToVisit := rest;
                    results := results s |} in
        if negb (has (visitedUrls s) url) then
          Some ((scanPage url ;; modify (add_visited url)) s)
        else Some (inl tt, s)
      else None
  | [] => None
  end.

(** The loop, for at most [fuel] turns after the first test of its
    condition; [None] when the turns run out.  An exception ends it. *)
Fixpoint crawl (fuel : nat) (s : state) : option ((unit + string) * state) :=
  match turn s with
  | None => Some (inl tt, s)
  | Some (inr message, s') => Some (inr message, s')
  | Some (inl _, s') =>
      match fuel with
      | O => None
      | S fuel => crawl fuel s'
      end
  end.

(** How [scan] ends, as far as it is followed here: its promise rejects
    with a message; its handler calls [process.exit(1)]; or the loop is
    over and [generateReport] is called. *)
Inductive ending : Type :=
| Raised (message : string)
| Exited
| Crawled.

(** The handler of [scan]: [console.error(chalk.red(...), ...)], then
    [process.exit(1)]. *)
Definition scan_handler (s : state) : ending * state :=
  match Packages.chalk_red chalk with
  | inl _ => (Exited, s)
  | inr message => (Raised message, s)
  end.

(** [scan(baseUrl)] up to the call of [generateReport], with the state of
    the instance when it ends.  The banner is printed before the [try]
    statement. *)
Definition scan (fuel : nat) (baseUrl : string) (s : state) : option (ending * state) :=
  match Packages.chalk_bold_blue chalk with
  | inr message => Some (Raised message, s)
  | inl _ =>
      (* Parse base URL *)
      if URL_accepts baseUrl then
        (* Add base URL to queue *)
        let s := {| visitedUrls := visitedUrls s;
                    urlsToVisit := urlsToVisit s ++ [baseUrl];
                    results := results s |} in
        (* Start crawling *)
        match crawl fuel s with
        | Some (inl _, s') => Some (Crawled, s')
        | Some (inr _, s') => Some (scan_handler s')
        | None => None
        end
      else Some (scan_handler s)
  end.

End Crawl.

Arguments visitedUrls {AuditResult} _.
Arguments urlsToVisit {AuditResult} _.
Arguments results {AuditResult} _.
Arguments fresh {AuditResult}.
Arguments extractLinks {AuditResult} _ _ _ _.
Arguments scanPage_try {AuditResult} _ _ _ _ _.
Arguments scanPage {AuditResult} _ _ _ _ _.
Arguments add_visited {AuditResult} _ _.
Arguments turn {AuditResult} _ _ _ _ _.
Arguments crawl {AuditResult} _ _ _ _ _ _.
Arguments scan_handler {AuditResult} _ _.
Arguments scan {AuditResult} _ _ _ _ _ _ _ _ _.

End FullSiteScan.

(* ===================================================================== *)
(** ** Inputs of the examples *)
(* ===================================================================== *)

Module Samples.

Import Dom Json.

(** [JSON.parse] on the two payloads of the examples: the Product block of
    the specification decodes, the truncated block raises a SyntaxError
    (V8's wording of the message; no property depends on it). *)
Definition product_payload : string :=
  "{" +:+ JS.dquote +:+ "@context" +:+ JS.dquote +:+ ":"
  +:+ JS.dquote +:+ "https://schema.org" +:+ JS.dquote +:+ ","
  +:+ JS.dquote +:+ "@type" +:+ JS.dquote +:+ ":"
  +:+ JS.dquote +:+ "Product" +:+ JS.dquote +:+ ","
  +:+ JS.dquote +:+ "name" +:+ JS.dquote +:+ ":"
  +:+ JS.dquote +:+ "Widget" +:+ JS.dquote +:+ "}".

Definition product_json : value :=
  JObject [("@context", JString "https://schema.org");
           ("@type", JString "Product");
           ("name", JString "Widget")].

Definition broken_payload : string := "{bad".

Definition JSON_parse (text : string) : value + string :=
  if String.eqb text product_payload then inl product_json
  else inr "Expected property name or '}' in JSON at position 1".

(** No example reaches a date check. *)
Definition Date_accepts (v : value) : bool := true.

(** [new URL(input, base).hostname] on the inputs of the examples.  An
    input of scheme and slashes only has no host: the constructor raises. *)
Definition URL_hostname (input : string) (base : option string) : option string :=
  if String.eqb input "http://" then None
  else if JS.startsWith "https://external.com" input then Some "external.com"
  else Some "example.com".

(** A page with two JSON-LD blocks: a truncated one, then the Product
    block. *)
Definition two_blocks : document :=
  [Element "html" []
     [Element "head" []
        [Element "script" [("type", "application/ld+json")] [Text broken_payload];
         Element "script" [("type", "application/ld+json")] [Text product_payload]];
      Element "body" [] []]].

(** [<div itemscope itemtype="http://schema.org/Person">
       <span itemprop="name">Alice</span></div>] *)
Definition person_item : node :=
  Element "div" [("itemscope", ""); ("itemtype", "http://schema.org/Person")]
    [Element "span" [("itemprop", "name")] [Text "Alice"]].

Definition person_schema : list (string * value) :=
  [("@type", JString "Person");
   ("@context", JString "http://schema.org");
   ("_format", JString "Microdata")].

(** The record the Product block is meant to become. *)
Definition widget : StructuredDataParser.SchemaRecord := {|
  StructuredDataParser.format := "JSON-LD";
  StructuredDataParser.type := JString "Product";
  StructuredDataParser.properties := [("name", JString "Widget")];
  StructuredDataParser.schema_errors := [];
  StructuredDataParser.schema_warnings := []
|}.

(** The body of the page of the test suite, with one more anchor whose
    href has no host. *)
Definition test_page : document :=
  [Element "html" []
     [Element "head" []
        [Element "title" [] [Text "Test Page - SEO Audit Toolkit"];
         Element "meta" [("name", "viewport");
                         ("content", "width=device-width, initial-scale=1")] [];
         Element "link" [("rel", "canonical");
                         ("href", "https://example.com/test-page")] []];
      Element "body" []
        [Element "h1" [] [Text "Main Heading"];
         Element "img" [("src", "test1.jpg"); ("alt", "Test image 1")] [];
         Element "img" [("src", "test2.jpg"); ("alt", "Test image 2")] [];
         Element "img" [("src", "test3.jpg")] [];
         Element "img" [("alt", "no source")] [];
         Element "img" [("src", "test4.jpg"); ("alt", "   ")] [];
         Element "a" [("href", "/internal")] [Text "Internal Link"];
         Element "a" [("href", "https://example.com/another")] [Text "Another Internal"];
         Element "a" [("href", "https://external.com")] [Text "External Link"];
         Element "a" [("href", "http://")] [Text "No host"]]]].

(** A page with one anchor, whose href has no host. *)
Definition one_bad_link : document :=
  [Element "a" [("href", "http://")] [Text "No host"]].

(** A page that draws every deduction of the meta pass: no title, no
    description, no viewport, no Open Graph or Twitter tag, no canonical
    link, no H1, an H3 without H2, and eight images without alt text,
    width and height. *)
Definition bare_img : node := Element "img" [("src", "a.png")] [].

Definition worst_page : document :=
  [Element "h3" [] [Text "Section"];
   bare_img; bare_img; bare_img; bare_img; bare_img; bare_img; bare_img; bare_img].

(** The result object of the test [should escape quotes in CSV]. *)
Definition quoted_title : string :=
  "Title with " +:+ JS.dquote +:+ "quotes" +:+ JS.dquote.

Definition quoted_result : MetaExtractor.Results :=
  MetaExtractor.set_meta
    [("title", MetaExtractor.MContent quoted_title 18);
     ("description", MetaExtractor.MContent "Description" 11)]
    (MetaExtractor.initial "https://example.com" "").

End Samples.

(* ===================================================================== *)
(** ** What the specification words *)
(* ===================================================================== *)

Module Spec.

(** The score of the structured-data pass, from the counts it names. *)
Definition score_formula (errors warnings : nat) (anySchema anyJsonLd : bool) : Z :=
  Z.max 0
    (Z.min 100
       (100 - 15 * Z.of_nat errors - 5 * Z.of_nat warnings
        + (if anySchema then 10 else 0) + (if anyJsonLd then 5 else 0))).

Definition nonempty {A : Type} (l : list A) : bool :=
  match l with [] => false | _ => true end.

(** A CSV cell with its double quotes doubled. *)
Fixpoint double_quotes (s : string) : string :=
  match s with
  | EmptyString => EmptyString
  | String c s' =>
      if Ascii.eqb c (ascii_of_nat 34)
      then String c (String c (double_quotes s'))
      else String c (double_quotes s')
  end.

(** An alt attribute that is absent, empty or whitespace only. *)
Fixpoint all_white (s : string) : bool :=
  match s with
  | EmptyString => true
  | String c s' => JS.isWhiteSpace c && all_white s'
  end.

Definition blank_alt (img : Dom.node) : bool :=
  match Dom.attr img "alt" with
  | None => true
  | Some a => all_white a
  end.

(** An img element that carries a src attribute with a value. *)
Definition has_src (img : Dom.node) : bool :=
  match Dom.attr img "src" with
  | None => false
  | Some s => JS.truthyString s
  end.

(** The img elements of a page, in document order. *)
Definition imgs (doc : Dom.document) : list Dom.node :=
  map Dom.elem (Dom.select (Dom.is_tag "img") doc).

(** The href values the link pass looks at: those of anchors, not empty
    and not starting with a hash. *)
Definition hrefs (doc : Dom.document) : list string :=
  filter (fun h => JS.truthyString h && negb (JS.startsWith "#" h))
    (flat_map (fun l => match Dom.attr (Dom.elem l) "href" with
                        | Some h => [h]
                        | None => []
                        end)
       (Dom.select (fun n => Dom.is_tag "a" n && Dom.has_attr "href" n) doc)).

End Spec.

(* ===================================================================== *)
(** ** Views of a result object *)
(* ===================================================================== *)

Module Views.

(** The result of the parser with another timestamp. *)
Definition parser_at (t : string) (r : StructuredDataParser.Results)
  : StructuredDataParser.Results :=
  StructuredDataParser.Build_Results
    (StructuredDataParser.url r) t (StructuredDataParser.status r)
    (StructuredDataParser.error r) (StructuredDataParser.formats_jsonLd r)
    (StructuredDataParser.formats_microdata r) (StructuredDataParser.formats_rdfa r)
    (StructuredDataParser.schemas r) (StructuredDataParser.validation_errors r)
    (StructuredDataParser.validation_warnings r)
    (StructuredDataParser.recommendations r) (StructuredDataParser.score r)
    (StructuredDataParser.issues_critical r) (StructuredDataParser.issues_warnings r)
    (StructuredDataParser.issues_passed r).

(** A computation of the parser that neither reads nor writes the
    timestamp. *)
Definition blindM {A : Type} (c : M StructuredDataParser.Results A) : Prop :=
  forall t r, c (parser_at t r) = (fst (c r), parser_at t (snd (c r))).

(** What the JSON-LD loop reports for one script block: the cause when the
    text does not decode; the TypeError of [_processSchema] when the
    decoded value is, or as an array holds, a non-null object; nothing
    otherwise. *)
Definition block_report (JSON_parse : string -> Json.value + string)
  (l : Dom.located) : list string :=
  match JSON_parse (StructuredDataParser.html (Dom.elem l)) with
  | inr cause => ["Invalid JSON-LD: " +:+ cause]
  | inl json =>
      if existsb (fun schema => Json.truthy schema && Json.typeofObject schema)
           (Json.toArray json)
      then ["Invalid JSON-LD: this._validateSchemaType is not a function"]
      else []
  end.

(** The records a result holds, by format and all together, and its
    score. *)
Definition records_of (r : StructuredDataParser.Results)
  : list StructuredDataParser.SchemaRecord * list StructuredDataParser.SchemaRecord
    * list StructuredDataParser.SchemaRecord * list StructuredDataParser.SchemaRecord
    * Z :=
  (StructuredDataParser.formats_jsonLd r, StructuredDataParser.formats_microdata r,
   StructuredDataParser.formats_rdfa r, StructuredDataParser.schemas r,
   StructuredDataParser.score r).

(** A result without any record and with a score between 0 and 100. *)
Definition bare (r : StructuredDataParser.Results) : Prop :=
  StructuredDataParser.formats_jsonLd r = [] /\
  StructuredDataParser.formats_microdata r = [] /\
  StructuredDataParser.formats_rdfa r = [] /\
  StructuredDataParser.schemas r = [] /\
  0 <= StructuredDataParser.score r <= 100.

(** A computation of the parser that maintains a property of the result,
    whether it returns or raises. *)
Definition preservesM {A : Type} (P : StructuredDataParser.Results -> Prop)
  (c : M StructuredDataParser.Results A) : Prop :=
  forall r, P r -> P (snd (c r)).

(** A computation of the parser that leaves a view of the result as it
    was, whether it returns or raises. *)
Definition keepsM {A V : Type} (view : StructuredDataParser.Results -> V)
  (c : M StructuredDataParser.Results A) : Prop :=
  forall r, view (snd (c r)) = view r.

(** An element that carries a non-empty attribute. *)
Definition typed (k : string) (l : Dom.located) : bool :=
  JS.truthyAttr (Dom.attr (Dom.elem l) k).

(** A result with more error strings, each counted as critical. *)
Definition reported (msgs : list string) (r : StructuredDataParser.Results)
  : StructuredDataParser.Results :=
  StructuredDataParser.set_issues_critical
    (StructuredDataParser.issues_critical r + Z.of_nat (List.length msgs))
    (StructuredDataParser.set_validation_errors
       (StructuredDataParser.validation_errors r ++ msgs) r).

Import MetaExtractor.

(** The result of the meta extractor with another timestamp. *)
Definition meta_at (t : string) (r : Results) : Results :=
  Build_Results (url r) t (status r) (error r) (meta r) (headings_h1 r)
    (headings_h2 r) (headings_h3 r) (headings_h4 r) (headings_h5 r)
    (headings_h6 r) (images_total r) (images_withAlt r) (images_withoutAlt r)
    (images_images r) (links_internal r) (links_external r) (links_total r)
    (issues r) (warnings r) (recommendations r) (score r).

(** The [images] and the [links] object of a result. *)
Definition images_of (r : Results) : Z * Z * Z * list ImageInfo :=
  (images_total r, images_withAlt r, images_withoutAlt r, images_images r).

Definition links_of (r : Results) : Z * Z * Z :=
  (links_internal r, links_external r, links_total r).

(** A step that leaves a view of the result as it was. *)
Definition keeps {A : Type} (view : Results -> A) (f : Results -> Results) : Prop :=
  forall r, view (f r) = view r.

(** A step that takes at most [k] points off the score and adds none. *)
Definition costs (k : Z) (f : Results -> Results) : Prop :=
  forall r, score r - k <= score (f r) <= score r.

(** A step that neither reads nor writes the timestamp. *)
Definition blind (f : Results -> Results) : Prop :=
  forall t r, f (meta_at t r) = meta_at t (f r).

(** A step that touches neither the images nor the links, costs at most
    [k] points and is blind to the timestamp. *)
Definition plain (k : Z) (f : Results -> Results) : Prop :=
  keeps images_of f /\ keeps links_of f /\ costs k f /\ blind f.

(** The entry of [images.images] for an element. *)
Definition info_of (img : Dom.node) : ImageInfo := {|
  src := JS.orElse (Dom.attr img "src") "";
  alt := JS.orElse (Dom.attr img "alt") "";
  title := JS.orElse (Dom.attr img "title") "";
  width := JS.orElse (Dom.attr img "width") "";
  height := JS.orElse (Dom.attr img "height") ""
|}.

(** The images that count, and the number of images that satisfy a
    test. *)
Definition counted (imgs : list Dom.node) : list Dom.node := filter Spec.has_src imgs.

Definition count (p : Dom.node -> bool) (imgs : list Dom.node) : Z :=
  Z.of_nat (List.length (filter p imgs)).

(** The anchors the link loop counts, and the hrefs that resolve against the
    page URL under a given URL constructor. *)
Definition counted_href (l : Dom.located) : bool :=
  match Dom.attr (Dom.elem l) "href" with
  | Some h => JS.truthyString h && negb (JS.startsWith "#" h)
  | None => false
  end.

Definition resolves (URL_hostname : string -> option string -> option string)
  (pageUrl : string) (h : string) : bool :=
  match URL_hostname h (Some pageUrl) with Some _ => true | None => false end.

Definition href_or_empty (l : Dom.located) : string :=
  JS.orElse (Dom.attr (Dom.elem l) "href") "".

(** The seven passes of [extract] in a row, and what its handler does. *)
Definition passes (URL_hostname : string -> option string -> option string)
  (doc : Dom.document) (url host : string) (r : Results) : Results :=
  _analyzeResults
    (_extractLinks URL_hostname doc url host
       (_extractImages doc
          (_extractHeadings doc
             (_extractCanonical URL_hostname doc
                (_extractMetaTags doc (_extractTitle doc r)))))).

Definition failed (message : string) (r : Results) : Results :=
  push_issue ("Failed to analyze URL: " +:+ message)
    (set_error (Some message) (set_status "error" r)).

End Views.

(* ===================================================================== *)
(** ** What a validator is expected to report *)
(* ===================================================================== *)

Module Reports.

Import Json StructuredDataParser.

(** A result with more warning strings, each counted as a warning. *)
Definition warned (msgs : list string) (r : Results) : Results :=
  set_issues_warnings (issues_warnings r + Z.of_nat (List.length msgs))
    (set_validation_warnings (validation_warnings r ++ msgs) r).

(** A result with more recommendations. *)
Definition advised (msgs : list string) (r : Results) : Results :=
  set_recommendations (recommendations r ++ msgs) r.

(** A computation that only logs: whatever the result object it runs on,
    it ends the same way and leaves that object with the same new errors
    and warnings, each of them counted, and nothing else changed. *)
Definition logs {A : Type} (c : M Results A) : Prop :=
  exists (out : A + string) (errors warnings : list string),
    forall r, c r = (out, warned warnings (Views.reported errors r)).

(** The names of a list that a record does not have. *)
Definition missing (schema : SchemaRecord) (names : list string) : list string :=
  filter (fun prop => negb (has schema prop)) names.

(** The error for each required name a record does not have, and the one
    warning that lists the recommended names it does not have. *)
Definition required_report (schema : SchemaRecord) (names : list string)
  : list string :=
  map (fun prop => ToString (type schema) +:+ " missing required property: " +:+ prop)
    (missing schema names).

Definition recommended_report (schema : SchemaRecord) (names : list string)
  : list string :=
  match missing schema names with
  | [] => []
  | absent =>
      [ToString (type schema) +:+ " missing recommended properties: "
       +:+ JS.join ", " absent]
  end.

(** [item[k]] of an item that is not [null]. *)
Definition prop_of (item : value) (k : string) : option value :=
  match member item k with
  | Some o => o
  | None => None
  end.

Definition is_null (v : value) : bool :=
  match v with JNull => true | _ => false end.

(** The errors for the item of a breadcrumb list at an index: one for a
    missing position, then one for a missing name. *)
Definition breadcrumb_item_report (index : Z) (item : value) : list string :=
  (if truthy_opt (prop_of item "position") then []
   else ["BreadcrumbList item " +:+ JS.numberToString index +:+ " missing position"])
  ++ (if truthy_opt (prop_of item "name") then []
      else ["BreadcrumbList item " +:+ JS.numberToString index +:+ " missing name"]).

(** The reports of the items of an array, each with its index. *)
Fixpoint indexed_reports (report : Z -> value -> list string) (i : Z)
  (items : list value) : list string :=
  match items with
  | [] => []
  | x :: rest => report i x ++ indexed_reports report (i + 1) rest
  end.

(** The errors for one offer of a product: one when neither [price] nor
    [priceRange] is truthy, then one when [priceCurrency] is not. *)
Definition offer_report (offer : value) : list string :=
  (if negb (truthy_opt (prop_of offer "price"))
      && negb (truthy_opt (prop_of offer "priceRange"))
   then ["Product offer missing price information"] else [])
  ++ (if truthy_opt (prop_of offer "priceCurrency") then []
      else ["Product offer missing priceCurrency"]).

(** The items a validator walks under a property: those of the array, or
    the value itself; none when the property is absent or falsy. *)
Definition listed (k : string) (schema : SchemaRecord) : list value :=
  match lookup k (properties schema) with
  | Some v => if truthy v then toArray v else []
  | None => []
  end.

(** The errors for the items of a breadcrumb list, or the one error for a
    list without items. *)
Definition breadcrumb_report (schema : SchemaRecord) : list string :=
  if truthy_opt (lookup "itemListElement" (properties schema))
  then indexed_reports breadcrumb_item_report 0 (listed "itemListElement" schema)
  else ["BreadcrumbList missing itemListElement"].

(** A record whose type is the given name. *)
Definition is_type (name : string) (schema : SchemaRecord) : bool :=
  match type schema with
  | JString t => String.eqb t name
  | _ => false
  end.

(** The suggestions for a page: those of the table for its page type, or
    those of the home page for a type without entry. *)
Definition suggestions (url : string) (schemaTypes : list value) : list string :=
  match recommendations_for (_detectPageType url schemaTypes) with
  | Some l => l
  | None => ["Organization or LocalBusiness"; "WebSite with SearchAction"; "BreadcrumbList"]
  end.

(** A suggestion that no type on the page is, ignoring case, a substring
    of. *)
Definition uncovered (types : list string) (rec : string) : bool :=
  negb (existsb (fun t => JS.includes (JS.toLowerCase t) (JS.toLowerCase rec)) types).

Definition consider (rec : string) : string := "Consider adding " +:+ rec +:+ " schema".

(** The property an element with a [property] attribute stands for in
    RDFa, and its value: the [content] attribute, else the trimmed text. *)
Definition rdfa_value (prop : Dom.located) : string :=
  JS.orElse (Dom.attr (Dom.elem prop) "content") (JS.trim (Dom.text (Dom.elem prop))).

Definition rdfa_sets (k : string) (prop : Dom.located) : bool :=
  match Dom.attr (Dom.elem prop) "property" with
  | Some propName =>
      String.eqb k propName && JS.truthyString propName
      && JS.truthyString (rdfa_value prop)
  | None => false
  end.

End Reports.

(* ===================================================================== *)
(** ** What the meta extractor is expected to record *)
(* ===================================================================== *)

Module MetaReports.

Import MetaExtractor.

(** The [headings] object of a result. *)
Definition headings_of (r : Results)
  : list string * list string * list string * list string * list string * list string :=
  (headings_h1 r, headings_h2 r, headings_h3 r, headings_h4 r, headings_h5 r,
   headings_h6 r).

(** The trimmed texts of the elements of a page with a given tag, in
    document order, without the empty ones. *)
Definition heading_texts (tag : string) (doc : Dom.document) : list string :=
  filter JS.truthyString
    (map (fun l => JS.trim (Dom.text (Dom.elem l))) (Dom.select (Dom.is_tag tag) doc)).

(** A result with more texts under one heading tag. *)
Definition add_headings (tag : string) (texts : list string) (r : Results) : Results :=
  if String.eqb tag "h1" then set_headings_h1 (headings_h1 r ++ texts) r
  else if String.eqb tag "h2" then set_headings_h2 (headings_h2 r ++ texts) r
  else if String.eqb tag "h3" then set_headings_h3 (headings_h3 r ++ texts) r
  else if String.eqb tag "h4" then set_headings_h4 (headings_h4 r ++ texts) r
  else if String.eqb tag "h5" then set_headings_h5 (headings_h5 r ++ texts) r
  else if String.eqb tag "h6" then set_headings_h6 (headings_h6 r ++ texts) r
  else r.

(** The title of a page as [_extractTitle] reads it, and the content of
    its first description tag. *)
Definition page_title (doc : Dom.document) : string :=
  JS.trim (Dom.text_of (Dom.select (Dom.is_tag "title") doc)).

Definition page_description (doc : Dom.document) : option string :=
  Dom.first_attr (Dom.select (meta_named "description") doc) "content".

(** The title and the description a result records. *)
Definition named (r : Results) : option metaValue * option metaValue :=
  (meta_lookup "title" (meta r), meta_lookup "description" (meta r)).

(** The number of messages a result carries. *)
Definition noted (r : Results) : Z :=
  Z.of_nat (List.length (issues r)) + Z.of_nat (List.length (warnings r)).

(** The headings, the messages, the score and the URL of a result. *)
Definition log_of (r : Results) :=
  (headings_of r, issues r, warnings r, score r, url r).

(** A step that leaves the headings and the URL alone, keeps every
    message it finds, and takes at most 20 points off the score for each
    message it adds. *)
Definition steady (f : Results -> Results) : Prop :=
  forall r,
    headings_of (f r) = headings_of r /\
    (forall m, In m (issues r) -> In m (issues (f r))) /\
    (forall m, In m (warnings r) -> In m (warnings (f r))) /\
    noted r <= noted (f r) /\
    score r - score (f r) <= 20 * (noted (f r) - noted r) /\
    url (f r) = url r.

(** A step that keeps every message it finds and takes at most 20 points
    off the score for each message it adds. *)
Definition backed (f : Results -> Results) : Prop :=
  forall r,
    (forall m, In m (issues r) -> In m (issues (f r))) /\
    (forall m, In m (warnings r) -> In m (warnings (f r))) /\
    noted r <= noted (f r) /\
    score r - score (f r) <= 20 * (noted (f r) - noted r).

(** How an href resolves against the page: to the host of the page, or to
    another host. *)
Definition internal_href (URL_hostname : string -> option string -> option string)
  (pageUrl pageHostname : string) (href : string) : bool :=
  match URL_hostname href (Some pageUrl) with
  | Some hostname => String.eqb hostname pageHostname
  | None => false
  end.

Definition external_href (URL_hostname : string -> option string -> option string)
  (pageUrl pageHostname : string) (href : string) : bool :=
  match URL_hostname href (Some pageUrl) with
  | Some hostname => negb (String.eqb hostname pageHostname)
  | None => false
  end.

(** An anchor whose [rel] attribute names neither [nofollow] nor
    [noopener]. *)
Definition lacks_rel (l : Dom.located) : bool :=
  negb (JS.includes "nofollow" (JS.orElse (Dom.attr (Dom.elem l) "rel") ""))
  && negb (JS.includes "noopener" (JS.orElse (Dom.attr (Dom.elem l) "rel") "")).

(** The anchors of a page that carry an href attribute. *)
Definition anchors (doc : Dom.document) : list Dom.located :=
  Dom.select (fun n => Dom.is_tag "a" n && Dom.has_attr "href" n) doc.

(** The warning of the link pass for [n] external links. *)
Definition rel_warning (n : Z) : string :=
  JS.numberToString n +:+ " external links missing rel=" +:+ JS.dquote +:+ "nofollow"
  +:+ JS.dquote +:+ " or rel=" +:+ JS.dquote +:+ "noopener" +:+ JS.dquote.

End MetaReports.

(* ===================================================================== *)
(** ** What an audit is expected to add up *)
(* ===================================================================== *)

Module AuditReports.

Import SEOAuditToolkit.

(** The sum of a quantity over the entries of the [checks] object. *)
Definition sum_by (f : checkResult -> Z) (entries : list (string * checkResult)) : Z :=
  fold_right (fun entry acc => f (snd entry) + acc) 0 entries.


(** An entry of [checks] as [audit] can store it: under the name of one of
    the three analysers; a page-speed result that satisfies [P], or a
    result of the meta extractor or of the parser, whose score is between
    0 and 100. *)
Definition sound_entry (P : PageSpeedResult -> Prop) (entry : string * checkResult)
  : Prop :=
  In (fst entry) defaultChecks /\
  match snd entry with
  | OfPageSpeed ps => P ps
  | OfMeta m => 0 <= MetaExtractor.score m <= 100
  | OfStructuredData sd => 0 <= StructuredDataParser.score sd <= 100
  end.


(** A world in which nothing answers: the PageSpeed request and every
    request for the page are rejected. *)
Definition unreachable (w : world) : Prop :=
  (forall i, pageSpeed_analyze w i = pageSpeed_failed) /\
  (forall i, exists message, fetch w i = inr message).

(** Whether the loop of [audit] over a list of check names meets the call
    that raises: [pageSpeed] is asked for and [ora] is not callable. *)
Definition raises (ora : Packages.binding) (checksToRun : list string) : bool :=
  match ora with
  | Packages.Callable => false
  | Packages.Namespace => existsb (fun check => String.eqb check "pageSpeed") checksToRun
  end.

(** The message of that exception. *)
Definition ora_message : string := "ora is not a function".

(** The names of a list that are none of the three analysers. *)
Definition unknown_names (checksToRun : list string) : bool :=
  forallb (fun check => negb (existsb (String.eqb check) defaultChecks)) checksToRun.

(** A result object in which [audit] has only stored sound entries, each
    name once, and that it has not touched otherwise. *)
Definition kept (P : PageSpeedResult -> Prop) (url now : string) (r : Results)
  : Prop :=
  Forall (sound_entry P) (checks r) /\ NoDup (map fst (checks r)) /\
  SEOAuditToolkit.url r = url /\ timestamp r = now /\ score r = 0 /\
  issues r = {| critical := 0; warnings := 0; passed := 0 |} /\
  error r = None /\ status r = None.

End AuditReports.

(* ===================================================================== *)
(** ** What a crawl is expected to maintain *)
(* ===================================================================== *)

Module ScanReports.

Import FullSiteScan.

Section Crawl.

Variable AuditResult : Type.
Variable maxPages : Z.
Variable internal_links : string -> list string.

(** A bound on the turns the loop has left in a state. *)
Definition budget (s : state AuditResult) : Z :=
  (maxPages - Z.of_nat (List.length (visitedUrls s))) * (maxPages + 1)
  + Z.of_nat (List.length (urlsToVisit s)).

(** What every turn of the crawl from [baseUrl] maintains: at most
    [maxPages] URLs are visited, none twice; there are no more results than
    visited URLs; and every URL visited or waiting is the base URL or an
    internal link of a visited page. *)
Definition crawled (baseUrl : string) (s : state AuditResult) : Prop :=
  Z.of_nat (List.length (visitedUrls s)) <= Z.max 0 maxPages /\
  (List.length (results s) <= List.length (visitedUrls s))%nat /\
  NoDup (visitedUrls s) /\
  forall u, In u (visitedUrls s) \/ In u (urlsToVisit s) ->
            u = baseUrl \/ exists p, In p (visitedUrls s) /\ In u (internal_links p).

End Crawl.

Arguments budget {AuditResult} _ _.
Arguments crawled {AuditResult} _ _ _ _.

End ScanReports.

(* ===================================================================== *)
(** ** More inputs of the examples *)
(* ===================================================================== *)

Module Cases.

Import Dom Json StructuredDataParser.

(** A JSON-LD record of a type, with its properties. *)
Definition record_of (t : value) (props : list (string * value)) : SchemaRecord := {|
  format := "JSON-LD";
  type := t;
  properties := props;
  schema_errors := [];
  schema_warnings := []
|}.

(** A result object that holds records. *)
Definition holding (records : list SchemaRecord) : Results :=
  set_schemas records (initial "https://example.com/" "").

(** A breadcrumb list whose second item has no name. *)
Definition trail : SchemaRecord :=
  record_of (JString "BreadcrumbList")
    [("itemListElement",
      JArray [JObject [("position", JNumber 1); ("name", JString "Home")];
              JObject [("position", JNumber 2)]])].

(** A product with one offer, at the price 0. *)
Definition free_product : SchemaRecord :=
  record_of (JString "Product")
    [("name", JString "Sample"); ("image", JString "sample.png");
     ("offers", JObject [("price", JNumber 0); ("priceCurrency", JString "USD")])].

(** A local business without any property. *)
Definition nameless_business : SchemaRecord :=
  record_of (JString "LocalBusiness") [].

Definition organization : SchemaRecord :=
  record_of (JString "Organization")
    [("name", JString "Example"); ("url", JString "https://example.com/")].

(** A record with two types, as JSON-LD allows. *)
Definition two_types : SchemaRecord :=
  record_of (JArray [JString "Product"; JString "Thing"]) [("name", JString "Sample")].

(** An RDFa element that gives the name twice. *)
Definition rdfa_person : located :=
  Loc []
    (Element "div" [("typeof", "Person")]
       [Element "span" [("property", "name")] [Text "Alice"];
        Element "span" [("property", "name")] [Text " Bob "]]).

(** A page whose JSON-LD block spells its type attribute with capitals. *)
Definition capital_block : document :=
  [Element "script" [("type", "Application/LD+JSON")] [Text Samples.product_payload]].

(** A page whose canonical link spells its rel attribute with a capital. *)
Definition capital_canonical : document :=
  [Element "link" [("rel", "Canonical"); ("href", "https://example.com/")] []].

(** A world in which nothing answers. *)
Definition dead_world : SEOAuditToolkit.world := {|
  SEOAuditToolkit.pageSpeed_analyze := fun _ => SEOAuditToolkit.pageSpeed_failed;
  SEOAuditToolkit.clock := fun _ => "";
  SEOAuditToolkit.fetch := fun _ => inr "Network error"
|}.

(** A site of three pages: the home page links to the two others and to
    itself, the first of them to the second. *)
Definition site_links (url : string) : list string :=
  if String.eqb url "https://example.com/" then
    ["https://example.com/a"; "https://example.com/b"; "https://example.com/"]
  else if String.eqb url "https://example.com/a" then ["https://example.com/b"]
  else [].

End Cases.

(* ===================================================================== *)
(** ** Properties of the structured-data parser *)
(* ===================================================================== *)

Module ParserProps.

Import Json StructuredDataParser.

(** *** Score *)

Lemma nonempty_length {A : Type} (l : list A) :
  (0 <? Z.of_nat (List.length l)) = Spec.nonempty l.
Proof. destruct l; simpl; [reflexivity|]. apply Z.ltb_lt. lia. Qed.

(** The clamp of [_calculateScore], and what the method leaves alone. *)
Lemma calculateScore_range (results : Results) :
  0 <= score (snd (_calculateScore results)) <= 100 /\
  formats_jsonLd (snd (_calculateScore results)) = formats_jsonLd results /\
  formats_microdata (snd (_calculateScore results)) = formats_microdata results /\
  formats_rdfa (snd (_calculateScore results)) = formats_rdfa results /\
  schemas (snd (_calculateScore results)) = schemas results.
Proof.
  unfold _calculateScore, modify, JS.Math_max, JS.Math_min.
  cbn [snd score set_score formats_jsonLd formats_microdata formats_rdfa schemas].
  repeat split.
  - apply Z.le_max_l.
  - apply Z.max_lub; [lia | apply Z.le_min_l].
Qed.

(** C3. The score [_calculateScore] stores is 100, minus 15 per error
    string, minus 5 per warning string, plus 10 when a schema was found,
    plus 5 when a JSON-LD record exists, clamped to the interval from 0 to
    100; the method raises nothing and leaves the two lists of strings as
    they are. *)
Theorem calculateScore_formula (results : Results) :
  fst (_calculateScore results) = inl tt /\
  score (snd (_calculateScore results))
  = Spec.score_formula (List.length (validation_errors results))
      (List.length (validation_warnings results))
      (Spec.nonempty (schemas results))
      (Spec.nonempty (formats_jsonLd results)) /\
  0 <= score (snd (_calculateScore results)) <= 100 /\
  validation_errors (snd (_calculateScore results)) = validation_errors results /\
  validation_warnings (snd (_calculateScore results)) = validation_warnings results.
Proof.
  unfold _calculateScore, modify, Spec.score_formula, JS.Math_max, JS.Math_min.
  cbn [fst snd score set_score validation_errors validation_warnings].
  rewrite !nonempty_length.
  repeat split.
  - destruct (Spec.nonempty (schemas results)),
             (Spec.nonempty (formats_jsonLd results)); f_equal; f_equal; lia.
  - apply Z.le_max_l.
  - apply Z.max_lub; [lia | apply Z.le_min_l].
Qed.

(** *** Required and recommended properties *)

Lemma has_false_lookup schema prop :
  has schema prop = false ->
  match lookup prop (properties schema) with
  | Some v => truthy v = false
  | None => True
  end.
Proof. unfold has. destruct (lookup prop (properties schema)); simpl; auto. Qed.

(** What [_validateProduct] appends for a record that has a name and none
    of the seven other properties it looks for. *)
Lemma validateProduct_of_name_only (schema : SchemaRecord) (results : Results) :
  type schema = JString "Product" ->
  has schema "name" = true ->
  has schema "image" = false ->
  has schema "description" = false ->
  has schema "sku" = false ->
  has schema "offers" = false ->
  has schema "aggregateRating" = false ->
  has schema "brand" = false ->
  has schema "review" = false ->
  let r3 := snd (_validateProduct schema results) in
  fst (_validateProduct schema results) = inl tt /\
  validation_errors r3
  = validation_errors results ++ ["Product missing required property: image"] /\
  issues_critical r3 = issues_critical results + 1 /\
  validation_warnings r3
  = validation_warnings results
    ++ ["Product missing recommended properties: description, sku, offers, aggregateRating, brand, review";
        "Product missing ratings/reviews - needed for rich results"] /\
  issues_warnings r3 = issues_warnings results + 2 /\
  schemas r3 = schemas results.
Proof.
  intros Htype Hname Himage Hdesc Hsku Hoffers Hrating Hbrand Hreview.
  pose proof (has_false_lookup _ _ Hoffers) as Hlook.
  unfold _validateProduct, _checkRequiredProperties, _checkRecommendedProperties.
  cbn [forEach filter].
  rewrite Htype, Hname, Himage, Hdesc, Hsku, Hoffers, Hrating, Hbrand, Hreview.
  destruct (lookup "offers" (properties schema)) as [v|].
  - rewrite Hlook. cbn. rewrite <- !app_assoc. cbn.
    repeat split; try reflexivity; lia.
  - cbn. rewrite <- !app_assoc. cbn.
    repeat split; try reflexivity; lia.
Qed.

(** [_validateSchemas] on a result object that holds one record of type
    Product runs [_validateProduct] on it. *)
Lemma validateSchemas_of_product Date_accepts (schema : SchemaRecord) (results : Results) :
  type schema = JString "Product" ->
  schemas results = [schema] ->
  fst (_validateProduct schema results) = inl tt ->
  _validateSchemas Date_accepts results
  = (inl tt, snd (_validateProduct schema results)).
Proof.
  intros Htype Hs Hf. unfold _validateSchemas, bind, gets. rewrite Hs.
  cbn [forEach]. rewrite Htype. cbn [ToString].
  change (typeValidators Date_accepts "Product") with (Some _validateProduct).
  unfold bind, ret.
  destruct (_validateProduct schema results) as [[[]|message] r']; [reflexivity|].
  discriminate Hf.
Qed.

(** C8. On a Product record that has a name and none of image,
    description, sku, offers, aggregateRating, brand and review (a
    property is had when [schema.properties[prop]] is truthy), the
    required check appends the one error that names image and adds 1 to
    the critical counter; the recommended check appends one combined
    warning that lists the six names and adds 1 to the warning counter.
    The whole of [_validateProduct] appends that error, that warning and
    the ratings warning of its last check.  So does the validation pass
    itself: [_validateSchemas], run on a result object that holds the
    record, finds [_validateProduct] in its table under the type of the
    record and appends the same three messages. *)
Theorem validateProduct_name_only Date_accepts (schema : SchemaRecord) (results : Results) :
  type schema = JString "Product" ->
  has schema "name" = true ->
  has schema "image" = false ->
  has schema "description" = false ->
  has schema "sku" = false ->
  has schema "offers" = false ->
  has schema "aggregateRating" = false ->
  has schema "brand" = false ->
  has schema "review" = false ->
  let r1 := snd (_checkRequiredProperties schema ["name"; "image"] results) in
  let r2 := snd (_checkRecommendedProperties schema
                   ["description"; "sku"; "offers"; "aggregateRating"; "brand"; "review"]
                   r1) in
  let r3 := snd (_validateProduct schema results) in
  let r4 := snd (_validateSchemas Date_accepts (set_schemas [schema] results)) in
  validation_errors r1
  = validation_errors results ++ ["Product missing required property: image"] /\
  issues_critical r1 = issues_critical results + 1 /\
  validation_warnings r1 = validation_warnings results /\
  issues_warnings r1 = issues_warnings results /\
  validation_warnings r2
  = validation_warnings r1
    ++ ["Product missing recommended properties: description, sku, offers, aggregateRating, brand, review"] /\
  issues_warnings r2 = issues_warnings r1 + 1 /\
  validation_errors r2 = validation_errors r1 /\
  issues_critical r2 = issues_critical r1 /\
  fst (_validateProduct schema results) = inl tt /\
  validation_errors r3
  = validation_errors results ++ ["Product missing required property: image"] /\
  issues_critical r3 = issues_critical results + 1 /\
  validation_warnings r3
  = validation_warnings results
    ++ ["Product missing recommended properties: description, sku, offers, aggregateRating, brand, review";
        "Product missing ratings/reviews - needed for rich results"] /\
  issues_warnings r3 = issues_warnings results + 2 /\
  fst (_validateSchemas Date_accepts (set_schemas [schema] results)) = inl tt /\
  validation_errors r4
  = validation_errors results ++ ["Product missing required property: image"] /\
  issues_critical r4 = issues_critical results + 1 /\
  validation_warnings r4
  = validation_warnings results
    ++ ["Product missing recommended properties: description, sku, offers, aggregateRating, brand, review";
        "Product missing ratings/reviews - needed for rich results"] /\
  issues_warnings r4 = issues_warnings results + 2 /\
  schemas r4 = [schema].
Proof.
  intros Htype Hname Himage Hdesc Hsku Hoffers Hrating Hbrand Hreview.
  pose proof (validateProduct_of_name_only schema results
                Htype Hname Himage Hdesc Hsku Hoffers Hrating Hbrand Hreview) as H3.
  pose proof (validateProduct_of_name_only schema (set_schemas [schema] results)
                Htype Hname Himage Hdesc Hsku Hoffers Hrating Hbrand Hreview) as H4.
  cbv zeta in H3, H4. destruct H3 as (F3 & E3 & C3 & W3 & I3 & _).
  destruct H4 as (F4 & E4 & C4 & W4 & I4 & S4).
  cbv zeta.
  rewrite (validateSchemas_of_product Date_accepts schema (set_schemas [schema] results)
             Htype eq_refl F4).
  cbn [fst snd].
  assert (H12 :
    _checkRequiredProperties schema ["name"; "image"] results
    = (inl tt,
       set_issues_critical (issues_critical results + 1)
         (set_validation_errors
            (validation_errors results ++ ["Product missing required property: image"])
            results))).
  { unfold _checkRequiredProperties. cbn [forEach].
    rewrite Htype, Hname, Himage. reflexivity. }
  rewrite H12. cbn [snd].
  unfold _checkRecommendedProperties. cbn [filter].
  rewrite Htype, Hdesc, Hsku, Hoffers, Hrating, Hbrand, Hreview.
  split; [reflexivity|]. split; [reflexivity|]. split; [reflexivity|].
  split; [reflexivity|]. split; [reflexivity|]. split; [reflexivity|].
  split; [reflexivity|]. split; [reflexivity|].
  split; [exact F3|]. split; [exact E3|]. split; [exact C3|].
  split; [exact W3|]. split; [exact I3|].
  split; [reflexivity|]. split; [exact E4|]. split; [exact C4|].
  split; [exact W4|]. split; [exact I4 | exact S4].
Qed.

Lemma validateProduct_name_only_witness :
  has Samples.widget "name" = true /\
  has Samples.widget "image" = false /\
  validation_errors
    (snd (_validateSchemas Samples.Date_accepts
            (set_schemas [Samples.widget] (initial "https://example.com/" ""))))
  = ["Product missing required property: image"] /\
  issues_critical
    (snd (_validateSchemas Samples.Date_accepts
            (set_schemas [Samples.widget] (initial "https://example.com/" "")))) = 1.
Proof.
  pose proof (validateProduct_name_only Samples.Date_accepts Samples.widget
                (initial "https://example.com/" "")
                eq_refl eq_refl eq_refl eq_refl eq_refl eq_refl eq_refl eq_refl eq_refl)
    as H.
  cbv zeta in H.
  destruct H as (_ & _ & _ & _ & _ & _ & _ & _ & _ & _ & _ & _ & _ & _ & He & Hc & _).
  split; [reflexivity | split; [reflexivity | split; [exact He | exact Hc]]].
Defined.

(** *** JSON-LD blocks *)

(** [_processSchema] returns no record: the call of the undeclared method
    raises before the [return]. *)
Lemma processSchema_raises (schema : value) (format : string) (results : Results) :
  _processSchema schema format results
  = (inr "this._validateSchemaType is not a function", results).
Proof. reflexivity. Qed.

(** The loop over the items of a decoded block stops, with the TypeError,
    at the first non-null object. *)
Lemma jsonld_items_raise (items : list value) (results : Results) :
  forEach (fun schema =>
      when (truthy schema && typeofObject schema)
        (processed <- _processSchema schema "JSON-LD" ;;
         modify (fun r => set_formats_jsonLd (formats_jsonLd r ++ [processed]) r) ;;
         modify (fun r => set_schemas (schemas r ++ [processed]) r)))
    items results
  = (if existsb (fun schema => truthy schema && typeofObject schema) items
     then inr "this._validateSchemaType is not a function"
     else inl tt,
     results).
Proof.
  induction items as [|schema items IH]; [reflexivity|].
  cbn [forEach existsb]. unfold bind at 1.
  destruct (truthy schema && typeofObject schema); cbn [when orb].
  - reflexivity.
  - cbn [ret]. exact IH.
Qed.

Lemma reported_nil (r : Results) : Views.reported [] r = r.
Proof.
  destruct r. unfold Views.reported, set_issues_critical, set_validation_errors.
  cbn. rewrite app_nil_r, Z.add_0_r. reflexivity.
Qed.

Lemma reported_app (l1 l2 : list string) (r : Results) :
  Views.reported l2 (Views.reported l1 r) = Views.reported (l1 ++ l2) r.
Proof.
  unfold Views.reported, set_issues_critical, set_validation_errors. cbn.
  rewrite app_assoc, length_app, Nat2Z.inj_add, Z.add_assoc. reflexivity.
Qed.

(** One block: the handler turns either failure into one error and one
    critical issue, and the callback returns. *)
Lemma jsonld_block JSON_parse (l : Dom.located) (results : Results) :
  try_catch
    (match JSON_parse (html (Dom.elem l)) with
     | inr message => throw message
     | inl json =>
         forEach (fun schema =>
             when (truthy schema && typeofObject schema)
               (processed <- _processSchema schema "JSON-LD" ;;
                modify (fun r => set_formats_jsonLd (formats_jsonLd r ++ [processed]) r) ;;
                modify (fun r => set_schemas (schemas r ++ [processed]) r)))
           (toArray json)
     end)
    (fun message => push_error ("Invalid JSON-LD: " +:+ message) ;; incr_critical)
    results
  = (inl tt, Views.reported (Views.block_report JSON_parse l) results).
Proof.
  unfold try_catch, Views.block_report.
  destruct (JSON_parse (html (Dom.elem l))) as [json|cause].
  - rewrite jsonld_items_raise.
    destruct (existsb (fun schema => truthy schema && typeofObject schema)
                (toArray json)); [reflexivity | now rewrite reported_nil].
  - reflexivity.
Qed.

(** The whole JSON-LD loop: it never raises; every block that fails to
    decode adds one error naming the cause and one critical issue, every
    block that decodes to a non-null object adds one error naming the
    TypeError and one critical issue, and no block adds a record. *)
Lemma parseJsonLd_effect JSON_parse (doc : Dom.document) (results : Results) :
  _parseJsonLd JSON_parse doc results
  = (inl tt,
     Views.reported
       (flat_map (Views.block_report JSON_parse) (Dom.select is_jsonld_script doc))
       results).
Proof.
  unfold _parseJsonLd. cbv zeta.
  generalize (Dom.select is_jsonld_script doc) as scripts. intros scripts.
  revert results. induction scripts as [|l scripts IH]; intros results.
  - cbn [forEach flat_map ret]. now rewrite reported_nil.
  - cbn [forEach flat_map]. unfold bind at 1.
    rewrite jsonld_block, IH, reported_app. reflexivity.
Qed.

(** C4, at the page [Samples.two_blocks]: the truncated block gives one
    error and one critical issue and the loop goes on, but the Product block
    after it yields no record: [_processSchema] raises a TypeError, which the
    same handler reports as a second invalid block. *)
Theorem parseJsonLd_valid_sibling_lost :
  _parseJsonLd Samples.JSON_parse Samples.two_blocks (initial "https://example.com/" "")
  = (inl tt,
     set_issues_critical 2
       (set_validation_errors
          ["Invalid JSON-LD: Expected property name or '}' in JSON at position 1";
           "Invalid JSON-LD: this._validateSchemaType is not a function"]
          (initial "https://example.com/" ""))) /\
  formats_jsonLd
    (snd (_parseJsonLd Samples.JSON_parse Samples.two_blocks
            (initial "https://example.com/" ""))) = [] /\
  schemas
    (snd (_parseJsonLd Samples.JSON_parse Samples.two_blocks
            (initial "https://example.com/" ""))) = [].
Proof. vm_compute. auto. Qed.

(** *** Microdata: the guard of the property loop *)

(** The guard of the property loop is false for every element: [!length]
    is a boolean, and neither 0 nor 1 exceeds 1. *)
Lemma microdata_guard_false (propName : string) (prop : Dom.located) :
  microdata_guard propName prop = false.
Proof.
  unfold microdata_guard.
  destruct (Z.of_nat (List.length (Dom.parents (Dom.has_attr "itemscope") prop)) =? 0);
    simpl; apply andb_false_r.
Qed.

(** So the loop leaves the schema object as it found it. *)
Lemma extractMicrodataProperties_identity (item : Dom.located)
  (schema : list (string * value)) (results : Results) :
  _extractMicrodataProperties item schema results = (inl schema, results).
Proof.
  unfold _extractMicrodataProperties.
  generalize (Dom.find (Dom.has_attr "itemprop") item) as props.
  intros props.
  assert (G : forall acc,
             acc results = (inl schema, results) ->
             fold_left
               (fun (acc : M Results (list (string * value))) prop =>
                  schema <- acc ;;
                  match Dom.attr (Dom.elem prop) "itemprop" with
                  | Some propName =>
                      if microdata_guard propName prop then
                        v <- _getMicrodataValue prop ;;
                        if truthy_opt (lookup propName schema) then
                          match lookup propName schema with
                          | Some old =>
                              ret (set propName (JArray (toArray old ++ [v])) schema)
                          | None => ret schema
                          end
                        else ret (set propName v schema)
                      else ret schema
                  | None => ret schema
                  end)
               props acc results = (inl schema, results)).
  { induction props as [|p props IH]; intros acc Hacc; simpl; [exact Hacc|].
    apply IH. unfold bind. rewrite Hacc.
    destruct (Dom.attr (Dom.elem p) "itemprop"); [|reflexivity].
    rewrite microdata_guard_false. reflexivity. }
  apply G. reflexivity.
Qed.

(** Where the value of a property is read, the order is content, src,
    href, trimmed text. *)
Lemma getMicrodataValue_precedence (e : Dom.located) (results : Results) :
  Dom.attr (Dom.elem e) "itemscope" = None ->
  _getMicrodataValue e results
  = (inl (JString
            (JS.orElse (Dom.attr (Dom.elem e) "content")
               (JS.orElse (Dom.attr (Dom.elem e) "src")
                  (JS.orElse (Dom.attr (Dom.elem e) "href")
                     (JS.trim (Dom.text (Dom.elem e))))))),
     results).
Proof. intros H. unfold _getMicrodataValue. rewrite H. reflexivity. Qed.

(** C1, at the item [Samples.person_item]: its one descendant with an
    item-property marker has the item itself as only item-scope ancestor,
    yet the property loop adds no name property to the schema object. *)
Theorem extractMicrodataProperties_drops_property :
  let item := Dom.Loc [] Samples.person_item in
  map (fun l => (Dom.attr (Dom.elem l) "itemprop",
                 List.length (Dom.parents (Dom.has_attr "itemscope") l)))
    (Dom.find (Dom.has_attr "itemprop") item) = [(Some "name", 1%nat)] /\
  _extractMicrodataProperties item Samples.person_schema
    (initial "https://example.com/" "")
  = (inl Samples.person_schema, initial "https://example.com/" "") /\
  lookup "name" Samples.person_schema = None.
Proof. vm_compute. auto. Qed.

(** *** No record is ever built *)

(** [_parseMicrodata] and [_parseRDFa] raise the TypeError of
    [_processSchema] at the first element with a type, and touch nothing. *)
Lemma parseMicrodata_effect (doc : Dom.document) (results : Results) :
  _parseMicrodata doc results
  = (if existsb (Views.typed "itemtype") (Dom.select (Dom.has_attr "itemscope") doc)
     then inr "this._validateSchemaType is not a function"
     else inl tt,
     results).
Proof.
  unfold _parseMicrodata. cbv zeta.
  generalize (Dom.select (Dom.has_attr "itemscope") doc) as items. intros items.
  induction items as [|item items IH]; [reflexivity|].
  cbn [forEach existsb]. unfold bind at 1, Views.typed at 1.
  destruct (Dom.attr (Dom.elem item) "itemtype") as [itemType|]; cbn [JS.truthyAttr].
  - destruct (JS.truthyString itemType); cbn [when orb].
    + unfold bind at 1. rewrite extractMicrodataProperties_identity. reflexivity.
    + cbn [ret]. exact IH.
  - cbn [ret orb]. exact IH.
Qed.

Lemma parseRDFa_effect (doc : Dom.document) (results : Results) :
  _parseRDFa doc results
  = (if existsb (Views.typed "typeof") (Dom.select (Dom.has_attr "typeof") doc)
     then inr "this._validateSchemaType is not a function"
     else inl tt,
     results).
Proof.
  unfold _parseRDFa. cbv zeta.
  generalize (Dom.select (Dom.has_attr "typeof") doc) as elements. intros elements.
  induction elements as [|e elements IH]; [reflexivity|].
  cbn [forEach existsb]. unfold bind at 1, Views.typed at 1.
  destruct (Dom.attr (Dom.elem e) "typeof") as [type|]; cbn [JS.truthyAttr].
  - destruct (JS.truthyString type); cbn [when orb].
    + reflexivity.
    + cbn [ret]. exact IH.
  - cbn [ret orb]. exact IH.
Qed.

Lemma keepsM_ret {A V : Type} (view : Results -> V) (a : A) : Views.keepsM view (ret a).
Proof. intros r. reflexivity. Qed.

Lemma keepsM_throw {A V : Type} (view : Results -> V) (e : string) :
  Views.keepsM view (@throw Results A e).
Proof. intros r. reflexivity. Qed.

Lemma keepsM_bind {A B V : Type} (view : Results -> V) (c : M Results A)
  (k : A -> M Results B) :
  Views.keepsM view c -> (forall a, Views.keepsM view (k a)) ->
  Views.keepsM view (bind c k).
Proof.
  intros Hc Hk r. unfold bind. specialize (Hc r).
  destruct (c r) as [[a|e] r']; cbn [snd] in *; [now rewrite Hk | exact Hc].
Qed.

Lemma keepsM_modify {V : Type} (view : Results -> V) (f : Results -> Results) :
  (forall r, view (f r) = view r) -> Views.keepsM view (modify f).
Proof. intros H r. apply H. Qed.

Lemma keepsM_gets {A V : Type} (view : Results -> V) (f : Results -> A) :
  Views.keepsM view (gets f).
Proof. intros r. reflexivity. Qed.

Lemma keepsM_try_catch {A V : Type} (view : Results -> V) (body : M Results A)
  (handler : string -> M Results A) :
  Views.keepsM view body -> (forall e, Views.keepsM view (handler e)) ->
  Views.keepsM view (try_catch body handler).
Proof.
  intros Hb Hh r. unfold try_catch. specialize (Hb r).
  destruct (body r) as [[a|e] r']; cbn [snd] in *; [exact Hb | now rewrite Hh].
Qed.

Lemma keepsM_when {V : Type} (view : Results -> V) (b : bool) (c : M Results unit) :
  Views.keepsM view c -> Views.keepsM view (when b c).
Proof. intros H. unfold when. destruct b; [exact H | apply keepsM_ret]. Qed.

Lemma keepsM_forEach {A V : Type} (view : Results -> V) (f : A -> M Results unit)
  (l : list A) :
  (forall x, Views.keepsM view (f x)) -> Views.keepsM view (forEach f l).
Proof.
  intros H. induction l as [|x l IH]; cbn [forEach].
  - apply keepsM_ret.
  - apply keepsM_bind; [apply H | intros _; exact IH].
Qed.

Lemma keepsM_forEachIndex {A V : Type} (view : Results -> V)
  (f : A -> Z -> M Results unit) (i : Z) (l : list A) :
  (forall x j, Views.keepsM view (f x j)) -> Views.keepsM view (forEachIndex f i l).
Proof.
  intros H. revert i. induction l as [|x l IH]; intros i; cbn [forEachIndex].
  - apply keepsM_ret.
  - apply keepsM_bind; [apply H | intros _; apply IH].
Qed.

Lemma keepsM_some {A V : Type} (view : Results -> V) (f : A -> M Results bool)
  (l : list A) :
  (forall x, Views.keepsM view (f x)) -> Views.keepsM view (some f l).
Proof.
  intros H. induction l as [|x l IH]; cbn [some].
  - apply keepsM_ret.
  - apply keepsM_bind; [apply H | intros [|]; [apply keepsM_ret | exact IH]].
Qed.

(** One step of the proof that a method keeps the records: follow its
    syntax. *)
Ltac keep_step :=
  lazymatch goal with
  | |- Views.keepsM _ (ret _) => apply keepsM_ret
  | |- Views.keepsM _ (throw _) => apply keepsM_throw
  | |- Views.keepsM _ (bind _ _) => apply keepsM_bind; [|intros ?]
  | |- Views.keepsM _ (when _ _) => apply keepsM_when
  | |- Views.keepsM _ (forEach _ _) => apply keepsM_forEach; intros ?
  | |- Views.keepsM _ (forEachIndex _ _ _) => apply keepsM_forEachIndex; intros ? ?
  | |- Views.keepsM _ (some _ _) => apply keepsM_some; intros ?
  | |- Views.keepsM _ (try_catch _ _) => apply keepsM_try_catch; [|intros ?]
  | |- Views.keepsM _ (modify _) => apply keepsM_modify; intros; reflexivity
  | |- Views.keepsM _ (gets _) => apply keepsM_gets
  | |- Views.keepsM _ (match ?x with _ => _ end) => destruct x
  | |- Views.keepsM _ _ =>
      progress unfold push_error, push_warning, push_recommendation, incr_critical,
        incr_warnings, read, toLowerCase_of, _checkRequiredProperties,
        _checkRecommendedProperties
  end.

Ltac keep := cbv zeta; repeat keep_step.

Section WithDate.

Variable Date_accepts : value -> bool.

Lemma typeValidators_keep key validator schema :
  typeValidators Date_accepts key = Some validator ->
  Views.keepsM Views.records_of (validator schema).
Proof.
  unfold typeValidators. intros H.
  repeat match type of H with
         | (if ?b then _ else _) = _ => destruct b
         end;
    try discriminate; injection H as <-; cbv beta;
    unfold _validateOrganization, _validateProduct, _validateArticle,
      _validateBreadcrumbList, _validateFAQPage, _validateRecipe, _validateEvent,
      _validatePerson, _validateWebSite, _validateSearchAction;
    keep.
Qed.

Lemma validateSchemas_keep : Views.keepsM Views.records_of (_validateSchemas Date_accepts).
Proof.
  unfold _validateSchemas.
  apply keepsM_bind; [apply keepsM_gets|].
  intros all. apply keepsM_forEach. intros schema.
  destruct (typeValidators Date_accepts (ToString (type schema))) eqn:E.
  - apply (typeValidators_keep _ _ _ E).
  - apply keepsM_ret.
Qed.

Lemma analyzeAndRecommend_keep url :
  Views.keepsM Views.records_of (_analyzeAndRecommend url).
Proof. unfold _analyzeAndRecommend. keep. Qed.

Lemma preservesM_bind {A B : Type} (P : Results -> Prop) (c : M Results A)
  (k : A -> M Results B) :
  Views.preservesM P c -> (forall a, Views.preservesM P (k a)) ->
  Views.preservesM P (bind c k).
Proof.
  intros Hc Hk r Hr. unfold bind. specialize (Hc r Hr).
  destruct (c r) as [[a|e] r']; cbn [snd] in *; [now apply Hk | exact Hc].
Qed.

Lemma preservesM_try_catch {A : Type} (P : Results -> Prop) (body : M Results A)
  (handler : string -> M Results A) :
  Views.preservesM P body -> (forall e, Views.preservesM P (handler e)) ->
  Views.preservesM P (try_catch body handler).
Proof.
  intros Hb Hh r Hr. unfold try_catch. specialize (Hb r Hr).
  destruct (body r) as [[a|e] r']; cbn [snd] in *; [exact Hb | now apply Hh].
Qed.

Lemma keeps_bare {A : Type} (c : M Results A) :
  Views.keepsM Views.records_of c -> Views.preservesM Views.bare c.
Proof.
  intros H r Hr. specialize (H r). unfold Views.records_of in H.
  injection H as H1 H2 H3 H4 H5. unfold Views.bare in *.
  now rewrite H1, H2, H3, H4, H5.
Qed.

Lemma calculateScore_bare : Views.preservesM Views.bare _calculateScore.
Proof.
  intros r (H1 & H2 & H3 & H4 & _).
  destruct (calculateScore_range r) as (Hs & E1 & E2 & E3 & E4).
  unfold Views.bare. rewrite E1, E2, E3, E4. repeat split; try assumption; apply Hs.
Qed.

(** Whatever the page and whatever the response, [parse] resolves, with no
    record at all (every path to a record goes through [_processSchema])
    and with a score between 0 and 100. *)
Lemma parse_result_bare JSON_parse now url response :
  exists r,
    parse JSON_parse Date_accepts now url response = inl r /\ Views.bare r.
Proof.
  unfold parse, parse_body.
  assert (K : Views.preservesM Views.bare
                (parse_try JSON_parse Date_accepts url response)).
  { unfold parse_try. apply preservesM_try_catch; [|intros e; apply keeps_bare; keep].
    destruct response as [doc|message]; [|apply keeps_bare, keepsM_throw].
    apply preservesM_bind;
      [apply keeps_bare; intros r; now rewrite parseJsonLd_effect|intros _].
    apply preservesM_bind;
      [apply keeps_bare; intros r; now rewrite parseMicrodata_effect|intros _].
    apply preservesM_bind;
      [apply keeps_bare; intros r; now rewrite parseRDFa_effect|intros _].
    apply preservesM_bind; [apply keeps_bare, validateSchemas_keep|intros _].
    apply preservesM_bind; [apply keeps_bare, analyzeAndRecommend_keep|intros _].
    apply calculateScore_bare. }
  assert (T : exists r', parse_try JSON_parse Date_accepts url response
                           (initial url now) = (inl tt, r')).
  { unfold parse_try, try_catch.
    destruct (match response with
              | inl doc =>
                  _parseJsonLd JSON_parse doc ;;
                  _parseMicrodata doc ;;
                  _parseRDFa doc ;;
                  _validateSchemas Date_accepts ;;
                  _analyzeAndRecommend url ;;
                  _calculateScore
              | inr message => throw message
              end (initial url now)) as [[[]|e] r']; eexists; reflexivity. }
  destruct T as (r' & T).
  assert (B : Views.bare (initial url now)) by (repeat split; cbn; lia).
  specialize (K (initial url now) B).
  unfold bind, get_state. rewrite T in *. cbn [snd fst] in *.
  exists r'. split; [reflexivity | exact K].
Qed.

End WithDate.

End ParserProps.

(* ===================================================================== *)
(** ** Properties of the meta extractor *)
(* ===================================================================== *)

Module MetaProps.

Import MetaExtractor Views.

(** *** Strings *)

Lemma all_white_app (a b : string) :
  Spec.all_white (a +:+ b) = Spec.all_white a && Spec.all_white b.
Proof.
  induction a as [|c a IH]; simpl; [reflexivity|].
  rewrite IH. apply andb_assoc.
Qed.

Lemma all_white_reverse (s : string) :
  Spec.all_white (JS.reverse s) = Spec.all_white s.
Proof.
  induction s as [|c s IH]; simpl; [reflexivity|].
  rewrite all_white_app, IH. simpl. rewrite andb_true_r. apply andb_comm.
Qed.

Lemma truthy_trimStart (s : string) :
  JS.truthyString (JS.trimStart s) = negb (Spec.all_white s).
Proof.
  induction s as [|c s IH]; simpl; [reflexivity|].
  destruct (JS.isWhiteSpace c); simpl; [exact IH | reflexivity].
Qed.

Lemma all_white_trimStart (s : string) :
  Spec.all_white (JS.trimStart s) = Spec.all_white s.
Proof.
  induction s as [|c s IH]; simpl; [reflexivity|].
  destruct (JS.isWhiteSpace c) eqn:E; simpl; [exact IH | now rewrite E].
Qed.

Lemma truthy_reverse (s : string) :
  JS.truthyString (JS.reverse s) = JS.truthyString s.
Proof.
  destruct s as [|c s]; simpl; [reflexivity|].
  destruct (JS.reverse s); reflexivity.
Qed.

(** [s.trim()] is the empty string exactly when [s] is whitespace only. *)
Lemma truthy_trim (s : string) :
  JS.truthyString (JS.trim s) = negb (Spec.all_white s).
Proof.
  unfold JS.trim, JS.trimEnd.
  rewrite truthy_reverse, truthy_trimStart, all_white_reverse.
  now rewrite all_white_trimStart.
Qed.

(** The test [alt && alt.trim()] of the image loop fails exactly on an alt
    attribute that is absent, empty or whitespace only. *)
Lemma alt_test_blank (img : Dom.node) :
  JS.truthyAttr (Dom.attr img "alt")
  && JS.truthyString (JS.trim (JS.orElse (Dom.attr img "alt") ""))
  = negb (Spec.blank_alt img).
Proof.
  unfold Spec.blank_alt. destruct (Dom.attr img "alt") as [a|]; simpl; [|reflexivity].
  destruct a as [|c a]; [reflexivity|].
  cbn [JS.truthyString andb]. apply truthy_trim.
Qed.

(** *** Reading a field of an updated result *)

Ltac fields :=
  unfold images_of, links_of, when, deduct, push_issue, push_warning, set_meta_key,
    has_meta, JS.Math_min in *;
  cbn [url timestamp status error meta headings_h1 headings_h2 headings_h3
       headings_h4 headings_h5 headings_h6 images_total images_withAlt
       images_withoutAlt images_images links_internal links_external links_total
       issues warnings recommendations score
       set_status set_error set_meta set_headings_h1 set_headings_h2
       set_headings_h3 set_headings_h4 set_headings_h5 set_headings_h6
       set_images_total set_images_withAlt set_images_withoutAlt
       set_images_images set_links_internal set_links_external set_links_total
       set_issues set_warnings set_recommendations set_score meta_at fst snd
       negb andb orb] in *.

(** Case analysis on the conditions of a step, outermost first. *)
Ltac cases :=
  repeat (fields;
          match goal with
          | |- context [if ?b then _ else _] => destruct b eqn:?
          | |- context [match ?o with Some _ => _ | None => _ end] => destruct o eqn:?
          end);
  fields.

(** Equality of tuples, component by component. *)
Ltac pairs := repeat match goal with |- (_, _) = (_, _) => apply f_equal2 end.

(** *** Composition *)

Lemma keeps_comp {A : Type} (view : Results -> A) f g :
  keeps view f -> keeps view g -> keeps view (fun r => g (f r)).
Proof. intros Hf Hg r. now rewrite Hg, Hf. Qed.

Lemma costs_comp k1 k2 f g :
  costs k1 f -> costs k2 g -> costs (k1 + k2) (fun r => g (f r)).
Proof. intros Hf Hg r. specialize (Hf r). specialize (Hg (f r)). lia. Qed.

Lemma blind_comp f g : blind f -> blind g -> blind (fun r => g (f r)).
Proof. intros Hf Hg t r. now rewrite Hf, Hg. Qed.

Lemma keeps_fold {A B : Type} (view : Results -> A) (step : Results -> B -> Results)
  (l : list B) :
  (forall x, keeps view (fun r => step r x)) ->
  keeps view (fun r => fold_left step l r).
Proof.
  intros H. induction l as [|x l IH]; intros r; simpl; [reflexivity|].
  rewrite (IH (step r x)). apply (H x).
Qed.

Lemma blind_fold {B : Type} (step : Results -> B -> Results) (l : list B) :
  (forall x, blind (fun r => step r x)) ->
  blind (fun r => fold_left step l r).
Proof.
  intros H. induction l as [|x l IH]; intros t r; simpl; [reflexivity|].
  rewrite (H x t r). apply IH.
Qed.

(** *** The image loop *)

Lemma image_step_skips (r : Results) (l : Dom.located) :
  Spec.has_src (Dom.elem l) = false -> image_step r l = r.
Proof.
  unfold Spec.has_src, image_step. intros H.
  destruct (Dom.attr (Dom.elem l) "src") as [s|]; [|reflexivity].
  now rewrite H.
Qed.

Lemma image_step_counts (r : Results) (l : Dom.located) :
  Spec.has_src (Dom.elem l) = true ->
  images_of (image_step r l)
  = (images_total r + 1,
     images_withAlt r + (if Spec.blank_alt (Dom.elem l) then 0 else 1),
     images_withoutAlt r + (if Spec.blank_alt (Dom.elem l) then 1 else 0),
     images_images r ++ [info_of (Dom.elem l)]).
Proof.
  unfold Spec.has_src, image_step, info_of. intros H.
  destruct (Dom.attr (Dom.elem l) "src") as [s|]; [|discriminate].
  rewrite H, alt_test_blank. cbn [JS.orElse]. rewrite H.
  destruct (Spec.blank_alt (Dom.elem l)); fields; pairs; reflexivity || lia.
Qed.

Lemma image_step_keeps (l : Dom.located) :
  keeps links_of (fun r => image_step r l) /\
  keeps score (fun r => image_step r l) /\
  blind (fun r => image_step r l).
Proof.
  repeat split; intros r; intros; unfold image_step; cases; reflexivity.
Qed.

Lemma image_loop (sel : list Dom.located) (r : Results) :
  images_of (fold_left image_step sel r)
  = (images_total r + count Spec.has_src (map Dom.elem sel),
     images_withAlt r
     + count (fun e => Spec.has_src e && negb (Spec.blank_alt e)) (map Dom.elem sel),
     images_withoutAlt r
     + count (fun e => Spec.has_src e && Spec.blank_alt e) (map Dom.elem sel),
     images_images r ++ map info_of (counted (map Dom.elem sel))).
Proof.
  revert r. induction sel as [|l sel IH]; intros r.
  - unfold count, counted. cbn. rewrite app_nil_r, !Z.add_0_r. reflexivity.
  - cbn [fold_left map]. rewrite IH. unfold count, counted in *. cbn [filter].
    destruct (Spec.has_src (Dom.elem l)) eqn:Hsrc.
    + pose proof (image_step_counts r l Hsrc) as Hs. unfold images_of in Hs.
      injection Hs as Ht Ha Hw Hi. rewrite Ht, Ha, Hw, Hi.
      cbn [andb]. destruct (Spec.blank_alt (Dom.elem l));
        cbn [negb List.length map]; rewrite <- app_assoc; cbn [app];
        pairs; reflexivity || lia.
    + rewrite (image_step_skips r l Hsrc). reflexivity.
Qed.

(** *** What each step may touch *)

Lemma plain_comp k1 k2 f g :
  plain k1 f -> plain k2 g -> plain (k1 + k2) (fun r => g (f r)).
Proof.
  intros (Hi1 & Hl1 & Hc1 & Hb1) (Hi2 & Hl2 & Hc2 & Hb2).
  repeat split.
  - now apply keeps_comp.
  - now apply keeps_comp.
  - apply (costs_comp k1 k2 f g Hc1 Hc2 r).
  - apply (costs_comp k1 k2 f g Hc1 Hc2 r).
  - now apply blind_comp.
Qed.

Lemma plain_weaken k k' f : plain k f -> k <= k' -> plain k' f.
Proof.
  intros (Hi & Hl & Hc & Hb) Hk. repeat split; auto; specialize (Hc r); lia.
Qed.

Lemma plain_fold {B : Type} (step : Results -> B -> Results) (l : list B) :
  (forall x, plain 0 (fun r => step r x)) ->
  plain 0 (fun r => fold_left step l r).
Proof.
  intros H. induction l as [|x l IH].
  - repeat split; simpl; try reflexivity; lia.
  - apply (plain_comp 0 0 (fun r => step r x) (fun r => fold_left step l r) (H x) IH).
Qed.

(** A step defined by cases on conditions that do not read the timestamp. *)
Ltac plain_cases :=
  unfold plain, keeps, costs, blind; repeat split; intros; cases;
  try reflexivity; try lia; try congruence.

Lemma extractTitle_plain doc : plain 20 (_extractTitle doc).
Proof. unfold _extractTitle. plain_cases. Qed.

Lemma meta_description_plain doc : plain 15 (meta_description doc).
Proof. unfold meta_description. plain_cases. Qed.

Lemma meta_keywords_plain doc : plain 0 (meta_keywords doc).
Proof. unfold meta_keywords. plain_cases. Qed.

Lemma meta_robots_plain doc : plain 0 (meta_robots doc).
Proof. unfold meta_robots. plain_cases. Qed.

Lemma meta_viewport_plain doc : plain 10 (meta_viewport doc).
Proof. unfold meta_viewport. plain_cases. Qed.

Lemma meta_charset_plain doc : plain 0 (meta_charset doc).
Proof. unfold meta_charset. plain_cases. Qed.

Lemma collect_step_effect sel prefix doc (r : Results) (b : bool) (tag : string) :
  exists r' b',
    collect_step sel prefix doc (r, b) tag = (r', b') /\
    images_of r' = images_of r /\ links_of r' = links_of r /\ score r' = score r /\
    forall t, collect_step sel prefix doc (meta_at t r, b) tag = (meta_at t r', b').
Proof.
  unfold collect_step. cbn [fst].
  destruct (Dom.first_attr (Dom.select (sel (prefix +:+ tag)) doc) "content")
    as [c|]; [destruct (JS.truthyString c)|];
    eexists; eexists; repeat split.
Qed.

Lemma collect_tags_effect sel prefix doc tags (r : Results) :
  images_of (fst (collect_tags sel prefix doc tags r)) = images_of r /\
  links_of (fst (collect_tags sel prefix doc tags r)) = links_of r /\
  score (fst (collect_tags sel prefix doc tags r)) = score r /\
  forall t, collect_tags sel prefix doc tags (meta_at t r)
            = (meta_at t (fst (collect_tags sel prefix doc tags r)),
               snd (collect_tags sel prefix doc tags r)).
Proof.
  unfold collect_tags.
  enough (G : forall b,
             let out := fold_left (collect_step sel prefix doc) tags (r, b) in
             images_of (fst out) = images_of r /\
             links_of (fst out) = links_of r /\
             score (fst out) = score r /\
             forall t, fold_left (collect_step sel prefix doc) tags (meta_at t r, b)
                       = (meta_at t (fst out), snd out)) by apply G.
  revert r. induction tags as [|tag tags IH]; intros r b.
  - cbn. repeat split.
  - cbn [fold_left].
    destruct (collect_step_effect sel prefix doc r b tag)
      as (r' & b' & E & Hi' & Hl' & Hs' & Ht').
    rewrite E. destruct (IH r' b') as (Hi & Hl & Hs & Ht).
    repeat split.
    + now rewrite Hi.
    + now rewrite Hl.
    + now rewrite Hs.
    + intros t. rewrite Ht'. apply Ht.
Qed.

Lemma extractOpenGraphTags_plain doc : plain 5 (_extractOpenGraphTags doc).
Proof.
  unfold _extractOpenGraphTags, plain, keeps, costs, blind.
  repeat split; intros;
    match goal with
    | r0 : Results |- context [collect_tags ?s ?p ?d ?l _] =>
        destruct (collect_tags_effect s p d l r0) as (Hi & Hl & Hs & Ht);
        try rewrite Ht;
        destruct (collect_tags s p d l r0) as [r1 b]
    end; cbn [fst snd] in *; cases;
    try (injection Hi as <- <- <- <-); try (injection Hl as <- <- <-);
    try reflexivity; try lia; try congruence.
Qed.

Lemma extractTwitterCardTags_plain doc : plain 3 (_extractTwitterCardTags doc).
Proof.
  unfold _extractTwitterCardTags, plain, keeps, costs, blind.
  repeat split; intros;
    match goal with
    | r0 : Results |- context [collect_tags ?s ?p ?d ?l _] =>
        destruct (collect_tags_effect s p d l r0) as (Hi & Hl & Hs & Ht);
        try rewrite Ht;
        destruct (collect_tags s p d l r0) as [r1 b]
    end; cbn [fst snd] in *; cases;
    try (injection Hi as <- <- <- <-); try (injection Hl as <- <- <-);
    try reflexivity; try lia; try congruence.
Qed.

Lemma extractMetaTags_plain doc : plain 33 (_extractMetaTags doc).
Proof.
  unfold _extractMetaTags. cbv zeta.
  apply (plain_weaken (15 + 0 + 0 + 10 + 0 + 5 + 3)); [|lia].
  apply (plain_comp _ 3 _ (_extractTwitterCardTags doc));
    [|apply extractTwitterCardTags_plain].
  apply (plain_comp _ 5 _ (_extractOpenGraphTags doc));
    [|apply extractOpenGraphTags_plain].
  apply (plain_comp _ 0 _ (meta_charset doc)); [|apply meta_charset_plain].
  apply (plain_comp _ 10 _ (meta_viewport doc)); [|apply meta_viewport_plain].
  apply (plain_comp _ 0 _ (meta_robots doc)); [|apply meta_robots_plain].
  apply (plain_comp 15 0 (meta_description doc) (meta_keywords doc));
    [apply meta_description_plain | apply meta_keywords_plain].
Qed.

Section WithURL.

Variable URL_hostname : string -> option string -> option string.

Lemma extractCanonical_plain doc : plain 5 (_extractCanonical URL_hostname doc).
Proof. unfold _extractCanonical. plain_cases. Qed.

Lemma push_heading_plain tag text : plain 0 (push_heading tag text).
Proof. unfold push_heading. plain_cases. Qed.

Lemma collect_headings_plain doc : plain 0 (collect_headings doc).
Proof.
  unfold collect_headings. cbv zeta.
  apply plain_fold. intros tag. apply plain_fold. intros l. cbv zeta.
  destruct (push_heading_plain tag (JS.trim (Dom.text (Dom.elem l))))
    as (Hi & Hl & Hc & Hb).
  unfold plain, keeps, costs, blind, when in *.
  destruct (JS.truthyString (JS.trim (Dom.text (Dom.elem l))));
    repeat split; intros; auto; try lia; apply Hc.
Qed.

Lemma check_headings_plain : plain 13 check_headings.
Proof. unfold check_headings. plain_cases. Qed.

Lemma extractHeadings_plain doc : plain 13 (_extractHeadings doc).
Proof.
  unfold _extractHeadings. cbv zeta.
  apply (plain_comp 0 13 (collect_headings doc) check_headings
           (collect_headings_plain doc) check_headings_plain).
Qed.

Lemma analyzeResults_plain : plain 0 _analyzeResults.
Proof.
  unfold _analyzeResults, plain, keeps, costs, blind.
  repeat split; intros; fields; try reflexivity; lia.
Qed.

(** *** Images *)

Lemma check_images_plain : plain 20 check_images.
Proof. unfold check_images. plain_cases. Qed.

Lemma image_fold_keeps (sel : list Dom.located) :
  keeps links_of (fun r => fold_left image_step sel r) /\
  keeps score (fun r => fold_left image_step sel r) /\
  blind (fun r => fold_left image_step sel r).
Proof.
  repeat split.
  - apply keeps_fold. intros l. apply image_step_keeps.
  - apply keeps_fold. intros l. apply image_step_keeps.
  - apply blind_fold. intros l. apply image_step_keeps.
Qed.

(** [_extractImages] leaves the links alone, costs at most 20 points and
    does not look at the timestamp. *)
Lemma extractImages_effect doc :
  keeps links_of (_extractImages doc) /\ costs 20 (_extractImages doc) /\
  blind (_extractImages doc).
Proof.
  unfold _extractImages. cbv zeta.
  destruct (image_fold_keeps (Dom.select (Dom.is_tag "img") doc)) as (Hl & Hs & Hb).
  destruct check_images_plain as (_ & Hl' & Hc' & Hb').
  split; [|split].
  - intros r. rewrite Hl'. apply Hl.
  - intros r.
    specialize (Hc' (fold_left image_step (Dom.select (Dom.is_tag "img") doc) r)).
    rewrite (Hs r) in Hc'. exact Hc'.
  - intros t r. rewrite Hb. apply Hb'.
Qed.

(** The counters and the list [_extractImages] leaves behind. *)
Lemma extractImages_images doc (r : Results) :
  images_of (_extractImages doc r)
  = (images_total r + count Spec.has_src (Spec.imgs doc),
     images_withAlt r
     + count (fun e => Spec.has_src e && negb (Spec.blank_alt e)) (Spec.imgs doc),
     images_withoutAlt r
     + count (fun e => Spec.has_src e && Spec.blank_alt e) (Spec.imgs doc),
     images_images r ++ map info_of (counted (Spec.imgs doc))).
Proof.
  unfold _extractImages. cbv zeta.
  destruct check_images_plain as (Hi & _). rewrite Hi. apply image_loop.
Qed.

(** The two alt counters split the images that count. *)
Lemma count_split (p q : Dom.node -> bool) (l : list Dom.node) :
  count p l = count (fun e => p e && negb (q e)) l + count (fun e => p e && q e) l.
Proof.
  unfold count. induction l as [|x l IH]; [reflexivity|].
  cbn [filter]. destruct (p x), (q x); cbn [andb negb List.length]; lia.
Qed.

(** *** Links *)

Lemma link_step_effect pageUrl host (r : Results) (n : Z) (l : Dom.located) :
  exists r' n',
    link_step URL_hostname pageUrl host (r, n) l = (r', n') /\
    links_total r' = links_total r + (if counted_href l then 1 else 0) /\
    links_internal r' + links_external r'
    = links_internal r + links_external r
      + (if counted_href l && resolves URL_hostname pageUrl (href_or_empty l)
         then 1 else 0) /\
    images_of r' = images_of r /\ score r' = score r /\
    forall t, link_step URL_hostname pageUrl host (meta_at t r, n) l = (meta_at t r', n').
Proof.
  unfold link_step, counted_href, resolves, href_or_empty.
  destruct (Dom.attr (Dom.elem l) "href") as [h|]; cbn [JS.orElse].
  - destruct (JS.truthyString h) eqn:Hh; cbn [negb orb andb].
    + destruct (JS.startsWith "#" h); cbn [negb].
      * exists r, n. fields. repeat split; lia.
      * destruct (URL_hostname h (Some pageUrl)) as [hostname|].
        -- destruct (String.eqb hostname host).
           ++ eexists; eexists; split; [reflexivity|]. fields. repeat split; lia.
           ++ destruct (negb (JS.includes "nofollow" (JS.orElse (Dom.attr (Dom.elem l) "rel") ""))
                        && negb (JS.includes "noopener" (JS.orElse (Dom.attr (Dom.elem l) "rel") "")));
                (eexists; eexists; split; [reflexivity|]); fields; repeat split; lia.
        -- eexists; eexists; split; [reflexivity|]. fields. repeat split; lia.
    + exists r, n. fields. repeat split; lia.
  - exists r, n. fields. repeat split; lia.
Qed.

Lemma link_loop pageUrl host (sel : list Dom.located) (r : Results) (n : Z) :
  let out := fold_left (link_step URL_hostname pageUrl host) sel (r, n) in
  links_total (fst out)
  = links_total r + Z.of_nat (List.length (filter counted_href sel)) /\
  links_internal (fst out) + links_external (fst out)
  = links_internal r + links_external r
    + Z.of_nat (List.length
        (filter (fun l => counted_href l
                          && resolves URL_hostname pageUrl (href_or_empty l)) sel)) /\
  images_of (fst out) = images_of r /\ score (fst out) = score r /\
  forall t, fold_left (link_step URL_hostname pageUrl host) sel (meta_at t r, n)
            = (meta_at t (fst out), snd out).
Proof.
  revert r n. induction sel as [|l sel IH]; intros r n.
  - cbn. repeat split; lia.
  - cbn [fold_left filter].
    destruct (link_step_effect pageUrl host r n l)
      as (r' & n' & E & Ht & Hie & Hi & Hs & Hb).
    rewrite E. destruct (IH r' n') as (Ht' & Hie' & Hi' & Hs' & Hb').
    cbv zeta. repeat split.
    + rewrite Ht', Ht. destruct (counted_href l); cbn [List.length]; lia.
    + rewrite Hie', Hie.
      destruct (counted_href l && resolves URL_hostname pageUrl (href_or_empty l));
        cbn [List.length]; lia.
    + now rewrite Hi'.
    + now rewrite Hs'.
    + intros t. rewrite Hb. apply Hb'.
Qed.

(** [_extractLinks] leaves the images alone, costs nothing and does not
    look at the timestamp; its three counters are those of the loop. *)
Lemma extractLinks_effect doc pageUrl host :
  keeps images_of (_extractLinks URL_hostname doc pageUrl host) /\
  costs 0 (_extractLinks URL_hostname doc pageUrl host) /\
  blind (_extractLinks URL_hostname doc pageUrl host) /\
  forall r,
    let anchors := Dom.select (fun n => Dom.is_tag "a" n && Dom.has_attr "href" n) doc in
    let r' := _extractLinks URL_hostname doc pageUrl host r in
    links_total r'
    = links_total r + Z.of_nat (List.length (filter counted_href anchors)) /\
    links_internal r' + links_external r'
    = links_internal r + links_external r
      + Z.of_nat (List.length
          (filter (fun l => counted_href l
                            && resolves URL_hostname pageUrl (href_or_empty l)) anchors)).
Proof.
  unfold _extractLinks. cbv zeta.
  set (anchors := Dom.select (fun n => Dom.is_tag "a" n && Dom.has_attr "href" n) doc).
  unfold keeps, costs, blind.
  assert (G : forall r,
             exists r1 n,
               fold_left (link_step URL_hostname pageUrl host) anchors (r, 0) = (r1, n) /\
               links_total r1
               = links_total r + Z.of_nat (List.length (filter counted_href anchors)) /\
               links_internal r1 + links_external r1
               = links_internal r + links_external r
                 + Z.of_nat (List.length
                     (filter (fun l => counted_href l
                                       && resolves URL_hostname pageUrl (href_or_empty l))
                        anchors)) /\
               images_of r1 = images_of r /\ score r1 = score r /\
               forall t,
                 fold_left (link_step URL_hostname pageUrl host) anchors (meta_at t r, 0)
                 = (meta_at t r1, n)).
  { intros r. pose proof (link_loop pageUrl host anchors r 0) as H. cbv zeta in H.
    destruct (fold_left (link_step URL_hostname pageUrl host) anchors (r, 0)) as [r1 n].
    exists r1, n. split; [reflexivity | exact H]. }
  split; [|split; [|split]].
  - intros r. destruct (G r) as (r1 & n & E & _ & _ & Hi & _). rewrite E.
    cases; exact Hi.
  - intros r. destruct (G r) as (r1 & n & E & _ & _ & _ & Hs & _). rewrite E.
    cases; lia.
  - intros t r. destruct (G r) as (r1 & n & E & _ & _ & _ & _ & Hb).
    rewrite Hb, E. cases; reflexivity.
  - intros r. destruct (G r) as (r1 & n & E & Ht & Hie & _). rewrite E.
    cases; split; assumption.
Qed.

(** The hrefs the specification counts are those of the counted anchors. *)
Lemma hrefs_counted (sel : list Dom.located) :
  filter (fun h => JS.truthyString h && negb (JS.startsWith "#" h))
    (flat_map (fun l => match Dom.attr (Dom.elem l) "href" with
                        | Some h => [h]
                        | None => []
                        end) sel)
  = map href_or_empty (filter counted_href sel).
Proof.
  induction sel as [|l sel IH]; [reflexivity|].
  cbn [flat_map filter]. rewrite filter_app, IH. clear IH.
  assert (E : filter (fun h => JS.truthyString h && negb (JS.startsWith "#" h))
                (match Dom.attr (Dom.elem l) "href" with
                 | Some h => [h]
                 | None => []
                 end)
              = if counted_href l then [href_or_empty l] else []).
  { unfold counted_href, href_or_empty.
    destruct (Dom.attr (Dom.elem l) "href") as [h|]; [|reflexivity].
    cbn [filter JS.orElse].
    destruct (JS.truthyString h) eqn:Hh; cbn [andb]; [|reflexivity].
    destruct (JS.startsWith "#" h); reflexivity. }
  rewrite E. destruct (counted_href l); reflexivity.
Qed.

Lemma filter_map_length {A B : Type} (f : A -> B) (p : B -> bool) (l : list A) :
  List.length (filter p (map f l)) = List.length (filter (fun x => p (f x)) l).
Proof.
  induction l as [|x l IH]; [reflexivity|].
  cbn [map filter]. destruct (p (f x)); cbn [List.length]; now rewrite IH.
Qed.

Lemma filter_filter_length {A : Type} (p q : A -> bool) (l : list A) :
  List.length (filter q (filter p l)) = List.length (filter (fun x => p x && q x) l).
Proof.
  induction l as [|x l IH]; [reflexivity|].
  cbn [filter]. destruct (p x); cbn [andb filter]; [|exact IH].
  destruct (q x); cbn [List.length]; now rewrite IH.
Qed.

Lemma filter_split_length {A : Type} (p q : A -> bool) (l : list A) :
  (List.length (filter p l)
   = List.length (filter (fun x => p x && q x) l)
     + List.length (filter (fun x => p x && negb (q x)) l))%nat.
Proof.
  induction l as [|x l IH]; [reflexivity|].
  cbn [filter]. destruct (p x), (q x); cbn [andb negb List.length]; lia.
Qed.

(** *** extract *)

Lemma extract_completed now url doc host :
  URL_hostname url None = Some host ->
  extract URL_hostname now url (inl doc)
  = inl (passes URL_hostname doc url host (initial url now)).
Proof.
  intros H.
  unfold extract, extract_body, extract_try, try_catch, bind, modify, get_state, ret, throw.
  rewrite H. reflexivity.
Qed.

Lemma extract_invalid_url now url doc :
  URL_hostname url None = None ->
  extract URL_hostname now url (inl doc) = inl (failed "Invalid URL" (initial url now)).
Proof.
  intros H.
  unfold extract, extract_body, extract_try, try_catch, bind, modify, get_state, ret, throw.
  rewrite H. reflexivity.
Qed.

Lemma extract_fetch_failure now url message :
  extract URL_hostname now url (inr message) = inl (failed message (initial url now)).
Proof. reflexivity. Qed.

(** A completed result is the one the seven passes computed. *)
Lemma extract_completed_inv now url doc r :
  extract URL_hostname now url (inl doc) = inl r ->
  status r = "completed" ->
  exists host, URL_hostname url None = Some host /\
               r = passes URL_hostname doc url host (initial url now).
Proof.
  intros H Hs. destruct (URL_hostname url None) as [host|] eqn:E.
  - rewrite (extract_completed now url doc host E) in H. injection H as <-.
    exists host. split; reflexivity.
  - rewrite (extract_invalid_url now url doc E) in H. injection H as <-.
    discriminate Hs.
Qed.

(** The seven passes together. *)
Lemma passes_images doc url host (r : Results) :
  images_of (passes URL_hostname doc url host r)
  = (images_total r + count Spec.has_src (Spec.imgs doc),
     images_withAlt r
     + count (fun e => Spec.has_src e && negb (Spec.blank_alt e)) (Spec.imgs doc),
     images_withoutAlt r
     + count (fun e => Spec.has_src e && Spec.blank_alt e) (Spec.imgs doc),
     images_images r ++ map info_of (counted (Spec.imgs doc))).
Proof.
  unfold passes.
  destruct analyzeResults_plain as (Ha & _).
  destruct (extractLinks_effect doc url host) as (Hl & _).
  destruct (extractHeadings_plain doc) as (Hh & _).
  destruct (extractCanonical_plain doc) as (Hc & _).
  destruct (extractMetaTags_plain doc) as (Hm & _).
  destruct (extractTitle_plain doc) as (Ht & _).
  rewrite Ha, Hl, extractImages_images.
  assert (E : images_of (_extractHeadings doc
                (_extractCanonical URL_hostname doc
                   (_extractMetaTags doc (_extractTitle doc r)))) = images_of r)
    by now rewrite Hh, Hc, Hm, Ht.
  unfold images_of in E. injection E as -> -> -> ->. reflexivity.
Qed.

Lemma passes_links doc url host (r : Results) :
  let anchors := Dom.select (fun n => Dom.is_tag "a" n && Dom.has_attr "href" n) doc in
  let r' := passes URL_hostname doc url host r in
  links_total r' = links_total r + Z.of_nat (List.length (filter counted_href anchors)) /\
  links_internal r' + links_external r'
  = links_internal r + links_external r
    + Z.of_nat (List.length
        (filter (fun l => counted_href l
                          && resolves URL_hostname url (href_or_empty l)) anchors)).
Proof.
  cbv zeta. unfold passes.
  destruct analyzeResults_plain as (_ & Ha & _).
  destruct (extractLinks_effect doc url host) as (_ & _ & _ & Hl).
  destruct (extractImages_effect doc) as (Hi & _).
  destruct (extractHeadings_plain doc) as (_ & Hh & _).
  destruct (extractCanonical_plain doc) as (_ & Hc & _).
  destruct (extractMetaTags_plain doc) as (_ & Hm & _).
  destruct (extractTitle_plain doc) as (_ & Ht & _).
  assert (E : links_of (_extractImages doc
                (_extractHeadings doc
                   (_extractCanonical URL_hostname doc
                      (_extractMetaTags doc (_extractTitle doc r))))) = links_of r)
    by now rewrite Hi, Hh, Hc, Hm, Ht.
  specialize (Hl (_extractImages doc
                    (_extractHeadings doc
                       (_extractCanonical URL_hostname doc
                          (_extractMetaTags doc (_extractTitle doc r)))))).
  cbv zeta in Hl. destruct Hl as (Hl1 & Hl2).
  clear Ha. unfold links_of in E. injection E as E1 E2 E3.
  unfold _analyzeResults at 1 2 3.
  cbn [links_total links_internal links_external set_recommendations].
  rewrite Hl1, Hl2, E1, E2, E3. split; reflexivity.
Qed.

Lemma passes_score doc url host (r : Results) :
  score r - 91 <= score (passes URL_hostname doc url host r) <= score r.
Proof.
  unfold passes.
  destruct analyzeResults_plain as (_ & _ & Ha & _).
  destruct (extractLinks_effect doc url host) as (_ & Hl & _).
  destruct (extractImages_effect doc) as (_ & Hi & _).
  destruct (extractHeadings_plain doc) as (_ & _ & Hh & _).
  destruct (extractCanonical_plain doc) as (_ & _ & Hc & _).
  destruct (extractMetaTags_plain doc) as (_ & _ & Hm & _).
  destruct (extractTitle_plain doc) as (_ & _ & Ht & _).
  pose proof (Ht r) as H1.
  pose proof (Hm (_extractTitle doc r)) as H2.
  pose proof (Hc (_extractMetaTags doc (_extractTitle doc r))) as H3.
  pose proof (Hh (_extractCanonical URL_hostname doc
                    (_extractMetaTags doc (_extractTitle doc r)))) as H4.
  pose proof (Hi (_extractHeadings doc
                    (_extractCanonical URL_hostname doc
                       (_extractMetaTags doc (_extractTitle doc r))))) as H5.
  pose proof (Hl (_extractImages doc
                    (_extractHeadings doc
                       (_extractCanonical URL_hostname doc
                          (_extractMetaTags doc (_extractTitle doc r)))))) as H6.
  pose proof (Ha (_extractLinks URL_hostname doc url host
                    (_extractImages doc
                       (_extractHeadings doc
                          (_extractCanonical URL_hostname doc
                             (_extractMetaTags doc (_extractTitle doc r))))))) as H7.
  lia.
Qed.

Lemma passes_blind doc url host : blind (passes URL_hostname doc url host).
Proof.
  unfold passes. intros t r.
  destruct analyzeResults_plain as (_ & _ & _ & Ha).
  destruct (extractLinks_effect doc url host) as (_ & _ & Hl & _).
  destruct (extractImages_effect doc) as (_ & _ & Hi).
  destruct (extractHeadings_plain doc) as (_ & _ & _ & Hh).
  destruct (extractCanonical_plain doc) as (_ & _ & _ & Hc).
  destruct (extractMetaTags_plain doc) as (_ & _ & _ & Hm).
  destruct (extractTitle_plain doc) as (_ & _ & _ & Ht).
  now rewrite Ht, Hm, Hc, Hh, Hi, Hl, Ha.
Qed.

(** Every call of [extract] resolves, with a score between 9 and 100. *)
Lemma extract_returns_bounded now url response :
  exists r, extract URL_hostname now url response = inl r /\ 9 <= score r <= 100.
Proof.
  destruct response as [doc|message].
  - destruct (URL_hostname url None) as [host|] eqn:E.
    + rewrite (extract_completed now url doc host E). eexists. split; [reflexivity|].
      pose proof (passes_score doc url host (initial url now)) as H.
      cbn [score initial] in H. lia.
    + rewrite (extract_invalid_url now url doc E). eexists. split; [reflexivity|].
      cbn. lia.
  - rewrite extract_fetch_failure. eexists. split; [reflexivity|]. cbn. lia.
Qed.

(** C10. On a completed result, the total of the image counters is the sum
    of the other two; the total counts the img elements that carry a src
    attribute with a value, and the list holds their entries in document
    order; an img element without src attribute is none of them; and
    [withoutAlt] counts those among them whose alt attribute is absent,
    empty or whitespace only, [withAlt] the others. *)
Theorem images_counters now url doc r :
  extract URL_hostname now url (inl doc) = inl r ->
  status r = "completed" ->
  images_total r = images_withAlt r + images_withoutAlt r /\
  images_total r = count Spec.has_src (Spec.imgs doc) /\
  images_images r = map info_of (counted (Spec.imgs doc)) /\
  (forall img, In img (Spec.imgs doc) -> Dom.attr img "src" = None ->
               ~ In img (counted (Spec.imgs doc))) /\
  images_withoutAlt r
  = count (fun img => Spec.has_src img && Spec.blank_alt img) (Spec.imgs doc) /\
  images_withAlt r
  = count (fun img => Spec.has_src img && negb (Spec.blank_alt img)) (Spec.imgs doc).
Proof.
  intros H Hs.
  destruct (extract_completed_inv now url doc r H Hs) as (host & _ & ->).
  pose proof (passes_images doc url host (initial url now)) as E.
  remember (passes URL_hostname doc url host (initial url now)) as r eqn:Er.
  clear Er H Hs.
  unfold images_of in E. cbn [images_total images_withAlt images_withoutAlt
                              images_images initial app] in E.
  injection E as -> -> -> ->.
  rewrite ?Z.add_0_l.
  split; [apply count_split|].
  repeat split.
  intros img _ Hsrc Hin. unfold counted in Hin. apply filter_In in Hin.
  destruct Hin as (_ & Hin). unfold Spec.has_src in Hin. now rewrite Hsrc in Hin.
Qed.

(** C6, as the code has it.  On a completed result, [links.total] counts
    every href that is neither empty nor a fragment, whether it resolves
    against the page URL or not; [links.internal] and [links.external]
    count those that resolve.  So the total is their sum plus the number of
    hrefs that fail to resolve, and it is their sum when none fails. *)
Theorem links_total_counts_malformed now url doc r :
  extract URL_hostname now url (inl doc) = inl r ->
  status r = "completed" ->
  links_total r = Z.of_nat (List.length (Spec.hrefs doc)) /\
  links_total r
  = links_internal r + links_external r
    + Z.of_nat (List.length
        (filter (fun h => negb (resolves URL_hostname url h)) (Spec.hrefs doc))) /\
  (forallb (resolves URL_hostname url) (Spec.hrefs doc) = true ->
   links_total r = links_internal r + links_external r).
Proof.
  intros H Hs.
  destruct (extract_completed_inv now url doc r H Hs) as (host & _ & ->).
  pose proof (passes_links doc url host (initial url now)) as E. cbv zeta in E.
  remember (passes URL_hostname doc url host (initial url now)) as r eqn:Er.
  clear Er H Hs.
  cbn [links_total links_internal links_external initial] in E.
  destruct E as (Et & Eie).
  unfold Spec.hrefs. rewrite hrefs_counted.
  set (anchors := Dom.select (fun n => Dom.is_tag "a" n && Dom.has_attr "href" n) doc) in *.
  rewrite length_map, filter_map_length, filter_filter_length.
  pose proof (filter_split_length counted_href
                (fun l => resolves URL_hostname url (href_or_empty l)) anchors) as Hsplit.
  assert (Hmal :
            links_total r
            = links_internal r + links_external r
              + Z.of_nat (List.length
                  (filter (fun x => counted_href x
                                    && negb (resolves URL_hostname url (href_or_empty x)))
                     anchors))) by lia.
  split; [lia | split; [exact Hmal|]].
  intros Hall. rewrite Hmal.
  assert (Hnone : filter (fun x => counted_href x
                                   && negb (resolves URL_hostname url (href_or_empty x)))
                    anchors = []).
  { rewrite forallb_forall in Hall.
    clear - Hall. induction anchors as [|l anchors IH]; [reflexivity|].
    cbn [filter]. destruct (counted_href l) eqn:Hc; cbn [andb].
    - rewrite (Hall (href_or_empty l)).
      + cbn [negb]. apply IH. intros h Hh. apply Hall.
        cbn [filter map]. rewrite Hc. cbn [map]. now right.
      + cbn [filter map]. rewrite Hc. cbn [map]. now left.
    - apply IH. intros h Hh. apply Hall. cbn [filter]. now rewrite Hc. }
  rewrite Hnone. cbn. lia.
Qed.

End WithURL.

(** The page of the test suite, with its extra img elements and its extra
    anchor: five img elements, four of them with a src, two of those with
    alt text. *)
Lemma images_counters_witness :
  exists r,
    extract Samples.URL_hostname "" "https://example.com" (inl Samples.test_page) = inl r /\
    status r = "completed" /\
    images_total r = images_withAlt r + images_withoutAlt r /\
    images_total r = 4 /\ images_withAlt r = 2 /\ images_withoutAlt r = 2 /\
    List.length (Spec.imgs Samples.test_page) = 5%nat.
Proof.
  set (r := passes Samples.URL_hostname Samples.test_page "https://example.com"
              "example.com" (initial "https://example.com" "")).
  assert (H1 : extract Samples.URL_hostname "" "https://example.com"
                 (inl Samples.test_page) = inl r) by (vm_compute; reflexivity).
  assert (H2 : status r = "completed") by (vm_compute; reflexivity).
  destruct (images_counters Samples.URL_hostname "" "https://example.com"
              Samples.test_page r H1 H2) as (Hsum & _).
  exists r. split; [exact H1|]. split; [exact H2|]. split; [exact Hsum|].
  repeat split; vm_compute; reflexivity.
Defined.

(** The same page: four hrefs count, three resolve, one does not. *)
Lemma links_total_counts_malformed_witness :
  exists r,
    extract Samples.URL_hostname "" "https://example.com" (inl Samples.test_page) = inl r /\
    status r = "completed" /\
    links_total r
    = links_internal r + links_external r
      + Z.of_nat (List.length
          (filter (fun h => negb (resolves Samples.URL_hostname "https://example.com" h))
             (Spec.hrefs Samples.test_page))) /\
    links_total r = 4 /\ links_internal r = 2 /\ links_external r = 1.
Proof.
  set (r := passes Samples.URL_hostname Samples.test_page "https://example.com"
              "example.com" (initial "https://example.com" "")).
  assert (H1 : extract Samples.URL_hostname "" "https://example.com"
                 (inl Samples.test_page) = inl r) by (vm_compute; reflexivity).
  assert (H2 : status r = "completed") by (vm_compute; reflexivity).
  destruct (links_total_counts_malformed Samples.URL_hostname "" "https://example.com"
              Samples.test_page r H1 H2) as (_ & Hmal & _).
  exists r. split; [exact H1|]. split; [exact H2|]. split; [exact Hmal|].
  repeat split; vm_compute; reflexivity.
Defined.

(** C6 as stated fails on a page whose only anchor has an href without
    host: the href is counted in [links.total] and in neither of the other
    two counters. *)
Lemma links_total_counts_bad_href :
  exists r,
    extract Samples.URL_hostname "" "https://example.com" (inl Samples.one_bad_link) = inl r /\
    status r = "completed" /\
    Spec.hrefs Samples.one_bad_link = ["http://"] /\
    Samples.URL_hostname "http://" (Some "https://example.com") = None /\
    links_total r = 1 /\ links_internal r = 0 /\ links_external r = 0 /\
    links_total r <> links_internal r + links_external r.
Proof.
  eexists. split; [vm_compute; reflexivity|].
  repeat split; try (vm_compute; reflexivity).
  vm_compute. discriminate.
Qed.

(** C5, as the code has it.  The meta pass has no final clamp, but its
    deductions add up to 91 at most: every call of [extract] resolves with
    a score between 9 and 100, and the page [Samples.worst_page] gets 9. *)
Theorem meta_score_floor :
  (forall URL_hostname now url response,
     exists r, extract URL_hostname now url response = inl r /\ 9 <= score r <= 100) /\
  (exists r,
     extract Samples.URL_hostname "" "https://example.com" (inl Samples.worst_page) = inl r /\
     score r = 9).
Proof.
  split.
  - intros. apply extract_returns_bounded.
  - eexists. split; vm_compute; reflexivity.
Qed.

(** C5 as stated fails: no input gives a score below 0. *)
Lemma meta_score_never_negative :
  ~ exists URL_hostname now url response r,
      extract URL_hostname now url response = inl r /\ score r < 0.
Proof.
  intros (U & now & url & response & r & H & Hneg).
  destruct (extract_returns_bounded U now url response) as (r' & H' & Hb).
  rewrite H in H'. injection H' as <-. lia.
Qed.

(** *** generateCSV *)

(** The row the test [should escape quotes in CSV] expects to find: the
    title with its quotes doubled. *)
Lemma doubled_title :
  Spec.double_quotes Samples.quoted_title
  = "Title with " +:+ JS.dquote +:+ JS.dquote +:+ "quotes" +:+ JS.dquote +:+ JS.dquote.
Proof. reflexivity. Qed.

(** C7, at the result of the test [should escape quotes in CSV]: the
    output is the header row and one data row of eleven cells, each
    between double quotes, but the title cell holds the title as it is:
    the quotes inside it are not doubled, and the text the test looks for
    is not in the output. *)
Theorem generateCSV_keeps_inner_quotes :
  let q := fun s => JS.dquote +:+ s +:+ JS.dquote in
  generateCSV [Samples.quoted_result]
  = JS.join ","
      (map q ["URL"; "Title"; "Title Length"; "Description"; "Description Length";
              "H1 Count"; "Images Total"; "Images Without Alt"; "Score"; "Issues";
              "Warnings"])
    +:+ newline
    +:+ JS.join ","
          (map q ["https://example.com"; Samples.quoted_title; "18"; "Description";
                  "11"; "0"; "0"; "0"; "100"; "0"; "0"]) /\
  JS.includes (Spec.double_quotes Samples.quoted_title)
    (generateCSV [Samples.quoted_result]) = false /\
  JS.includes Samples.quoted_title (generateCSV [Samples.quoted_result]) = true.
Proof. vm_compute. auto. Qed.

End MetaProps.

(* ===================================================================== *)
(** ** Properties of both passes: failures and repeated calls *)
(* ===================================================================== *)

Module PipelineProps.

Import Json StructuredDataParser Views.

(** *** Computations that do not look at the timestamp *)

Lemma blindM_ret {A : Type} (a : A) : blindM (ret a).
Proof. intros t r. reflexivity. Qed.

Lemma blindM_throw {A : Type} (e : string) : blindM (@throw Results A e).
Proof. intros t r. reflexivity. Qed.

Lemma blindM_bind {A B : Type} (c : M Results A) (k : A -> M Results B) :
  blindM c -> (forall a, blindM (k a)) -> blindM (bind c k).
Proof.
  intros Hc Hk t r. unfold bind. rewrite Hc.
  destruct (c r) as [[a|e] r']; cbn [fst snd]; [apply Hk | reflexivity].
Qed.

Lemma blindM_modify (f : Results -> Results) :
  (forall t r, f (parser_at t r) = parser_at t (f r)) -> blindM (modify f).
Proof. intros H t r. unfold modify. cbn [fst snd]. now rewrite H. Qed.

Lemma blindM_gets {A : Type} (f : Results -> A) :
  (forall t r, f (parser_at t r) = f r) -> blindM (gets f).
Proof. intros H t r. unfold gets. cbn [fst snd]. now rewrite H. Qed.

Lemma blindM_try_catch {A : Type} (body : M Results A) (handler : string -> M Results A) :
  blindM body -> (forall e, blindM (handler e)) -> blindM (try_catch body handler).
Proof.
  intros Hb Hh t r. unfold try_catch. rewrite Hb.
  destruct (body r) as [[a|e] r']; cbn [fst snd]; [reflexivity | apply Hh].
Qed.

Lemma blindM_when (b : bool) (c : M Results unit) : blindM c -> blindM (when b c).
Proof. intros H. unfold when. destruct b; [exact H | apply blindM_ret]. Qed.

Lemma blindM_forEach {A : Type} (f : A -> M Results unit) (l : list A) :
  (forall x, blindM (f x)) -> blindM (forEach f l).
Proof.
  intros H. induction l as [|x l IH]; cbn [forEach].
  - apply blindM_ret.
  - apply blindM_bind; [apply H | intros _; exact IH].
Qed.

Lemma blindM_forEachIndex {A : Type} (f : A -> Z -> M Results unit) (i : Z) (l : list A) :
  (forall x j, blindM (f x j)) -> blindM (forEachIndex f i l).
Proof.
  intros H. revert i. induction l as [|x l IH]; intros i; cbn [forEachIndex].
  - apply blindM_ret.
  - apply blindM_bind; [apply H | intros _; apply IH].
Qed.

Lemma blindM_some {A : Type} (f : A -> M Results bool) (l : list A) :
  (forall x, blindM (f x)) -> blindM (some f l).
Proof.
  intros H. induction l as [|x l IH]; cbn [some].
  - apply blindM_ret.
  - apply blindM_bind; [apply H | intros [|]; [apply blindM_ret | exact IH]].
Qed.

(** A computation that behaves as [ret a] is blind. *)
Lemma blindM_const {A : Type} (c : M Results A) (a : A) :
  (forall r, c r = (inl a, r)) -> blindM c.
Proof. intros H t r. now rewrite !H. Qed.

Create HintDb blind.

#[local] Hint Resolve blindM_ret blindM_throw : blind.

(** One step of the proof that a method is blind: follow its syntax. *)
Ltac blind_step :=
  lazymatch goal with
  | |- blindM (ret _) => apply blindM_ret
  | |- blindM (throw _) => apply blindM_throw
  | |- blindM (bind _ _) => apply blindM_bind; [|intros ?]
  | |- blindM (when _ _) => apply blindM_when
  | |- blindM (forEach _ _) => apply blindM_forEach; intros ?
  | |- blindM (forEachIndex _ _ _) => apply blindM_forEachIndex; intros ? ?
  | |- blindM (some _ _) => apply blindM_some; intros ?
  | |- blindM (try_catch _ _) => apply blindM_try_catch; [|intros ?]
  | |- blindM (modify _) => apply blindM_modify; intros; reflexivity
  | |- blindM (gets _) => apply blindM_gets; intros; reflexivity
  | |- blindM (match ?x with _ => _ end) => destruct x
  | |- blindM _ => solve [auto with blind]
  end.

Ltac blind := cbv zeta; repeat blind_step.

Lemma push_error_blind msg : blindM (push_error msg).
Proof. unfold push_error. blind. Qed.

Lemma push_warning_blind msg : blindM (push_warning msg).
Proof. unfold push_warning. blind. Qed.

Lemma push_recommendation_blind msg : blindM (push_recommendation msg).
Proof. unfold push_recommendation. blind. Qed.

Lemma incr_critical_blind : blindM incr_critical.
Proof. unfold incr_critical. blind. Qed.

Lemma incr_warnings_blind : blindM incr_warnings.
Proof. unfold incr_warnings. blind. Qed.

#[local] Hint Resolve push_error_blind push_warning_blind push_recommendation_blind
  incr_critical_blind incr_warnings_blind : blind.

Lemma processSchema_blind schema format : blindM (_processSchema schema format).
Proof. unfold _processSchema, _validateSchemaType. blind. Qed.

Lemma read_blind v k : blindM (read v k).
Proof. unfold read. blind. Qed.

Lemma toLowerCase_of_blind t : blindM (toLowerCase_of t).
Proof. unfold toLowerCase_of. blind. Qed.

#[local] Hint Resolve processSchema_blind read_blind toLowerCase_of_blind : blind.

Lemma checkRequiredProperties_blind schema required :
  blindM (_checkRequiredProperties schema required).
Proof. unfold _checkRequiredProperties. blind. Qed.

Lemma checkRecommendedProperties_blind schema recommended :
  blindM (_checkRecommendedProperties schema recommended).
Proof. unfold _checkRecommendedProperties. blind. Qed.

#[local] Hint Resolve checkRequiredProperties_blind checkRecommendedProperties_blind
  : blind.

Section WithPlatform.

Variable JSON_parse : string -> value + string.
Variable Date_accepts : value -> bool.

Lemma parseJsonLd_blind doc : blindM (_parseJsonLd JSON_parse doc).
Proof. unfold _parseJsonLd. blind. Qed.

Lemma parseMicrodata_blind doc : blindM (_parseMicrodata doc).
Proof.
  unfold _parseMicrodata. blind.
  apply (blindM_const _ _ (ParserProps.extractMicrodataProperties_identity _ _)).
Qed.

Lemma parseRDFa_blind doc : blindM (_parseRDFa doc).
Proof. unfold _parseRDFa. blind. Qed.

Lemma validateOrganization_blind schema : blindM (_validateOrganization schema).
Proof. unfold _validateOrganization. blind. Qed.

Lemma validateProduct_blind schema : blindM (_validateProduct schema).
Proof. unfold _validateProduct. blind. Qed.

Lemma validateArticle_blind schema : blindM (_validateArticle Date_accepts schema).
Proof. unfold _validateArticle. blind. Qed.

Lemma validateBreadcrumbList_blind schema : blindM (_validateBreadcrumbList schema).
Proof. unfold _validateBreadcrumbList. blind. Qed.

Lemma validateFAQPage_blind schema : blindM (_validateFAQPage schema).
Proof. unfold _validateFAQPage. blind. Qed.

Lemma validateRecipe_blind schema : blindM (_validateRecipe schema).
Proof. unfold _validateRecipe. blind. Qed.

Lemma validateEvent_blind schema : blindM (_validateEvent Date_accepts schema).
Proof. unfold _validateEvent. blind. Qed.

Lemma validatePerson_blind schema : blindM (_validatePerson schema).
Proof. unfold _validatePerson. blind. Qed.

Lemma validateWebSite_blind schema : blindM (_validateWebSite schema).
Proof. unfold _validateWebSite. blind. Qed.

Lemma validateSearchAction_blind schema : blindM (_validateSearchAction schema).
Proof. unfold _validateSearchAction. blind. Qed.

Lemma typeValidators_blind key validator schema :
  typeValidators Date_accepts key = Some validator -> blindM (validator schema).
Proof.
  unfold typeValidators. intros H.
  repeat match type of H with
         | (if ?b then _ else _) = _ => destruct b
         end;
    try discriminate; injection H as <-; cbv beta;
    auto using blindM_ret, blindM_throw, validateOrganization_blind, validateProduct_blind,
      validateArticle_blind, validateBreadcrumbList_blind, validateFAQPage_blind,
      validateRecipe_blind, validateEvent_blind, validatePerson_blind,
      validateWebSite_blind, validateSearchAction_blind.
Qed.

Lemma validateSchemas_blind : blindM (_validateSchemas Date_accepts).
Proof.
  unfold _validateSchemas.
  apply blindM_bind; [apply blindM_gets; intros; reflexivity|].
  intros all. apply blindM_forEach. intros schema.
  destruct (typeValidators Date_accepts (ToString (type schema))) eqn:E.
  - apply (typeValidators_blind _ _ _ E).
  - apply blindM_ret.
Qed.

Lemma analyzeAndRecommend_blind url : blindM (_analyzeAndRecommend url).
Proof. unfold _analyzeAndRecommend. blind. Qed.

Lemma calculateScore_blind : blindM _calculateScore.
Proof. unfold _calculateScore. blind. Qed.

Lemma parse_try_blind url response :
  blindM (parse_try JSON_parse Date_accepts url response).
Proof.
  unfold parse_try. blind;
    auto using parseJsonLd_blind, parseMicrodata_blind, parseRDFa_blind,
      validateSchemas_blind, analyzeAndRecommend_blind, calculateScore_blind.
Qed.

End WithPlatform.

(** *** A failed fetch *)

(** What the two handlers do, for every message.  When the fetch fails,
    [parse] and [extract] both resolve (nothing escapes) with a result
    whose status is [error] and whose error field holds the message of the
    failure; the handler records the failure as an error string,
    respectively an issue.  Neither handler touches the score, which is
    still the 100 of the object literal. *)
Theorem fetch_failure_result JSON_parse Date_accepts URL_hostname now url message :
  (exists r,
     parse JSON_parse Date_accepts now url (inr message) = inl r /\
     status r = "error" /\ error r = Some message /\
     validation_errors r = ["Failed to fetch URL: " +:+ message] /\
     schemas r = [] /\ score r = 100) /\
  (exists r,
     MetaExtractor.extract URL_hostname now url (inr message) = inl r /\
     MetaExtractor.status r = "error" /\ MetaExtractor.error r = Some message /\
     MetaExtractor.issues r = ["Failed to analyze URL: " +:+ message] /\
     MetaExtractor.score r = 100).
Proof. split; eexists; repeat split. Qed.

(** C2.  At a rejected request both results have the status [error] and
    the score 100: the score that tells of the failure, 0 or none, is not
    what the code returns.  The handlers of [parse] and [extract] set the
    status, the error field and one message and leave the score of the
    object literal, where the sibling [PageSpeedAnalyzer.analyze] and
    [SEOAuditToolkit.audit] start from 0 and so fail with 0. *)
Lemma fetch_failure_score_not_zero :
  (exists r,
     parse Samples.JSON_parse Samples.Date_accepts "" "https://example.com"
       (inr "Network error") = inl r /\
     status r = "error" /\ score r = 100 /\ score r <> 0) /\
  (exists r,
     MetaExtractor.extract Samples.URL_hostname "" "https://example.com"
       (inr "Network error") = inl r /\
     MetaExtractor.status r = "error" /\
     MetaExtractor.score r = 100 /\ MetaExtractor.score r <> 0).
Proof. split; eexists; repeat split; cbn; discriminate. Qed.

(** *** Two calls on the same page *)

(** C9, as the code has it.  Two calls on the same URL and the same
    response, made when the clock reads [now1] and [now2], resolve or
    fail alike, and their results agree in every field but the timestamp,
    which is the reading of the clock. *)
Theorem results_equal_up_to_timestamp JSON_parse Date_accepts URL_hostname
  now1 now2 url response :
  parse JSON_parse Date_accepts now1 url response
  = match parse JSON_parse Date_accepts now2 url response with
    | inl r => inl (parser_at now1 r)
    | inr e => inr e
    end /\
  MetaExtractor.extract URL_hostname now1 url response
  = match MetaExtractor.extract URL_hostname now2 url response with
    | inl r => inl (meta_at now1 r)
    | inr e => inr e
    end.
Proof.
  split.
  - unfold parse, parse_body, bind, get_state.
    change (initial url now1) with (parser_at now1 (initial url now2)).
    rewrite (parse_try_blind JSON_parse Date_accepts url response).
    destruct (parse_try JSON_parse Date_accepts url response (initial url now2))
      as [[[]|e] r']; reflexivity.
  - destruct response as [doc|message].
    + destruct (URL_hostname url None) as [host|] eqn:E.
      * rewrite !(MetaProps.extract_completed URL_hostname _ url doc host E).
        change (MetaExtractor.initial url now1)
          with (meta_at now1 (MetaExtractor.initial url now2)).
        now rewrite (MetaProps.passes_blind URL_hostname doc url host).
      * rewrite !(MetaProps.extract_invalid_url URL_hostname _ url doc E). reflexivity.
    + reflexivity.
Qed.

(** C9 as stated fails: the same page read at two instants gives two
    results that differ, in their timestamp. *)
Lemma repeated_call_differs :
  parse Samples.JSON_parse Samples.Date_accepts "2024-01-15T10:30:00.000Z"
    "https://example.com/" (inl Samples.two_blocks)
  <> parse Samples.JSON_parse Samples.Date_accepts "2024-01-15T10:30:01.000Z"
       "https://example.com/" (inl Samples.two_blocks) /\
  MetaExtractor.extract Samples.URL_hostname "2024-01-15T10:30:00.000Z"
    "https://example.com" (inl Samples.test_page)
  <> MetaExtractor.extract Samples.URL_hostname "2024-01-15T10:30:01.000Z"
       "https://example.com" (inl Samples.test_page).
Proof.
  split; intros H.
  - apply (f_equal (fun x => match x with inl r => timestamp r | inr e => e end)) in H.
    vm_compute in H. discriminate H.
  - apply (f_equal (fun x => match x with
                             | inl r => MetaExtractor.timestamp r
                             | inr e => e
                             end)) in H.
    vm_compute in H. discriminate H.
Qed.

End PipelineProps.

(* ===================================================================== *)
(** ** Properties of the validators *)
(* ===================================================================== *)

Module ValidatorProps.

Import Json StructuredDataParser Reports ParserProps.

(** *** Logging *)

Lemma warned_nil (r : Results) : warned [] r = r.
Proof.
  destruct r. unfold warned, set_issues_warnings, set_validation_warnings.
  cbn. rewrite app_nil_r, Z.add_0_r. reflexivity.
Qed.

Lemma warned_app (l1 l2 : list string) (r : Results) :
  warned l2 (warned l1 r) = warned (l1 ++ l2) r.
Proof.
  unfold warned, set_issues_warnings, set_validation_warnings. cbn.
  rewrite app_assoc, length_app, Nat2Z.inj_add, Z.add_assoc. reflexivity.
Qed.

Lemma reported_warned (es ws : list string) (r : Results) :
  Views.reported es (warned ws r) = warned ws (Views.reported es r).
Proof. reflexivity. Qed.

(** Two logs in a row are one log. *)
Lemma logged_twice (es es' ws ws' : list string) (r : Results) :
  warned ws' (Views.reported es' (warned ws (Views.reported es r)))
  = warned (ws ++ ws') (Views.reported (es ++ es') r).
Proof. now rewrite reported_warned, warned_app, reported_app. Qed.

Lemma logged_nothing (r : Results) : warned [] (Views.reported [] r) = r.
Proof. now rewrite warned_nil, reported_nil. Qed.

Lemma logs_ret {A : Type} (a : A) : logs (@ret Results A a).
Proof. exists (inl a), [], []. intros r. now rewrite logged_nothing. Qed.

Lemma logs_throw {A : Type} (e : string) : logs (@throw Results A e).
Proof. exists (inr e), [], []. intros r. now rewrite logged_nothing. Qed.

Lemma logs_bind {A B : Type} (c : M Results A) (k : A -> M Results B) :
  logs c -> (forall a, logs (k a)) -> logs (bind c k).
Proof.
  intros (out & es & ws & Hc) Hk. destruct out as [a|e].
  - destruct (Hk a) as (out' & es' & ws' & Hk').
    exists out', (es ++ es'), (ws ++ ws'). intros r.
    unfold bind. rewrite Hc, Hk'. now rewrite logged_twice.
  - exists (inr e), es, ws. intros r. unfold bind. now rewrite Hc.
Qed.

Lemma logs_when (b : bool) (c : M Results unit) : logs c -> logs (when b c).
Proof. intros H. destruct b; [exact H | apply logs_ret]. Qed.

Lemma logs_forEach {A : Type} (f : A -> M Results unit) (l : list A) :
  (forall x, logs (f x)) -> logs (forEach f l).
Proof.
  intros H. induction l as [|x l IH]; cbn [forEach].
  - apply logs_ret.
  - apply logs_bind; [apply H | intros _; exact IH].
Qed.

Lemma logs_forEachIndex {A : Type} (f : A -> Z -> M Results unit) (i : Z) (l : list A) :
  (forall x j, logs (f x j)) -> logs (forEachIndex f i l).
Proof.
  intros H. revert i. induction l as [|x l IH]; intros i; cbn [forEachIndex].
  - apply logs_ret.
  - apply logs_bind; [apply H | intros _; apply IH].
Qed.

(** An error and its critical issue; a warning and its count. *)
Lemma report_one (msg : string) (r : Results) :
  (push_error msg ;; incr_critical) r = (inl tt, Views.reported [msg] r).
Proof. reflexivity. Qed.

Lemma warn_one (msg : string) (r : Results) :
  (push_warning msg ;; incr_warnings) r = (inl tt, warned [msg] r).
Proof. reflexivity. Qed.

Lemma logs_report (msg : string) : logs (push_error msg ;; incr_critical).
Proof.
  exists (inl tt), [msg], []. intros r. now rewrite report_one, warned_nil.
Qed.

Lemma logs_warn (msg : string) : logs (push_warning msg ;; incr_warnings).
Proof.
  exists (inl tt), [], [msg]. intros r. now rewrite warn_one, reported_nil.
Qed.

Lemma logs_read (v : value) (k : string) : logs (read v k).
Proof. unfold read. destruct (member v k); [apply logs_ret | apply logs_throw]. Qed.

(** One step of the proof that a validator only logs: follow its syntax. *)
Ltac log_step :=
  lazymatch goal with
  | |- logs (ret _) => apply logs_ret
  | |- logs (throw _) => apply logs_throw
  | |- logs (bind (push_error _) (fun _ => incr_critical)) => apply logs_report
  | |- logs (bind (push_warning _) (fun _ => incr_warnings)) => apply logs_warn
  | |- logs (read _ _) => apply logs_read
  | |- logs (bind _ _) => apply logs_bind; [|intros ?]
  | |- logs (when _ _) => apply logs_when
  | |- logs (forEach _ _) => apply logs_forEach; intros ?
  | |- logs (forEachIndex _ _ _) => apply logs_forEachIndex; intros ? ?
  | |- logs (match ?x with _ => _ end) => destruct x
  | |- logs _ =>
      progress unfold _checkRequiredProperties, _checkRecommendedProperties
  end.

Ltac log := cbv zeta; repeat log_step.


(** *** Running a method step by step *)

Lemma bind_inl {A B : Type} (c : M Results A) (k : A -> M Results B)
  (r r' : Results) (a : A) :
  c r = (inl a, r') -> bind c k r = k a r'.
Proof. intros H. unfold bind. now rewrite H. Qed.

Lemma bind_inr {A B : Type} (c : M Results A) (k : A -> M Results B)
  (r r' : Results) (e : string) :
  c r = (inr e, r') -> bind c k r = (inr e, r').
Proof. intros H. unfold bind. now rewrite H. Qed.

Lemma when_report (b : bool) (msg : string) (r : Results) :
  when b (push_error msg ;; incr_critical) r
  = (inl tt, Views.reported (if b then [msg] else []) r).
Proof. destruct b; cbn [when]; [apply report_one | now rewrite reported_nil]. Qed.

Lemma when_warn (b : bool) (msg : string) (r : Results) :
  when b (push_warning msg ;; incr_warnings) r
  = (inl tt, warned (if b then [msg] else []) r).
Proof. destruct b; cbn [when]; [apply warn_one | now rewrite warned_nil]. Qed.

Lemma read_prop (item : value) (k : string) (r : Results) :
  is_null item = false -> read item k r = (inl (prop_of item k), r).
Proof. destruct item; intros H; try discriminate; reflexivity. Qed.

(** *** Required and recommended properties *)

Lemma checkRequiredProperties_effect schema required (r : Results) :
  _checkRequiredProperties schema required r
  = (inl tt, Views.reported (required_report schema required) r).
Proof.
  unfold _checkRequiredProperties, required_report, missing. revert r.
  induction required as [|prop required IH]; intros r.
  - cbn. now rewrite reported_nil.
  - cbn [forEach filter].
    erewrite bind_inl by apply when_report.
    rewrite IH, reported_app.
    destruct (has schema prop); reflexivity.
Qed.

Lemma checkRecommendedProperties_effect schema recommended (r : Results) :
  _checkRecommendedProperties schema recommended r
  = (inl tt, warned (recommended_report schema recommended) r).
Proof.
  unfold _checkRecommendedProperties, recommended_report, missing. cbv zeta.
  rewrite when_warn.
  destruct (filter (fun prop => negb (has schema prop)) recommended) as [|p l].
  - reflexivity.
  - replace (0 <? Z.of_nat (List.length (p :: l))) with true; [reflexivity|].
    symmetry. apply Z.ltb_lt. cbn [List.length]. lia.
Qed.


(** *** Breadcrumb lists *)

Lemma breadcrumb_item (item : value) (index : Z) (r : Results) :
  is_null item = false ->
  (position <- read item "position" ;;
   when (negb (truthy_opt position))
     (push_error ("BreadcrumbList item " +:+ JS.numberToString index
                  +:+ " missing position") ;;
      incr_critical) ;;
   name <- read item "name" ;;
   when (negb (truthy_opt name))
     (push_error ("BreadcrumbList item " +:+ JS.numberToString index
                  +:+ " missing name") ;;
      incr_critical)) r
  = (inl tt, Views.reported (breadcrumb_item_report index item) r).
Proof.
  intros H.
  erewrite bind_inl by (apply read_prop, H).
  erewrite bind_inl by apply when_report.
  erewrite bind_inl by (apply read_prop, H).
  rewrite when_report, reported_app. unfold breadcrumb_item_report.
  destruct (truthy_opt (prop_of item "position")),
    (truthy_opt (prop_of item "name")); reflexivity.
Qed.

Lemma breadcrumb_items (items : list value) (i : Z) (r : Results) :
  forallb (fun item => negb (is_null item)) items = true ->
  forEachIndex (fun item index =>
      position <- read item "position" ;;
      when (negb (truthy_opt position))
        (push_error ("BreadcrumbList item " +:+ JS.numberToString index
                     +:+ " missing position") ;;
         incr_critical) ;;
      name <- read item "name" ;;
      when (negb (truthy_opt name))
        (push_error ("BreadcrumbList item " +:+ JS.numberToString index
                     +:+ " missing name") ;;
         incr_critical))
    i items r
  = (inl tt, Views.reported (indexed_reports breadcrumb_item_report i items) r).
Proof.
  revert i r. induction items as [|item items IH]; intros i r H.
  - cbn. now rewrite reported_nil.
  - cbn [forallb] in H. apply andb_prop in H. destruct H as (Hn & H).
    apply negb_true_iff in Hn.
    cbn [forEachIndex indexed_reports].
    erewrite bind_inl by (apply breadcrumb_item, Hn).
    rewrite (IH _ _ H), reported_app. reflexivity.
Qed.

(** X2. For a breadcrumb list without null item, [_validateBreadcrumbList]
    returns normally and reports exactly: for each item, in order and with
    its index from 0, an error when the position is missing and then an
    error when the name is missing; or the one error for a list whose
    [itemListElement] is missing or falsy.  Each error counts as critical
    and no warning is added. *)
Theorem validateBreadcrumbList_reports schema (results : Results) :
  forallb (fun item => negb (is_null item)) (listed "itemListElement" schema) = true ->
  _validateBreadcrumbList schema results
  = (inl tt, Views.reported (breadcrumb_report schema) results).
Proof.
  intros H. unfold _validateBreadcrumbList, breadcrumb_report, listed in *.
  destruct (lookup "itemListElement" (properties schema)) as [v|]; cbn [truthy_opt].
  - destruct (truthy v).
    + apply breadcrumb_items, H.
    + apply report_one.
  - apply report_one.
Qed.

Lemma validateBreadcrumbList_reports_witness :
  forallb (fun item => negb (is_null item)) (listed "itemListElement" Cases.trail) = true /\
  _validateBreadcrumbList Cases.trail (Cases.holding [Cases.trail])
  = (inl tt,
     Views.reported ["BreadcrumbList item 1 missing name"] (Cases.holding [Cases.trail])).
Proof.
  split; [reflexivity|].
  exact (validateBreadcrumbList_reports Cases.trail (Cases.holding [Cases.trail]) eq_refl).
Defined.

(** *** Products *)

Lemma product_offer (offer : value) (r : Results) :
  is_null offer = false ->
  (price <- read offer "price" ;;
   noPrice <- (if negb (truthy_opt price)
               then priceRange <- read offer "priceRange" ;;
                    ret (negb (truthy_opt priceRange))
               else ret false) ;;
   when noPrice
     (push_error "Product offer missing price information" ;;
      incr_critical) ;;
   priceCurrency <- read offer "priceCurrency" ;;
   when (negb (truthy_opt priceCurrency))
     (push_error "Product offer missing priceCurrency" ;;
      incr_critical)) r
  = (inl tt, Views.reported (offer_report offer) r).
Proof.
  intros H.
  erewrite bind_inl by (apply read_prop, H).
  assert (E : (if negb (truthy_opt (prop_of offer "price"))
               then priceRange <- read offer "priceRange" ;;
                    ret (negb (truthy_opt priceRange))
               else ret false) r
              = (inl (negb (truthy_opt (prop_of offer "price"))
                      && negb (truthy_opt (prop_of offer "priceRange"))), r)).
  { destruct (negb (truthy_opt (prop_of offer "price"))); [|reflexivity].
    erewrite bind_inl by (apply read_prop, H). reflexivity. }
  erewrite bind_inl by exact E.
  erewrite bind_inl by apply when_report.
  erewrite bind_inl by (apply read_prop, H).
  rewrite when_report, reported_app. unfold offer_report.
  destruct (truthy_opt (prop_of offer "priceCurrency")); reflexivity.
Qed.

Lemma product_offers (offers : list value) (r : Results) :
  forallb (fun offer => negb (is_null offer)) offers = true ->
  forEach (fun offer =>
      price <- read offer "price" ;;
      noPrice <- (if negb (truthy_opt price)
                  then priceRange <- read offer "priceRange" ;;
                       ret (negb (truthy_opt priceRange))
                  else ret false) ;;
      when noPrice
        (push_error "Product offer missing price information" ;;
         incr_critical) ;;
      priceCurrency <- read offer "priceCurrency" ;;
      when (negb (truthy_opt priceCurrency))
        (push_error "Product offer missing priceCurrency" ;;
         incr_critical))
    offers r
  = (inl tt, Views.reported (flat_map offer_report offers) r).
Proof.
  revert r. induction offers as [|offer offers IH]; intros r H.
  - cbn. now rewrite reported_nil.
  - cbn [forallb] in H. apply andb_prop in H. destruct H as (Hn & H).
    apply negb_true_iff in Hn.
    cbn [forEach flat_map].
    erewrite bind_inl by (apply product_offer, Hn).
    rewrite (IH _ H), reported_app. reflexivity.
Qed.

(** X3. For a product whose offers hold no null, [_validateProduct]
    returns normally and reports exactly: the errors for the missing
    required names, then for each offer an error when neither price nor
    priceRange is truthy (so a price of 0 counts as missing) and an error
    when priceCurrency is not; and the warning for the missing recommended
    names, then the warning for a product with neither rating nor
    review. *)
Theorem validateProduct_reports schema (results : Results) :
  forallb (fun offer => negb (is_null offer)) (listed "offers" schema) = true ->
  _validateProduct schema results
  = (inl tt,
     warned
       (recommended_report schema
          ["description"; "sku"; "offers"; "aggregateRating"; "brand"; "review"]
        ++ (if negb (has schema "aggregateRating") && negb (has schema "review")
            then ["Product missing ratings/reviews - needed for rich results"]
            else []))
       (Views.reported
          (required_report schema ["name"; "image"]
           ++ flat_map offer_report (listed "offers" schema))
          results)).
Proof.
  intros H. unfold _validateProduct. cbv zeta.
  erewrite bind_inl by apply checkRequiredProperties_effect.
  erewrite bind_inl by apply checkRecommendedProperties_effect.
  assert (E : forall r,
             match lookup "offers" (properties schema) with
             | Some v =>
                 when (truthy v)
                   (forEach (fun offer =>
                      price <- read offer "price" ;;
                      noPrice <- (if negb (truthy_opt price)
                                  then priceRange <- read offer "priceRange" ;;
                                       ret (negb (truthy_opt priceRange))
                                  else ret false) ;;
                      when noPrice
                        (push_error "Product offer missing price information" ;;
                         incr_critical) ;;
                      priceCurrency <- read offer "priceCurrency" ;;
                      when (negb (truthy_opt priceCurrency))
                        (push_error "Product offer missing priceCurrency" ;;
                         incr_critical))
                      (toArray v))
             | None => ret tt
             end r
             = (inl tt, Views.reported (flat_map offer_report (listed "offers" schema)) r)).
  { intros r. unfold listed in *.
    destruct (lookup "offers" (properties schema)) as [v|].
    - destruct (truthy v); cbn [when].
      + apply product_offers, H.
      + cbn. now rewrite reported_nil.
    - cbn. now rewrite reported_nil. }
  erewrite bind_inl by apply E.
  rewrite when_warn, reported_warned, reported_app, warned_app. reflexivity.
Qed.

Lemma validateProduct_reports_witness :
  forallb (fun offer => negb (is_null offer)) (listed "offers" Cases.free_product) = true /\
  _validateProduct Cases.free_product (Cases.holding [Cases.free_product])
  = (inl tt,
     warned
       ["Product missing recommended properties: description, sku, aggregateRating, brand, review";
        "Product missing ratings/reviews - needed for rich results"]
       (Views.reported ["Product offer missing price information"]
          (Cases.holding [Cases.free_product]))).
Proof.
  split; [reflexivity|].
  exact (validateProduct_reports Cases.free_product
           (Cases.holding [Cases.free_product]) eq_refl).
Defined.

(** *** Types without a validator *)

Lemma forEach_quiet {A : Type} (f : A -> M Results unit) (l : list A) (r : Results) :
  (forall x, In x l -> f x r = (inl tt, r)) -> forEach f l r = (inl tt, r).
Proof.
  induction l as [|x l IH]; intros H; [reflexivity|].
  cbn [forEach]. erewrite bind_inl by (apply H; now left).
  apply IH. intros y Hy. apply H. now right.
Qed.

Section WithDate.

Variable Date_accepts : value -> bool.

Lemma typeValidators_log key validator schema :
  typeValidators Date_accepts key = Some validator -> logs (validator schema).
Proof.
  unfold typeValidators. intros H.
  repeat match type of H with
         | (if ?b then _ else _) = _ => destruct b
         end;
    try discriminate; injection H as <-; cbv beta;
    unfold _validateOrganization, _validateProduct, _validateArticle,
      _validateBreadcrumbList, _validateFAQPage, _validateRecipe, _validateEvent,
      _validatePerson, _validateWebSite, _validateSearchAction;
    log.
Qed.

(** X4. Whatever the records, [_validateSchemas] only appends to the two
    message lists, and it raises the critical counter by the number of
    errors it appends and the warning counter by the number of warnings it
    appends, whether it returns or raises; the records, the
    recommendations, the passed counter, the status and the error field
    stay as they were. *)
Theorem validateSchemas_counts_what_it_reports (results : Results) :
  exists (errors warnings : list string),
    let r' := snd (_validateSchemas Date_accepts results) in
    validation_errors r' = validation_errors results ++ errors /\
    issues_critical r' = issues_critical results + Z.of_nat (List.length errors) /\
    validation_warnings r' = validation_warnings results ++ warnings /\
    issues_warnings r' = issues_warnings results + Z.of_nat (List.length warnings) /\
    Views.records_of r' = Views.records_of results /\
    recommendations r' = recommendations results /\
    issues_passed r' = issues_passed results /\
    status r' = status results /\ error r' = error results.
Proof.
  assert (L : logs (forEach (fun schema =>
                      match typeValidators Date_accepts (ToString (type schema)) with
                      | Some validator => validator schema
                      | None => ret tt
                      end) (schemas results))).
  { apply logs_forEach. intros schema.
    destruct (typeValidators Date_accepts (ToString (type schema))) eqn:E.
    - apply (typeValidators_log _ _ _ E).
    - apply logs_ret. }
  destruct L as (out & es & ws & L).
  exists es, ws. unfold _validateSchemas, bind, gets. rewrite L. cbv zeta.
  cbn [snd]. repeat split.
Qed.


(** X5. A record of type LocalBusiness is never validated: the table names
    [_validateLocalBusiness] for it, which the class does not declare.  So
    on a result that holds only such records, whatever their properties,
    [_validateSchemas] returns normally and changes nothing. *)
Theorem validateSchemas_skips_LocalBusiness (results : Results) :
  forallb (is_type "LocalBusiness") (schemas results) = true ->
  _validateSchemas Date_accepts results = (inl tt, results).
Proof.
  intros H. unfold _validateSchemas.
  erewrite bind_inl by reflexivity.
  apply forEach_quiet. intros s Hs.
  rewrite forallb_forall in H. specialize (H s Hs). unfold is_type in H.
  destruct (type s) as [| | |t| |]; try discriminate H.
  apply String.eqb_eq in H. subst t. reflexivity.
Qed.

End WithDate.

Lemma validateSchemas_skips_LocalBusiness_witness :
  forallb (is_type "LocalBusiness") (schemas (Cases.holding [Cases.nameless_business]))
  = true /\
  _validateSchemas Samples.Date_accepts (Cases.holding [Cases.nameless_business])
  = (inl tt, Cases.holding [Cases.nameless_business]).
Proof.
  split; [reflexivity|].
  exact (validateSchemas_skips_LocalBusiness Samples.Date_accepts
           (Cases.holding [Cases.nameless_business]) eq_refl).
Defined.

End ValidatorProps.

(* ===================================================================== *)
(** ** Properties of the recommendations and of a whole parse *)
(* ===================================================================== *)

Module RecommendProps.

Import Json StructuredDataParser Reports ParserProps ValidatorProps.

Lemma advised_nil (r : Results) : advised [] r = r.
Proof.
  destruct r. unfold advised, set_recommendations. cbn.
  now rewrite app_nil_r.
Qed.

Lemma advised_app (l1 l2 : list string) (r : Results) :
  advised l2 (advised l1 r) = advised (l1 ++ l2) r.
Proof.
  unfold advised, set_recommendations. cbn. now rewrite app_assoc.
Qed.

Lemma when_advise (b : bool) (msg : string) (r : Results) :
  when b (push_recommendation msg) r
  = (inl tt, advised (if b then [msg] else []) r).
Proof. destruct b; cbn [when]; [reflexivity | now rewrite advised_nil]. Qed.

(** The test [schemaTypes.some(...)] on types that are all strings. *)
Lemma some_covers (rec : string) (types : list string) (r : Results) :
  some (fun t =>
      lower <- toLowerCase_of t ;;
      ret (JS.includes lower (JS.toLowerCase rec)))
    (map JString types) r
  = (inl (existsb (fun t => JS.includes (JS.toLowerCase t) (JS.toLowerCase rec)) types),
     r).
Proof.
  induction types as [|t types IH]; [reflexivity|].
  cbn [map some existsb].
  erewrite bind_inl by reflexivity.
  destruct (JS.includes (JS.toLowerCase t) (JS.toLowerCase rec)); cbn [orb].
  - reflexivity.
  - exact IH.
Qed.

Lemma recommend_loop (recs : list string) (types : list string) (r : Results) :
  forEach (fun rec =>
      hasSchema <- some (fun t =>
                     lower <- toLowerCase_of t ;;
                     ret (JS.includes lower (JS.toLowerCase rec)))
                   (map JString types) ;;
      when (negb hasSchema)
        (push_recommendation ("Consider adding " +:+ rec +:+ " schema")))
    recs r
  = (inl tt, advised (map consider (filter (uncovered types) recs)) r).
Proof.
  revert r. induction recs as [|rec recs IH]; intros r.
  - cbn. now rewrite advised_nil.
  - cbn [forEach filter].
    assert (E : (hasSchema <- some (fun t =>
                                 lower <- toLowerCase_of t ;;
                                 ret (JS.includes lower (JS.toLowerCase rec)))
                               (map JString types) ;;
                 when (negb hasSchema)
                   (push_recommendation ("Consider adding " +:+ rec +:+ " schema"))) r
                = (inl tt, advised (if uncovered types rec then [consider rec] else []) r)).
    { erewrite bind_inl by apply some_covers. apply when_advise. }
    erewrite bind_inl by exact E.
    rewrite IH, advised_app.
    destruct (uncovered types rec); reflexivity.
Qed.

Lemma filter_uncovered_nil (recs : list string) : filter (uncovered []) recs = recs.
Proof. induction recs as [|rec recs IH]; [reflexivity|]. cbn. now rewrite IH. Qed.

(** The case [parse] meets: no record at all. *)
Lemma analyzeAndRecommend_no_record (url : string) (results : Results) :
  schemas results = [] ->
  _analyzeAndRecommend url results
  = (inl tt,
     set_issues_passed (0 - issues_critical results - issues_warnings results)
       (advised
          (map consider (suggestions url [])
           ++ ["No structured data found - add appropriate schemas for rich results"]
           ++ (if Z.of_nat (List.length (formats_jsonLd results)) =? 0
               then ["Use JSON-LD format for structured data (Google's preferred format)"]
               else []))
          results)).
Proof.
  intros H. unfold _analyzeAndRecommend.
  erewrite bind_inl by reflexivity. rewrite H. cbv zeta.
  fold (suggestions url (map type [])).
  erewrite bind_inl by apply (recommend_loop _ []).
  erewrite bind_inl by reflexivity.
  erewrite bind_inl by apply when_advise.
  erewrite bind_inl by reflexivity.
  erewrite bind_inl by apply when_advise.
  rewrite !advised_app, filter_uncovered_nil. unfold modify.
  cbn [schemas formats_jsonLd advised set_recommendations]. rewrite H. reflexivity.
Qed.

(** X6. On a result whose records all have a string as type,
    [_analyzeAndRecommend] returns normally.  It recommends, in the order
    of the table, each suggestion for the page type that no type on the
    page is a substring of (case ignored), then the note on missing
    structured data when there is no record and the note on JSON-LD when
    there is no JSON-LD record; and it sets the passed counter to the
    number of records minus the critical and the warning counter. *)
Theorem analyzeAndRecommend_suggests (url : string) (types : list string)
  (results : Results) :
  map type (schemas results) = map JString types ->
  _analyzeAndRecommend url results
  = (inl tt,
     set_issues_passed
       (Z.of_nat (List.length (schemas results))
        - issues_critical results - issues_warnings results)
       (advised
          (map consider
             (filter (uncovered types) (suggestions url (map JString types)))
           ++ (if Z.of_nat (List.length (schemas results)) =? 0
               then ["No structured data found - add appropriate schemas for rich results"]
               else [])
           ++ (if Z.of_nat (List.length (formats_jsonLd results)) =? 0
               then ["Use JSON-LD format for structured data (Google's preferred format)"]
               else []))
          results)).
Proof.
  intros H. unfold _analyzeAndRecommend.
  erewrite bind_inl by reflexivity. rewrite H. cbv zeta.
  fold (suggestions url (map JString types)).
  erewrite bind_inl by apply recommend_loop.
  erewrite bind_inl by reflexivity.
  erewrite bind_inl by apply when_advise.
  erewrite bind_inl by reflexivity.
  erewrite bind_inl by apply when_advise.
  rewrite !advised_app. reflexivity.
Qed.

Lemma analyzeAndRecommend_suggests_witness :
  map type (schemas (Cases.holding [Cases.organization])) = map JString ["Organization"] /\
  _analyzeAndRecommend "https://example.com/" (Cases.holding [Cases.organization])
  = (inl tt,
     set_issues_passed 1
       (advised
          ["Consider adding WebSite with SearchAction schema";
           "Consider adding BreadcrumbList schema";
           "Use JSON-LD format for structured data (Google's preferred format)"]
          (Cases.holding [Cases.organization]))).
Proof.
  split; [reflexivity|].
  exact (analyzeAndRecommend_suggests "https://example.com/" ["Organization"]
           (Cases.holding [Cases.organization]) eq_refl).
Defined.

Lemma suggestions_nonempty (url : string) (schemaTypes : list value) :
  exists rec recs, suggestions url schemaTypes = rec :: recs.
Proof.
  unfold suggestions, recommendations_for.
  repeat match goal with
         | |- context [if ?b then _ else _] => destruct b
         end; eexists; eexists; reflexivity.
Qed.

(** X7. When the type of the first record is not a string (an array of
    types, say), [_analyzeAndRecommend] raises the TypeError of the call
    [type.toLowerCase()] at the first suggestion, and leaves the result as
    it was: no recommendation, and the passed counter not set. *)
Theorem analyzeAndRecommend_needs_string_types (url : string) (s : SchemaRecord)
  (rest : list SchemaRecord) (results : Results) :
  schemas results = s :: rest ->
  isString (type s) = false ->
  _analyzeAndRecommend url results
  = (inr (match type s with
          | JNull => "Cannot read properties of null (reading 'toLowerCase')"
          | _ => "type.toLowerCase is not a function"
          end),
     results).
Proof.
  intros H Hs. unfold _analyzeAndRecommend.
  erewrite bind_inl by reflexivity. rewrite H. cbv zeta.
  fold (suggestions url (map type (s :: rest))).
  destruct (suggestions_nonempty url (map type (s :: rest))) as (rec & recs & ->).
  cbn [forEach map some].
  apply bind_inr. apply bind_inr. apply bind_inr. apply bind_inr.
  destruct (type s); try discriminate Hs; reflexivity.
Qed.

Lemma analyzeAndRecommend_needs_string_types_witness :
  schemas (Cases.holding [Cases.two_types]) = [Cases.two_types] /\
  isString (type Cases.two_types) = false /\
  _analyzeAndRecommend "https://example.com/" (Cases.holding [Cases.two_types])
  = (inr "type.toLowerCase is not a function", Cases.holding [Cases.two_types]).
Proof.
  split; [reflexivity|]. split; [reflexivity|].
  exact (analyzeAndRecommend_needs_string_types "https://example.com/" Cases.two_types []
           (Cases.holding [Cases.two_types]) eq_refl eq_refl).
Defined.

(** *** A whole parse *)


Section WithPlatform.

Variable JSON_parse : string -> value + string.
Variable Date_accepts : value -> bool.

(** The [try] block of [parse] on a page without typed Microdata or RDFa
    element, step by step. *)
Lemma parse_try_untyped (now url : string) (doc : Dom.document) :
  existsb (Views.typed "itemtype") (Dom.select (Dom.has_attr "itemscope") doc) = false ->
  existsb (Views.typed "typeof") (Dom.select (Dom.has_attr "typeof") doc) = false ->
  parse JSON_parse Date_accepts now url (inl doc)
  = inl (snd (_calculateScore
           (set_issues_passed
              (0 - Z.of_nat (List.length
                     (flat_map (Views.block_report JSON_parse)
                        (Dom.select is_jsonld_script doc))) - 0)
              (advised
                 (map consider (suggestions url [])
                  ++ ["No structured data found - add appropriate schemas for rich results"]
                  ++ ["Use JSON-LD format for structured data (Google's preferred format)"])
                 (Views.reported
                    (flat_map (Views.block_report JSON_parse)
                       (Dom.select is_jsonld_script doc))
                    (initial url now)))))).
Proof.
  intros Hm Hr.
  assert (E : parse_try JSON_parse Date_accepts url (inl doc) (initial url now)
              = (inl tt,
                 snd (_calculateScore
                   (set_issues_passed
                      (0 - Z.of_nat (List.length
                             (flat_map (Views.block_report JSON_parse)
                                (Dom.select is_jsonld_script doc))) - 0)
                      (advised
                         (map consider (suggestions url [])
                          ++ ["No structured data found - add appropriate schemas for rich results"]
                          ++ ["Use JSON-LD format for structured data (Google's preferred format)"])
                         (Views.reported
                            (flat_map (Views.block_report JSON_parse)
                               (Dom.select is_jsonld_script doc))
                            (initial url now))))))).
  { unfold parse_try, try_catch.
    erewrite bind_inl by apply parseJsonLd_effect.
    erewrite bind_inl by (rewrite parseMicrodata_effect, Hm; reflexivity).
    erewrite bind_inl by (rewrite parseRDFa_effect, Hr; reflexivity).
    erewrite bind_inl by reflexivity.
    erewrite bind_inl by (apply analyzeAndRecommend_no_record; reflexivity).
    reflexivity. }
  unfold parse, parse_body. erewrite bind_inl by exact E. reflexivity.
Qed.

(** X8. On a page without typed Microdata item and without typed RDFa
    element, [parse] resolves with status completed and no error field.
    Its errors are the reports of the JSON-LD blocks, each counted as
    critical; it has no warning and no record; the passed counter is minus
    the number of errors; the recommendations are every suggestion for the
    page type of the URL, then the note on missing structured data and the
    note on JSON-LD; and the score is 100 minus 15 for each error, not
    below 0. *)
Theorem parse_of_untyped_page (now url : string) (doc : Dom.document) :
  existsb (Views.typed "itemtype") (Dom.select (Dom.has_attr "itemscope") doc) = false ->
  existsb (Views.typed "typeof") (Dom.select (Dom.has_attr "typeof") doc) = false ->
  let msgs :=
    flat_map (Views.block_report JSON_parse) (Dom.select is_jsonld_script doc) in
  let n := Z.of_nat (List.length msgs) in
  exists r,
    parse JSON_parse Date_accepts now url (inl doc) = inl r /\
    status r = "completed" /\ error r = None /\
    validation_errors r = msgs /\ validation_warnings r = [] /\
    issues_critical r = n /\ issues_warnings r = 0 /\ issues_passed r = - n /\
    recommendations r
    = map consider (suggestions url [])
      ++ ["No structured data found - add appropriate schemas for rich results";
          "Use JSON-LD format for structured data (Google's preferred format)"] /\
    score r = Z.max 0 (100 - 15 * n) /\
    schemas r = [].
Proof.
  intros Hm Hr msgs n. rewrite (parse_try_untyped now url doc Hm Hr).
  fold msgs. fold n. eexists. split; [reflexivity|].
  unfold _calculateScore, modify, advised, Views.reported.
  cbn [snd status error validation_errors validation_warnings issues_critical
       issues_warnings issues_passed recommendations score schemas formats_jsonLd
       set_score set_issues_passed set_recommendations set_issues_critical
       set_validation_errors initial app List.length].
  fold msgs. fold n.
  repeat split; try lia.
  change (Z.of_nat 0) with 0. change (0 <? 0) with false. cbv iota.
  unfold JS.Math_max, JS.Math_min.
  assert (Hn : 0 <= n) by (unfold n; lia). clearbody n. lia.
Qed.

(** The same on a page with a typed Microdata or RDFa element. *)
Lemma parse_try_typed (now url : string) (doc : Dom.document) :
  existsb (Views.typed "itemtype") (Dom.select (Dom.has_attr "itemscope") doc) = true
  \/ existsb (Views.typed "typeof") (Dom.select (Dom.has_attr "typeof") doc) = true ->
  parse JSON_parse Date_accepts now url (inl doc)
  = inl (set_validation_errors
           (flat_map (Views.block_report JSON_parse) (Dom.select is_jsonld_script doc)
            ++ ["Failed to fetch URL: this._validateSchemaType is not a function"])
           (set_error (Some "this._validateSchemaType is not a function")
              (set_status "error"
                 (Views.reported
                    (flat_map (Views.block_report JSON_parse)
                       (Dom.select is_jsonld_script doc))
                    (initial url now))))).
Proof.
  intros H.
  assert (E : parse_try JSON_parse Date_accepts url (inl doc) (initial url now)
              = (inl tt,
                 set_validation_errors
                   (flat_map (Views.block_report JSON_parse)
                      (Dom.select is_jsonld_script doc)
                    ++ ["Failed to fetch URL: this._validateSchemaType is not a function"])
                   (set_error (Some "this._validateSchemaType is not a function")
                      (set_status "error"
                         (Views.reported
                            (flat_map (Views.block_report JSON_parse)
                               (Dom.select is_jsonld_script doc))
                            (initial url now)))))).
  { unfold parse_try, try_catch.
    erewrite bind_inl by apply parseJsonLd_effect.
    destruct (existsb (Views.typed "itemtype")
                (Dom.select (Dom.has_attr "itemscope") doc)) eqn:Hm.
    - erewrite bind_inr by (rewrite parseMicrodata_effect, Hm; reflexivity).
      reflexivity.
    - destruct H as [H|H]; [discriminate H|].
      erewrite bind_inl by (rewrite parseMicrodata_effect, Hm; reflexivity).
      erewrite bind_inr by (rewrite parseRDFa_effect, H; reflexivity).
      reflexivity. }
  unfold parse, parse_body. erewrite bind_inl by exact E. reflexivity.
Qed.

(** X9. On a page with a typed Microdata item or a typed RDFa element,
    [parse] resolves with status error: the TypeError of [_processSchema]
    leaves the [try] block, so the error field holds its message, the
    errors are the reports of the JSON-LD blocks followed by one that words
    it as a failed fetch, which is not counted as critical, and there is no
    recommendation, no record, and the score stays 100. *)
Theorem parse_of_typed_page (now url : string) (doc : Dom.document) :
  existsb (Views.typed "itemtype") (Dom.select (Dom.has_attr "itemscope") doc) = true
  \/ existsb (Views.typed "typeof") (Dom.select (Dom.has_attr "typeof") doc) = true ->
  let msgs :=
    flat_map (Views.block_report JSON_parse) (Dom.select is_jsonld_script doc) in
  exists r,
    parse JSON_parse Date_accepts now url (inl doc) = inl r /\
    status r = "error" /\
    error r = Some "this._validateSchemaType is not a function" /\
    validation_errors r
    = msgs ++ ["Failed to fetch URL: this._validateSchemaType is not a function"] /\
    issues_critical r = Z.of_nat (List.length msgs) /\
    validation_warnings r = [] /\ recommendations r = [] /\
    score r = 100 /\ schemas r = [].
Proof.
  intros H msgs. rewrite (parse_try_typed now url doc H).
  eexists. split; [reflexivity|]. repeat split.
Qed.

End WithPlatform.

Lemma parse_of_untyped_page_witness :
  existsb (Views.typed "itemtype")
    (Dom.select (Dom.has_attr "itemscope") Samples.two_blocks) = false /\
  existsb (Views.typed "typeof")
    (Dom.select (Dom.has_attr "typeof") Samples.two_blocks) = false /\
  exists r,
    parse Samples.JSON_parse Samples.Date_accepts "" "https://example.com/"
      (inl Samples.two_blocks) = inl r /\
    status r = "completed" /\ error r = None /\
    validation_errors r
    = ["Invalid JSON-LD: Expected property name or '}' in JSON at position 1";
       "Invalid JSON-LD: this._validateSchemaType is not a function"] /\
    validation_warnings r = [] /\
    issues_critical r = 2 /\ issues_warnings r = 0 /\ issues_passed r = - 2 /\
    recommendations r
    = ["Consider adding Organization or LocalBusiness schema";
       "Consider adding WebSite with SearchAction schema";
       "Consider adding BreadcrumbList schema";
       "No structured data found - add appropriate schemas for rich results";
       "Use JSON-LD format for structured data (Google's preferred format)"] /\
    score r = 70 /\
    schemas r = [].
Proof.
  split; [reflexivity|]. split; [reflexivity|].
  exact (parse_of_untyped_page Samples.JSON_parse Samples.Date_accepts ""
           "https://example.com/" Samples.two_blocks eq_refl eq_refl).
Defined.

Lemma parse_of_typed_page_witness :
  existsb (Views.typed "itemtype")
    (Dom.select (Dom.has_attr "itemscope") [Samples.person_item]) = true /\
  exists r,
    parse Samples.JSON_parse Samples.Date_accepts "" "https://example.com/"
      (inl [Samples.person_item]) = inl r /\
    status r = "error" /\
    error r = Some "this._validateSchemaType is not a function" /\
    validation_errors r
    = ["Failed to fetch URL: this._validateSchemaType is not a function"] /\
    issues_critical r = 0 /\
    validation_warnings r = [] /\ recommendations r = [] /\
    score r = 100 /\ schemas r = [].
Proof.
  split; [reflexivity|].
  exact (parse_of_typed_page Samples.JSON_parse Samples.Date_accepts ""
           "https://example.com/" [Samples.person_item] (or_introl eq_refl)).
Defined.

End RecommendProps.

(* ===================================================================== *)
(** ** Properties of the Microdata and RDFa helpers *)
(* ===================================================================== *)

Module MarkupProps.

Import Json StructuredDataParser Reports ParserProps.

(** *** The JSON-LD loop *)

(** X10. Whatever the page and whatever [JSON.parse] does, [_parseJsonLd]
    returns normally and its whole effect is to report: one error, counted
    as critical, for each block that does not decode or that decodes to a
    non-null object or to an array holding one, and nothing for the other
    blocks.  It adds no record and no warning. *)
Theorem parseJsonLd_reports_every_block (JSON_parse : string -> value + string)
  (doc : Dom.document) (results : Results) :
  let scripts := Dom.select is_jsonld_script doc in
  let msgs := flat_map (Views.block_report JSON_parse) scripts in
  let r' := snd (_parseJsonLd JSON_parse doc results) in
  fst (_parseJsonLd JSON_parse doc results) = inl tt /\
  r' = Views.reported msgs results /\
  validation_errors r' = validation_errors results ++ msgs /\
  issues_critical r' = issues_critical results + Z.of_nat (List.length msgs) /\
  validation_warnings r' = validation_warnings results /\
  Views.records_of r' = Views.records_of results /\
  (List.length msgs <= List.length scripts)%nat.
Proof.
  cbv zeta. rewrite parseJsonLd_effect. cbn [fst snd].
  repeat split.
  induction (Dom.select is_jsonld_script doc) as [|l scripts IH]; [apply le_n|].
  cbn [flat_map]. rewrite length_app. cbn [List.length].
  assert (B : (List.length (Views.block_report JSON_parse l) <= 1)%nat).
  { unfold Views.block_report.
    destruct (JSON_parse (html (Dom.elem l))) as [json|cause]; [|apply le_n].
    destruct (existsb _ (toArray json)); cbn; lia. }
  lia.
Qed.

(** The selector of [_parseJsonLd] compares the type attribute without
    regard to case: a block under [Application/LD+JSON] is read, and
    reported like any other. *)
Lemma parse_reads_capital_type :
  exists r,
    parse Samples.JSON_parse Samples.Date_accepts "" "https://example.com/page"
      (inl Cases.capital_block) = inl r /\
    validation_errors r
    = ["Invalid JSON-LD: this._validateSchemaType is not a function"] /\
    issues_critical r = 1 /\ score r = 85.
Proof.
  eexists. split; [vm_compute; reflexivity|]. vm_compute. repeat split.
Qed.

(** *** The type name in an item type URL *)

Lemma strip_prefix_sound (p s rest : string) :
  strip_prefix p s = Some rest -> s = p +:+ rest.
Proof.
  revert s. induction p as [|a p IH]; intros s H.
  - cbn in H. injection H as ->. reflexivity.
  - destruct s as [|b s]; cbn in H; [discriminate|].
    destruct (Ascii.eqb a b) eqn:E; [|discriminate].
    apply Ascii.eqb_eq in E. subst b. cbn. f_equal. now apply IH.
Qed.

Lemma strip_prefix_none (p s : string) :
  String.prefix p s = false -> strip_prefix p s = None.
Proof.
  revert s. induction p as [|a p IH]; intros s H.
  - destruct s; discriminate H.
  - destruct s as [|b s]; [reflexivity|]. cbn in *.
    destruct (ascii_dec a b) as [->|N].
    + rewrite Ascii.eqb_refl. now apply IH.
    + apply Ascii.eqb_neq in N. now rewrite N.
Qed.

Lemma match_schema_org_sound (s t : string) :
  match_schema_org s = Some t ->
  JS.truthyString t = true /\
  exists before, s = before +:+ "schema.org/" +:+ t.
Proof.
  induction s as [|c s IH]; intros H.
  - cbn in H. discriminate.
  - assert (T : match_schema_org s = Some t ->
                JS.truthyString t = true /\
                exists before, String c s = before +:+ "schema.org/" +:+ t).
    { intros H'. destruct (IH H') as (Ht & before & E).
      split; [exact Ht|]. exists (String c before). cbn. now rewrite E. }
    unfold match_schema_org in H. fold match_schema_org in H.
    destruct (strip_prefix "schema.org/" (String c s)) as [rest|] eqn:E.
    + destruct (JS.truthyString rest && noLineTerminator rest) eqn:B.
      * injection H as <-. apply andb_prop in B. destruct B as (B & _).
        split; [exact B|]. exists "". apply strip_prefix_sound in E. exact E.
      * now apply T.
    + now apply T.
Qed.

Lemma match_schema_org_none (s : string) :
  JS.includes "schema.org/" s = false -> match_schema_org s = None.
Proof.
  induction s as [|c s IH]; intros H.
  - reflexivity.
  - unfold JS.includes in H. fold JS.includes in H.
    apply orb_false_elim in H. destruct H as (Hp & Hs).
    unfold match_schema_org. fold match_schema_org.
    rewrite (strip_prefix_none _ _ Hp). now apply IH.
Qed.

(** X11. For a type name [T] that is not empty and has no line break,
    [_extractTypeFromUrl] gives [T] back from the item type URLs
    http://schema.org/T and https://schema.org/T.  For every URL, its
    result is not empty; it is [Thing], or the whole rest of the URL after
    an occurrence of [schema.org/] (path segments and a trailing slash
    included); and it is [Thing] when the URL does not contain
    [schema.org/]. *)
Theorem extractTypeFromUrl_shape (url T : string) :
  JS.truthyString T = true ->
  noLineTerminator T = true ->
  _extractTypeFromUrl ("http://schema.org/" +:+ T) = T /\
  _extractTypeFromUrl ("https://schema.org/" +:+ T) = T /\
  _extractTypeFromUrl url <> "" /\
  (_extractTypeFromUrl url = "Thing" \/
   exists before, url = before +:+ "schema.org/" +:+ _extractTypeFromUrl url) /\
  (JS.includes "schema.org/" url = false -> _extractTypeFromUrl url = "Thing").
Proof.
  intros HT HL. unfold _extractTypeFromUrl.
  split; [|split; [|split; [|split]]].
  - cbn. now rewrite HT, HL.
  - cbn. now rewrite HT, HL.
  - destruct (match_schema_org url) as [t|] eqn:E; [|discriminate].
    destruct (match_schema_org_sound _ _ E) as (Ht & _).
    intros ->. discriminate Ht.
  - destruct (match_schema_org url) as [t|] eqn:E; [|now left].
    right. apply (match_schema_org_sound _ _ E).
  - intros H. now rewrite (match_schema_org_none _ H).
Qed.

Lemma extractTypeFromUrl_shape_witness :
  JS.truthyString "Person" = true /\
  noLineTerminator "Person" = true /\
  _extractTypeFromUrl "http://schema.org/Person" = "Person" /\
  _extractTypeFromUrl "https://schema.org/Person" = "Person" /\
  _extractTypeFromUrl "https://example.com/Person" = "Thing".
Proof.
  split; [reflexivity|]. split; [reflexivity|].
  destruct (extractTypeFromUrl_shape "https://example.com/Person" "Person" eq_refl eq_refl)
    as (E1 & E2 & _ & _ & E3).
  split; [exact E1|]. split; [exact E2|]. exact (E3 eq_refl).
Defined.

(** *** RDFa properties *)

Lemma lookup_set (k k' : string) (v : value) (l : list (string * value)) :
  lookup k (set k' v l) = if String.eqb k k' then Some v else lookup k l.
Proof.
  induction l as [|[k0 v0] l IH]; cbn.
  - destruct (String.eqb k k'); reflexivity.
  - destruct (String.eqb k' k0) eqn:E0; cbn.
    + apply String.eqb_eq in E0. subst k0.
      destruct (String.eqb k k'); reflexivity.
    + rewrite IH. destruct (String.eqb k k0) eqn:E1; [|reflexivity].
      apply String.eqb_eq in E1. subst k0.
      destruct (String.eqb k k') eqn:E2; [|reflexivity].
      apply String.eqb_eq in E2. subst k'. now rewrite String.eqb_refl in E0.
Qed.

(** X12. After [_extractRDFaProperties], the schema object holds under a
    key (other than [__proto__], which an assignment does not store) the
    value of the last descendant that carries the key as [property]
    attribute and has a value: its [content] attribute, else its trimmed
    text.  Earlier values are overwritten, not collected; a key that no
    such descendant carries keeps what the object held. *)
Theorem extractRDFaProperties_last_wins (e : Dom.located)
  (schema : list (string * value)) (k : string) :
  String.eqb k "__proto__" = false ->
  lookup k (_extractRDFaProperties e schema)
  = match List.find (rdfa_sets k) (rev (Dom.find (Dom.has_attr "property") e)) with
    | Some prop => Some (JString (rdfa_value prop))
    | None => lookup k schema
    end.
Proof.
  intros Hk. unfold _extractRDFaProperties. cbv zeta.
  generalize (Dom.find (Dom.has_attr "property") e) as props. intros props.
  induction props as [|prop props IH] using rev_ind; [reflexivity|].
  rewrite fold_left_app, rev_app_distr. cbn [fold_left rev app List.find].
  unfold rdfa_sets at 1, rdfa_value at 1.
  destruct (Dom.attr (Dom.elem prop) "property") as [propName|]; [|exact IH].
  destruct (JS.truthyString propName); cbn [andb]; [|now rewrite andb_false_r].
  destruct (JS.truthyString
              (JS.orElse (Dom.attr (Dom.elem prop) "content")
                 (JS.trim (Dom.text (Dom.elem prop))))); cbn [andb].
  - rewrite andb_true_r. unfold assign.
    destruct (String.eqb propName "__proto__") eqn:Ep.
    + apply String.eqb_eq in Ep. subst propName. rewrite Hk. exact IH.
    + rewrite lookup_set.
      destruct (String.eqb k propName); [reflexivity | exact IH].
  - rewrite andb_false_r. exact IH.
Qed.

(** An element that gives [__proto__] as its property adds nothing to the
    schema object. *)
Lemma extractRDFaProperties_proto :
  _extractRDFaProperties
    (Dom.Loc [] (Dom.Element "div" [("typeof", "Person")]
                   [Dom.Element "span" [("property", "__proto__")] [Dom.Text "Alice"]]))
    [("@type", JString "Person")]
  = [("@type", JString "Person")].
Proof. reflexivity. Qed.

Lemma extractRDFaProperties_last_wins_witness :
  String.eqb "name" "__proto__" = false /\
  lookup "name"
    (_extractRDFaProperties Cases.rdfa_person [("@type", JString "Person")])
  = Some (JString "Bob").
Proof.
  split; [reflexivity|].
  exact (extractRDFaProperties_last_wins Cases.rdfa_person
           [("@type", JString "Person")] "name" eq_refl).
Defined.

End MarkupProps.

(* ===================================================================== *)
(** ** Headings, links and messages of the meta extractor *)
(* ===================================================================== *)

Module MetaLogProps.

Import MetaExtractor Views MetaReports MetaProps.

(** *** Steps that only add messages *)

Lemma steady_comp f g : steady f -> steady g -> steady (fun r => g (f r)).
Proof.
  intros Hf Hg r.
  destruct (Hf r) as (Fh & Fi & Fw & Fn & Fs & Fu).
  destruct (Hg (f r)) as (Gh & Gi & Gw & Gn & Gs & Gu).
  split; [now rewrite Gh|]. split; [auto|]. split; [auto|].
  split; [lia|]. split; [lia|]. now rewrite Gu.
Qed.

Lemma steady_of_log f : (forall r, log_of (f r) = log_of r) -> steady f.
Proof.
  intros H r. specialize (H r). unfold log_of, headings_of in H.
  injection H as H1 H2 H3 H4 H5 H6 Hi Hw Hs Hu.
  unfold noted, headings_of. rewrite H1, H2, H3, H4, H5, H6, Hi, Hw, Hs.
  split; [reflexivity|]. split; [auto|]. split; [auto|].
  split; [lia|]. split; [lia|]. exact Hu.
Qed.

Lemma log_fold {B : Type} (step : Results -> B -> Results) (l : list B) :
  (forall r x, log_of (step r x) = log_of r) ->
  forall r, log_of (fold_left step l r) = log_of r.
Proof.
  intros H. induction l as [|x l IH]; intros r; cbn [fold_left]; [reflexivity|].
  now rewrite IH.
Qed.

Lemma log_fold_pair {B C : Type} (step : Results * C -> B -> Results * C)
  (l : list B) :
  (forall r c x, log_of (fst (step (r, c) x)) = log_of r) ->
  forall r c, log_of (fst (fold_left step l (r, c))) = log_of r.
Proof.
  intros H. induction l as [|x l IH]; intros r c; cbn [fold_left]; [reflexivity|].
  specialize (H r c x). destruct (step (r, c) x) as [r' c'].
  rewrite IH. exact H.
Qed.

(** A step defined by cases on conditions: follow them. *)
Ltac steady_close :=
  repeat split; intros; rewrite ?length_app, ?in_app_iff; cbn [List.length];
  try reflexivity; try tauto; try lia.

Ltac steady_cases :=
  unfold steady, noted, headings_of; intros; cases; steady_close.

Lemma extractTitle_steady doc : steady (_extractTitle doc).
Proof. unfold _extractTitle. steady_cases. Qed.

Lemma meta_description_steady doc : steady (meta_description doc).
Proof. unfold meta_description. steady_cases. Qed.

Lemma meta_keywords_steady doc : steady (meta_keywords doc).
Proof. unfold meta_keywords. steady_cases. Qed.

Lemma meta_robots_steady doc : steady (meta_robots doc).
Proof. unfold meta_robots. steady_cases. Qed.

Lemma meta_viewport_steady doc : steady (meta_viewport doc).
Proof. unfold meta_viewport. steady_cases. Qed.

Lemma meta_charset_steady doc : steady (meta_charset doc).
Proof. unfold meta_charset. steady_cases. Qed.

Lemma collect_tags_log sel prefix doc tags (r : Results) :
  log_of (fst (collect_tags sel prefix doc tags r)) = log_of r.
Proof.
  unfold collect_tags. apply log_fold_pair. intros r0 c tag.
  unfold collect_step. cases; reflexivity.
Qed.

Lemma extractOpenGraphTags_steady doc : steady (_extractOpenGraphTags doc).
Proof.
  unfold _extractOpenGraphTags. intros r. cbv zeta.
  pose proof (collect_tags_log meta_property "og:" doc
                ["title"; "description"; "image"; "url"; "type"; "site_name"] r) as L.
  destruct (collect_tags meta_property "og:" doc
              ["title"; "description"; "image"; "url"; "type"; "site_name"] r)
    as [r1 b].
  cbn [fst] in L. unfold log_of, headings_of in L.
  injection L as H1 H2 H3 H4 H5 H6 Hi Hw Hs Hu.
  unfold noted, headings_of.
  rewrite <- H1, <- H2, <- H3, <- H4, <- H5, <- H6, <- Hi, <- Hw, <- Hs, <- Hu.
  cases; steady_close.
Qed.

Lemma extractTwitterCardTags_steady doc : steady (_extractTwitterCardTags doc).
Proof.
  unfold _extractTwitterCardTags. intros r. cbv zeta.
  pose proof (collect_tags_log meta_named "twitter:" doc
                ["card"; "title"; "description"; "image"; "site"; "creator"] r) as L.
  destruct (collect_tags meta_named "twitter:" doc
              ["card"; "title"; "description"; "image"; "site"; "creator"] r)
    as [r1 b].
  cbn [fst] in L. unfold log_of, headings_of in L.
  injection L as H1 H2 H3 H4 H5 H6 Hi Hw Hs Hu.
  unfold noted, headings_of.
  rewrite <- H1, <- H2, <- H3, <- H4, <- H5, <- H6, <- Hi, <- Hw, <- Hs, <- Hu.
  cases; steady_close.
Qed.

Lemma extractMetaTags_steady doc : steady (_extractMetaTags doc).
Proof.
  unfold _extractMetaTags. cbv zeta.
  apply (steady_comp _ (_extractTwitterCardTags doc));
    [|apply extractTwitterCardTags_steady].
  apply (steady_comp _ (_extractOpenGraphTags doc));
    [|apply extractOpenGraphTags_steady].
  apply (steady_comp _ (meta_charset doc)); [|apply meta_charset_steady].
  apply (steady_comp _ (meta_viewport doc)); [|apply meta_viewport_steady].
  apply (steady_comp _ (meta_robots doc)); [|apply meta_robots_steady].
  apply (steady_comp (meta_description doc) (meta_keywords doc));
    [apply meta_description_steady | apply meta_keywords_steady].
Qed.

Lemma check_headings_steady : steady check_headings.
Proof. unfold check_headings. steady_cases. Qed.

Lemma check_images_steady : steady check_images.
Proof. unfold check_images. steady_cases. Qed.

Lemma extractImages_steady doc : steady (_extractImages doc).
Proof.
  unfold _extractImages. cbv zeta.
  apply (steady_comp (fun r => fold_left image_step (Dom.select (Dom.is_tag "img") doc) r)
           check_images); [|apply check_images_steady].
  apply steady_of_log. apply log_fold. intros r l.
  unfold image_step. cases; reflexivity.
Qed.

Lemma analyzeResults_steady : steady _analyzeResults.
Proof. apply steady_of_log. intros r. reflexivity. Qed.

(** *** The heading loop *)

Lemma add_headings_nil tag (r : Results) : add_headings tag [] r = r.
Proof.
  unfold add_headings. destruct r.
  repeat match goal with
         | |- context [if ?b then _ else _] => destruct b
         end; cbn; rewrite ?app_nil_r; reflexivity.
Qed.

Lemma add_headings_cons tag text texts (r : Results) :
  add_headings tag texts (push_heading tag text r) = add_headings tag (text :: texts) r.
Proof.
  unfold add_headings, push_heading.
  repeat match goal with
         | |- context [if ?b then _ else _] => destruct b
         end; cbn; rewrite <- ?app_assoc; reflexivity.
Qed.

Lemma heading_loop tag (sel : list Dom.located) (r : Results) :
  fold_left
    (fun r l =>
       let text := JS.trim (Dom.text (Dom.elem l)) in
       when (JS.truthyString text) (push_heading tag text) r)
    sel r
  = add_headings tag
      (filter JS.truthyString (map (fun l => JS.trim (Dom.text (Dom.elem l))) sel)) r.
Proof.
  revert r. induction sel as [|l sel IH]; intros r.
  - cbn. now rewrite add_headings_nil.
  - cbn [fold_left map filter]. rewrite IH. cbv zeta. unfold when.
    destruct (JS.truthyString (JS.trim (Dom.text (Dom.elem l)))).
    + apply add_headings_cons.
    + reflexivity.
Qed.

Lemma collect_headings_effect doc (r : Results) :
  collect_headings doc r
  = add_headings "h6" (heading_texts "h6" doc)
      (add_headings "h5" (heading_texts "h5" doc)
         (add_headings "h4" (heading_texts "h4" doc)
            (add_headings "h3" (heading_texts "h3" doc)
               (add_headings "h2" (heading_texts "h2" doc)
                  (add_headings "h1" (heading_texts "h1" doc) r))))).
Proof.
  unfold collect_headings. cbv zeta. cbn [fold_left].
  now rewrite !heading_loop.
Qed.


(** *** Title and description *)

Lemma meta_lookup_set (k k' : string) (v : metaValue) (l : list (string * metaValue)) :
  meta_lookup k (meta_set k' v l) = if String.eqb k k' then Some v else meta_lookup k l.
Proof.
  induction l as [|[k0 v0] l IH]; cbn.
  - destruct (String.eqb k k'); reflexivity.
  - destruct (String.eqb k' k0) eqn:E0; cbn.
    + apply String.eqb_eq in E0. subst k0.
      destruct (String.eqb k k'); reflexivity.
    + rewrite IH. destruct (String.eqb k k0) eqn:E1; [|reflexivity].
      apply String.eqb_eq in E1. subst k0.
      destruct (String.eqb k k') eqn:E2; [|reflexivity].
      apply String.eqb_eq in E2. subst k'. now rewrite String.eqb_refl in E0.
Qed.

Lemma keeps_fold_pair {B C V : Type} (view : Results -> V)
  (step : Results * C -> B -> Results * C) (l : list B) :
  (forall r c x, view (fst (step (r, c) x)) = view r) ->
  forall r c, view (fst (fold_left step l (r, c))) = view r.
Proof.
  intros H. induction l as [|x l IH]; intros r c; cbn [fold_left]; [reflexivity|].
  specialize (H r c x). destruct (step (r, c) x) as [r' c'].
  rewrite IH. exact H.
Qed.

(** A step that stores under other keys, or stores nothing. *)
Ltac named_cases :=
  unfold keeps, named; intros; cases; rewrite ?meta_lookup_set; reflexivity.

Lemma meta_keywords_named doc : keeps named (meta_keywords doc).
Proof. unfold meta_keywords. named_cases. Qed.

Lemma meta_robots_named doc : keeps named (meta_robots doc).
Proof. unfold meta_robots. named_cases. Qed.

Lemma meta_viewport_named doc : keeps named (meta_viewport doc).
Proof. unfold meta_viewport. named_cases. Qed.

Lemma meta_charset_named doc : keeps named (meta_charset doc).
Proof. unfold meta_charset. named_cases. Qed.

Lemma og_tags_named doc tags (r : Results) :
  named (fst (collect_tags meta_property "og:" doc tags r)) = named r.
Proof.
  unfold collect_tags. apply keeps_fold_pair. intros r0 c tag.
  unfold collect_step, named. cases; rewrite ?meta_lookup_set; reflexivity.
Qed.

Lemma twitter_tags_named doc tags (r : Results) :
  named (fst (collect_tags meta_named "twitter:" doc tags r)) = named r.
Proof.
  unfold collect_tags. apply keeps_fold_pair. intros r0 c tag.
  unfold collect_step, named. cases; rewrite ?meta_lookup_set; reflexivity.
Qed.

Lemma extractOpenGraphTags_named doc : keeps named (_extractOpenGraphTags doc).
Proof.
  unfold _extractOpenGraphTags. intros r. cbv zeta.
  pose proof (og_tags_named doc
                ["title"; "description"; "image"; "url"; "type"; "site_name"] r) as L.
  destruct (collect_tags meta_property "og:" doc
              ["title"; "description"; "image"; "url"; "type"; "site_name"] r)
    as [r1 b].
  cbn [fst] in L. rewrite <- L. unfold named. cases; reflexivity.
Qed.

Lemma extractTwitterCardTags_named doc : keeps named (_extractTwitterCardTags doc).
Proof.
  unfold _extractTwitterCardTags. intros r. cbv zeta.
  pose proof (twitter_tags_named doc
                ["card"; "title"; "description"; "image"; "site"; "creator"] r) as L.
  destruct (collect_tags meta_named "twitter:" doc
              ["card"; "title"; "description"; "image"; "site"; "creator"] r)
    as [r1 b].
  cbn [fst] in L. rewrite <- L. unfold named. cases; reflexivity.
Qed.

(** The blocks of [_extractMetaTags] after the description. *)
Lemma after_description_named doc :
  keeps named
    (fun r => _extractTwitterCardTags doc
                (_extractOpenGraphTags doc
                   (meta_charset doc
                      (meta_viewport doc (meta_robots doc (meta_keywords doc r)))))).
Proof.
  intros r.
  now rewrite extractTwitterCardTags_named, extractOpenGraphTags_named,
    meta_charset_named, meta_viewport_named, meta_robots_named, meta_keywords_named.
Qed.

Lemma after_description_steady doc :
  steady
    (fun r => _extractTwitterCardTags doc
                (_extractOpenGraphTags doc
                   (meta_charset doc
                      (meta_viewport doc (meta_robots doc (meta_keywords doc r)))))).
Proof.
  apply (steady_comp _ (_extractTwitterCardTags doc));
    [|apply extractTwitterCardTags_steady].
  apply (steady_comp _ (_extractOpenGraphTags doc));
    [|apply extractOpenGraphTags_steady].
  apply (steady_comp _ (meta_charset doc)); [|apply meta_charset_steady].
  apply (steady_comp _ (meta_viewport doc)); [|apply meta_viewport_steady].
  apply (steady_comp (meta_keywords doc) (meta_robots doc));
    [apply meta_keywords_steady | apply meta_robots_steady].
Qed.

Lemma check_headings_named : keeps named check_headings.
Proof. unfold check_headings. named_cases. Qed.

Lemma check_images_named : keeps named check_images.
Proof. unfold check_images. named_cases. Qed.

Lemma extractHeadings_named doc : keeps named (_extractHeadings doc).
Proof.
  intros r. unfold _extractHeadings. cbv zeta.
  rewrite check_headings_named, collect_headings_effect. reflexivity.
Qed.

Lemma extractImages_named doc : keeps named (_extractImages doc).
Proof.
  intros r. unfold _extractImages. cbv zeta. rewrite check_images_named.
  apply (keeps_fold named image_step). intros l r0.
  unfold image_step, named. cases; reflexivity.
Qed.

Section WithURL.

Variable URL_hostname : string -> option string -> option string.

Lemma extractCanonical_steady doc : steady (_extractCanonical URL_hostname doc).
Proof. unfold _extractCanonical. steady_cases. Qed.

(** *** The link loop *)

Lemma link_step_split pageUrl host (r : Results) (n : Z) (l : Dom.located) :
  let out := link_step URL_hostname pageUrl host (r, n) l in
  links_internal (fst out)
  = links_internal r
    + (if counted_href l && internal_href URL_hostname pageUrl host (href_or_empty l)
       then 1 else 0) /\
  links_external (fst out)
  = links_external r
    + (if counted_href l && external_href URL_hostname pageUrl host (href_or_empty l)
       then 1 else 0) /\
  snd out
  = n + (if counted_href l && external_href URL_hostname pageUrl host (href_or_empty l)
            && lacks_rel l
         then 1 else 0) /\
  log_of (fst out) = log_of r.
Proof.
  unfold link_step, counted_href, internal_href, external_href, href_or_empty, lacks_rel.
  cbv zeta.
  destruct (Dom.attr (Dom.elem l) "href") as [h|]; cbn [JS.orElse].
  - destruct (JS.truthyString h) eqn:Hh; cbn [negb orb andb].
    + destruct (JS.startsWith "#" h); cbn [negb andb fst snd].
      * repeat split; lia.
      * destruct (URL_hostname h (Some pageUrl)) as [hostname|].
        -- destruct (String.eqb hostname host); cbn [negb andb].
           ++ fields. repeat split; lia.
           ++ destruct (negb (JS.includes "nofollow" (JS.orElse (Dom.attr (Dom.elem l) "rel") ""))
                        && negb (JS.includes "noopener" (JS.orElse (Dom.attr (Dom.elem l) "rel") "")));
                fields; repeat split; lia.
        -- fields. repeat split; lia.
    + cbn [fst snd]. repeat split; lia.
  - cbn [fst snd andb]. repeat split; lia.
Qed.

Lemma link_loop_split pageUrl host (sel : list Dom.located) (r : Results) (n : Z) :
  let out := fold_left (link_step URL_hostname pageUrl host) sel (r, n) in
  links_internal (fst out)
  = links_internal r
    + Z.of_nat (List.length
        (filter (fun l => counted_href l
                          && internal_href URL_hostname pageUrl host (href_or_empty l))
           sel)) /\
  links_external (fst out)
  = links_external r
    + Z.of_nat (List.length
        (filter (fun l => counted_href l
                          && external_href URL_hostname pageUrl host (href_or_empty l))
           sel)) /\
  snd out
  = n + Z.of_nat (List.length
          (filter (fun l => counted_href l
                            && external_href URL_hostname pageUrl host (href_or_empty l)
                            && lacks_rel l)
             sel)) /\
  log_of (fst out) = log_of r.
Proof.
  revert r n. induction sel as [|l sel IH]; intros r n.
  - cbn. repeat split; lia.
  - cbn [fold_left filter].
    pose proof (link_step_split pageUrl host r n l) as S. cbv zeta in S.
    destruct (link_step URL_hostname pageUrl host (r, n) l) as [r' n'].
    cbn [fst snd] in S. destruct S as (Si & Se & Sn & Sl).
    destruct (IH r' n') as (Hi & He & Hn & Hl).
    cbv zeta. rewrite Hi, He, Hn, Hl, Si, Se, Sn, Sl.
    destruct (counted_href l && internal_href URL_hostname pageUrl host (href_or_empty l));
      destruct (counted_href l && external_href URL_hostname pageUrl host (href_or_empty l));
      destruct (lacks_rel l); cbn [andb List.length]; repeat split; lia.
Qed.

(** What [_extractLinks] leaves behind. *)
Lemma extractLinks_split doc pageUrl host (r : Results) :
  let r' := _extractLinks URL_hostname doc pageUrl host r in
  let norel :=
    Z.of_nat (List.length
      (filter (fun l => counted_href l
                        && external_href URL_hostname pageUrl host (href_or_empty l)
                        && lacks_rel l)
         (anchors doc))) in
  links_internal r'
  = links_internal r
    + Z.of_nat (List.length
        (filter (fun l => counted_href l
                          && internal_href URL_hostname pageUrl host (href_or_empty l))
           (anchors doc))) /\
  links_external r'
  = links_external r
    + Z.of_nat (List.length
        (filter (fun l => counted_href l
                          && external_href URL_hostname pageUrl host (href_or_empty l))
           (anchors doc))) /\
  headings_of r' = headings_of r /\ issues r' = issues r /\ score r' = score r /\
  warnings r' = warnings r ++ (if norel >? 0 then [rel_warning norel] else []) /\
  url r' = url r.
Proof.
  unfold _extractLinks. cbv zeta. fold (anchors doc).
  pose proof (link_loop_split pageUrl host (anchors doc) r 0) as L. cbv zeta in L.
  destruct (fold_left (link_step URL_hostname pageUrl host) (anchors doc) (r, 0))
    as [r1 n].
  cbn [fst snd] in L. destruct L as (Li & Le & Ln & Ll).
  unfold log_of, headings_of in Ll. injection Ll as H1 H2 H3 H4 H5 H6 Hi Hw Hs Hu.
  rewrite Z.add_0_l in Ln. subst n.
  unfold when, rel_warning, headings_of.
  destruct (_ >? 0); fields; rewrite ?app_nil_r, ?H1, ?H2, ?H3, ?H4, ?H5, ?H6;
    repeat split; try assumption; congruence.
Qed.

Lemma extractLinks_steady doc pageUrl host :
  steady (_extractLinks URL_hostname doc pageUrl host).
Proof.
  intros r.
  pose proof (extractLinks_split doc pageUrl host r) as L. cbv zeta in L.
  destruct L as (_ & _ & Hh & Hi & Hs & Hw & Hu).
  unfold noted. rewrite Hh, Hi, Hs, Hw, Hu.
  destruct (_ >? 0); steady_close.
Qed.

(** *** The passes together *)

Lemma steady_backed f : steady f -> backed f.
Proof.
  intros H r. destruct (H r) as (_ & Hi & Hw & Hn & Hs & _). repeat split; auto.
Qed.

Lemma backed_comp f g : backed f -> backed g -> backed (fun r => g (f r)).
Proof.
  intros Hf Hg r.
  destruct (Hf r) as (Fi & Fw & Fn & Fs).
  destruct (Hg (f r)) as (Gi & Gw & Gn & Gs).
  repeat split; auto; lia.
Qed.

Lemma collect_headings_headings doc (r : Results) :
  headings_of (collect_headings doc r)
  = (headings_h1 r ++ heading_texts "h1" doc, headings_h2 r ++ heading_texts "h2" doc,
     headings_h3 r ++ heading_texts "h3" doc, headings_h4 r ++ heading_texts "h4" doc,
     headings_h5 r ++ heading_texts "h5" doc, headings_h6 r ++ heading_texts "h6" doc).
Proof. rewrite collect_headings_effect. reflexivity. Qed.

Lemma collect_headings_backed doc : backed (collect_headings doc).
Proof.
  intros r.
  assert (E : (issues (collect_headings doc r), warnings (collect_headings doc r),
               score (collect_headings doc r)) = (issues r, warnings r, score r))
    by (rewrite collect_headings_effect; reflexivity).
  injection E as Ei Ew Es. unfold noted. rewrite Ei, Ew, Es.
  repeat split; auto; lia.
Qed.

(** The three passes before the headings, and the three after. *)
Lemma before_headings_steady doc :
  steady (fun r => _extractCanonical URL_hostname doc
                     (_extractMetaTags doc (_extractTitle doc r))).
Proof.
  apply (steady_comp (fun r => _extractMetaTags doc (_extractTitle doc r))
           (_extractCanonical URL_hostname doc)); [|apply extractCanonical_steady].
  apply (steady_comp (_extractTitle doc) (_extractMetaTags doc));
    [apply extractTitle_steady | apply extractMetaTags_steady].
Qed.

Lemma after_headings_steady doc url host :
  steady (fun r => _analyzeResults
                     (_extractLinks URL_hostname doc url host (_extractImages doc r))).
Proof.
  apply (steady_comp (fun r => _extractLinks URL_hostname doc url host
                                 (_extractImages doc r)) _analyzeResults);
    [|apply analyzeResults_steady].
  apply (steady_comp (_extractImages doc) (_extractLinks URL_hostname doc url host));
    [apply extractImages_steady | apply extractLinks_steady].
Qed.

Lemma passes_backed doc url host : backed (passes URL_hostname doc url host).
Proof.
  unfold passes, _extractHeadings.
  apply (backed_comp
           (fun r => check_headings
                       (collect_headings doc
                          (_extractCanonical URL_hostname doc
                             (_extractMetaTags doc (_extractTitle doc r)))))
           (fun r => _analyzeResults
                       (_extractLinks URL_hostname doc url host (_extractImages doc r))));
    [|apply steady_backed, after_headings_steady].
  apply (backed_comp
           (fun r => collect_headings doc
                       (_extractCanonical URL_hostname doc
                          (_extractMetaTags doc (_extractTitle doc r))))
           check_headings); [|apply steady_backed, check_headings_steady].
  apply (backed_comp
           (fun r => _extractCanonical URL_hostname doc
                       (_extractMetaTags doc (_extractTitle doc r)))
           (collect_headings doc));
    [apply steady_backed, before_headings_steady | apply collect_headings_backed].
Qed.

Lemma passes_headings doc url host (r : Results) :
  headings_of (passes URL_hostname doc url host r)
  = (headings_h1 r ++ heading_texts "h1" doc, headings_h2 r ++ heading_texts "h2" doc,
     headings_h3 r ++ heading_texts "h3" doc, headings_h4 r ++ heading_texts "h4" doc,
     headings_h5 r ++ heading_texts "h5" doc, headings_h6 r ++ heading_texts "h6" doc).
Proof.
  unfold passes, _extractHeadings.
  destruct (after_headings_steady doc url host
              (check_headings
                 (collect_headings doc
                    (_extractCanonical URL_hostname doc
                       (_extractMetaTags doc (_extractTitle doc r)))))) as (-> & _).
  destruct (check_headings_steady
              (collect_headings doc
                 (_extractCanonical URL_hostname doc
                    (_extractMetaTags doc (_extractTitle doc r))))) as (-> & _).
  rewrite collect_headings_headings.
  destruct (before_headings_steady doc r) as (E & _).
  unfold headings_of in E. injection E as -> -> -> -> -> ->. reflexivity.
Qed.

(** X13. On a completed result, the list under each heading tag holds the
    trimmed texts of the elements of the page with that tag, in document
    order, without the empty ones: a heading whose text is empty or
    whitespace only (one that holds just an image, say) is not listed. *)
Theorem headings_collected now url doc r :
  extract URL_hostname now url (inl doc) = inl r ->
  status r = "completed" ->
  headings_h1 r = heading_texts "h1" doc /\
  headings_h2 r = heading_texts "h2" doc /\
  headings_h3 r = heading_texts "h3" doc /\
  headings_h4 r = heading_texts "h4" doc /\
  headings_h5 r = heading_texts "h5" doc /\
  headings_h6 r = heading_texts "h6" doc.
Proof.
  intros H Hs.
  destruct (extract_completed_inv URL_hostname now url doc r H Hs) as (host & _ & ->).
  pose proof (passes_headings doc url host (initial url now)) as E.
  unfold headings_of in E. injection E as E1 E2 E3 E4 E5 E6.
  repeat split; assumption.
Qed.

Lemma check_headings_h1 (r : Results) :
  (List.length (headings_h1 r) = 0%nat ->
   In "No H1 tag found - add exactly one H1 tag" (issues (check_headings r))) /\
  ((1 < List.length (headings_h1 r))%nat ->
   In ("Multiple H1 tags found ("
       +:+ JS.numberToString (Z.of_nat (List.length (headings_h1 r)))
       +:+ ") - use only one H1 per page") (warnings (check_headings r))) /\
  (List.length (headings_h1 r) = 1%nat ->
   issues (check_headings r) = issues r /\
   score r - 3 <= score (check_headings r)).
Proof.
  unfold check_headings. split; [|split]; intros Hn.
  - replace (Z.of_nat (List.length (headings_h1 r)) =? 0) with true
      by (symmetry; apply Z.eqb_eq; lia).
    cases; rewrite ?in_app_iff; cbn [In]; tauto.
  - replace (Z.of_nat (List.length (headings_h1 r)) =? 0) with false
      by (symmetry; apply Z.eqb_neq; lia).
    replace (Z.of_nat (List.length (headings_h1 r)) >? 1) with true
      by (symmetry; apply Z.gtb_lt; lia).
    cases; rewrite ?in_app_iff; cbn [In]; tauto.
  - replace (Z.of_nat (List.length (headings_h1 r)) =? 0) with false
      by (symmetry; apply Z.eqb_neq; lia).
    replace (Z.of_nat (List.length (headings_h1 r)) >? 1) with false
      by (symmetry; rewrite Z.gtb_ltb; apply Z.ltb_ge; lia).
    cases; split; try reflexivity; lia.
Qed.

(** X14. On a completed result: when the page has no H1 element with a
    text, the issues hold the message that no H1 tag was found; when it
    has more than one, the warnings hold the message on multiple H1 tags
    with their number. *)
Theorem h1_checked now url doc r :
  extract URL_hostname now url (inl doc) = inl r ->
  status r = "completed" ->
  let n := List.length (heading_texts "h1" doc) in
  (n = 0%nat -> In "No H1 tag found - add exactly one H1 tag" (issues r)) /\
  ((1 < n)%nat ->
   In ("Multiple H1 tags found (" +:+ JS.numberToString (Z.of_nat n)
       +:+ ") - use only one H1 per page") (warnings r)).
Proof.
  intros H Hs n.
  destruct (extract_completed_inv URL_hostname now url doc r H Hs) as (host & _ & ->).
  unfold passes, _extractHeadings.
  set (x := _extractCanonical URL_hostname doc
              (_extractMetaTags doc (_extractTitle doc (initial url now)))).
  assert (E : headings_h1 (collect_headings doc x) = heading_texts "h1" doc).
  { pose proof (collect_headings_headings doc x) as C.
    unfold headings_of in C. injection C as C1 _ _ _ _ _. rewrite C1.
    destruct (before_headings_steady doc (initial url now)) as (B & _).
    fold x in B. unfold headings_of in B. injection B as -> _ _ _ _ _. reflexivity. }
  destruct (check_headings_h1 (collect_headings doc x)) as (C0 & C2 & _).
  rewrite E in C0, C2. fold n in C0, C2.
  destruct (after_headings_steady doc url host (check_headings (collect_headings doc x)))
    as (_ & Ai & Aw & _).
  split; intros Hn; [apply Ai, C0, Hn | apply Aw, C2, Hn].
Qed.

(** X15. Every point [extract] takes off the score is backed by a message:
    on every result, completed or not, the score is at most 100 and at
    least 100 minus 20 for each issue and each warning.  So a result
    without issue and without warning has the score 100. *)
Theorem score_backed_by_messages now url response r :
  extract URL_hostname now url response = inl r ->
  100 - 20 * noted r <= score r <= 100 /\
  (issues r = [] -> warnings r = [] -> score r = 100).
Proof.
  intros H.
  assert (B : 100 - 20 * noted r <= score r <= 100).
  { destruct (extract_returns_bounded URL_hostname now url response) as (r' & H' & Hb).
    rewrite H in H'. injection H' as <-. split; [|lia].
    destruct response as [doc|message].
    - destruct (URL_hostname url None) as [host|] eqn:E.
      + rewrite (extract_completed URL_hostname now url doc host E) in H.
        injection H as <-.
        destruct (passes_backed doc url host (initial url now)) as (_ & _ & Hn & Hs).
        unfold noted in *. cbn [issues warnings score initial List.length] in *. lia.
      + rewrite (extract_invalid_url URL_hostname now url doc E) in H.
        injection H as <-. cbn. lia.
    - rewrite extract_fetch_failure in H. injection H as <-. cbn. lia. }
  split; [exact B|]. intros Hi Hw. unfold noted in B. rewrite Hi, Hw in B.
  cbn in B. lia.
Qed.

(** X16. On a completed result, [links.internal] is the number of counted
    hrefs that resolve to the host name of the page and [links.external]
    the number of those that resolve to another host name.  When some
    external links carry neither nofollow nor noopener in their rel
    attribute, the warnings hold the message that gives their number, and
    that number is at most [links.external]. *)
Theorem links_internal_external now url doc r :
  extract URL_hostname now url (inl doc) = inl r ->
  status r = "completed" ->
  exists host,
    URL_hostname url None = Some host /\
    links_internal r
    = Z.of_nat (List.length
        (filter (internal_href URL_hostname url host) (Spec.hrefs doc))) /\
    links_external r
    = Z.of_nat (List.length
        (filter (external_href URL_hostname url host) (Spec.hrefs doc))) /\
    let norel :=
      Z.of_nat (List.length
        (filter (fun l => counted_href l
                          && external_href URL_hostname url host (href_or_empty l)
                          && lacks_rel l)
           (anchors doc))) in
    (0 < norel -> In (rel_warning norel) (warnings r)) /\
    norel <= links_external r.
Proof.
  intros H Hs.
  destruct (extract_completed_inv URL_hostname now url doc r H Hs) as (host & Hh & ->).
  exists host. split; [exact Hh|].
  unfold passes.
  set (x := _extractImages doc
              (_extractHeadings doc
                 (_extractCanonical URL_hostname doc
                    (_extractMetaTags doc (_extractTitle doc (initial url now)))))).
  assert (E : links_of x = links_of (initial url now)).
  { unfold x.
    destruct (extractImages_effect doc) as (Hi & _).
    destruct (extractHeadings_plain doc) as (_ & Hd & _).
    destruct (extractCanonical_plain URL_hostname doc) as (_ & Hc & _).
    destruct (extractMetaTags_plain doc) as (_ & Hm & _).
    destruct (extractTitle_plain doc) as (_ & Ht & _).
    now rewrite Hi, Hd, Hc, Hm, Ht. }
  unfold links_of in E. cbn [links_internal links_external links_total initial] in E.
  injection E as Ei Ee _.
  pose proof (extractLinks_split doc url host x) as L. cbv zeta in L.
  destruct L as (Li & Le & _ & _ & _ & Lw & _).
  rewrite Ei in Li. rewrite Ee in Le.
  unfold _analyzeResults.
  cbn [links_internal links_external warnings set_recommendations].
  rewrite Li, Le, Lw. unfold Spec.hrefs. fold (anchors doc).
  rewrite hrefs_counted, !filter_map_length, !filter_filter_length, !Z.add_0_l.
  split; [reflexivity|]. split; [reflexivity|].
  cbv zeta. split.
  - intros Hn. apply in_or_app. right.
    replace (_ >? 0) with true by (symmetry; apply Z.gtb_lt; exact Hn).
    now left.
  - apply inj_le.
    clear. induction (anchors doc) as [|l sel IH]; [apply le_n|].
    cbn [filter].
    destruct (counted_href l && external_href URL_hostname url host (href_or_empty l));
      destruct (lacks_rel l); cbn [andb List.length]; lia.
Qed.

Lemma extractCanonical_named doc : keeps named (_extractCanonical URL_hostname doc).
Proof. unfold _extractCanonical. named_cases. Qed.

Lemma extractLinks_named doc pageUrl host :
  keeps named (_extractLinks URL_hostname doc pageUrl host).
Proof.
  intros r. unfold _extractLinks. cbv zeta.
  pose proof (keeps_fold_pair named (link_step URL_hostname pageUrl host)
                (Dom.select (fun n => Dom.is_tag "a" n && Dom.has_attr "href" n) doc)) as L.
  assert (S : forall r0 c x,
             named (fst (link_step URL_hostname pageUrl host (r0, c) x)) = named r0).
  { intros r0 c x. unfold link_step, named. cases; reflexivity. }
  specialize (L S r 0).
  destruct (fold_left (link_step URL_hostname pageUrl host)
              (Dom.select (fun n => Dom.is_tag "a" n && Dom.has_attr "href" n) doc)
              (r, 0)) as [r1 n].
  cbn [fst] in L. rewrite <- L. unfold named. cases; reflexivity.
Qed.

(** The passes after [_extractMetaTags]. *)
Lemma after_meta_named doc url host :
  keeps named
    (fun r => _analyzeResults
                (_extractLinks URL_hostname doc url host
                   (_extractImages doc
                      (_extractHeadings doc (_extractCanonical URL_hostname doc r))))).
Proof.
  intros r.
  assert (A : keeps named _analyzeResults) by (intros r0; reflexivity).
  now rewrite A, extractLinks_named, extractImages_named, extractHeadings_named,
    extractCanonical_named.
Qed.

Lemma after_meta_backed doc url host :
  backed
    (fun r => _analyzeResults
                (_extractLinks URL_hostname doc url host
                   (_extractImages doc
                      (_extractHeadings doc (_extractCanonical URL_hostname doc r))))).
Proof.
  apply (backed_comp
           (fun r => _extractHeadings doc (_extractCanonical URL_hostname doc r))
           (fun r => _analyzeResults
                       (_extractLinks URL_hostname doc url host (_extractImages doc r))));
    [|apply steady_backed, after_headings_steady].
  unfold _extractHeadings.
  apply (backed_comp
           (fun r => collect_headings doc (_extractCanonical URL_hostname doc r))
           check_headings); [|apply steady_backed, check_headings_steady].
  apply (backed_comp (_extractCanonical URL_hostname doc) (collect_headings doc));
    [apply steady_backed, extractCanonical_steady | apply collect_headings_backed].
Qed.

(** X17. On a completed result, [meta.title] is null when the trimmed text
    of the title elements of the page is empty, and otherwise holds that
    text with its length; [meta.description] is null when the first
    description tag is missing or has an empty content, and otherwise
    holds the trimmed content with its length.  In the two null cases the
    issues hold the message on the missing title, respectively on the
    missing description. *)
Theorem title_and_description_recorded now url doc r :
  extract URL_hostname now url (inl doc) = inl r ->
  status r = "completed" ->
  meta_lookup "title" (meta r)
  = Some (if JS.truthyString (page_title doc)
          then MContent (page_title doc) (JS.length (page_title doc))
          else MNull) /\
  meta_lookup "description" (meta r)
  = Some (match page_description doc with
          | Some d =>
              if JS.truthyString d
              then MContent (JS.trim d) (JS.length (JS.trim d))
              else MNull
          | None => MNull
          end) /\
  (JS.truthyString (page_title doc) = false -> In "Missing page title" (issues r)) /\
  (JS.truthyAttr (page_description doc) = false ->
   In "Missing meta description" (issues r)).
Proof.
  intros H Hs.
  destruct (extract_completed_inv URL_hostname now url doc r H Hs) as (host & _ & ->).
  unfold passes, _extractMetaTags. cbv zeta.
  set (x := meta_description doc (_extractTitle doc (initial url now))).
  set (y := _extractTwitterCardTags doc
              (_extractOpenGraphTags doc
                 (meta_charset doc
                    (meta_viewport doc (meta_robots doc (meta_keywords doc x)))))).
  assert (N : named (_analyzeResults
                       (_extractLinks URL_hostname doc url host
                          (_extractImages doc
                             (_extractHeadings doc
                                (_extractCanonical URL_hostname doc y)))))
              = named x).
  { rewrite (after_meta_named doc url host y). apply after_description_named. }
  assert (I : forall m, In m (issues x) ->
                        In m (issues (_analyzeResults
                                        (_extractLinks URL_hostname doc url host
                                           (_extractImages doc
                                              (_extractHeadings doc
                                                 (_extractCanonical URL_hostname doc y))))))).
  { intros m Hm.
    destruct (after_meta_backed doc url host y) as (Bi & _). apply Bi.
    destruct (after_description_steady doc x) as (_ & Si & _). apply Si, Hm. }
  assert (X : named x
              = (Some (if JS.truthyString (page_title doc)
                       then MContent (page_title doc) (JS.length (page_title doc))
                       else MNull),
                 Some (match page_description doc with
                       | Some d =>
                           if JS.truthyString d
                           then MContent (JS.trim d) (JS.length (JS.trim d))
                           else MNull
                       | None => MNull
                       end)) /\
              (JS.truthyString (page_title doc) = false ->
               In "Missing page title" (issues x)) /\
              (JS.truthyAttr (page_description doc) = false ->
               In "Missing meta description" (issues x))).
  { unfold x, named, meta_description, _extractTitle, page_title, page_description.
    cbv zeta.
    destruct (JS.truthyString
                (JS.trim (Dom.text_of (Dom.select (Dom.is_tag "title") doc)))) eqn:Et;
      destruct (Dom.first_attr (Dom.select (meta_named "description") doc) "content")
        as [d|] eqn:Ed; cbn [JS.truthyAttr JS.orElse negb];
      try destruct (JS.truthyString d) eqn:Etd; cbn [negb];
      cases; rewrite ?meta_lookup_set; cbn [String.eqb Ascii.eqb Bool.eqb];
      (split; [reflexivity|]); split; intros; try discriminate;
      rewrite ?in_app_iff; cbn [In]; tauto. }
  destruct X as (X & Xt & Xd). unfold named in X, N.
  injection X as X1 X2. injection N as N1 N2.
  split; [exact (eq_trans N1 X1)|]. split; [exact (eq_trans N2 X2)|].
  split; intros Hm; apply I; auto.
Qed.

Lemma passes_url doc url host (r : Results) :
  MetaExtractor.url (passes URL_hostname doc url host r) = MetaExtractor.url r.
Proof.
  unfold passes, _extractHeadings.
  destruct (after_headings_steady doc url host
              (check_headings
                 (collect_headings doc
                    (_extractCanonical URL_hostname doc
                       (_extractMetaTags doc (_extractTitle doc r))))))
    as (_ & _ & _ & _ & _ & ->).
  destruct (check_headings_steady
              (collect_headings doc
                 (_extractCanonical URL_hostname doc
                    (_extractMetaTags doc (_extractTitle doc r)))))
    as (_ & _ & _ & _ & _ & ->).
  rewrite collect_headings_effect.
  destruct (before_headings_steady doc r) as (_ & _ & _ & _ & _ & E).
  exact E.
Qed.

Lemma blind_timestamp (f : Results -> Results) (r : Results) :
  blind f -> timestamp (f r) = timestamp r.
Proof.
  intros H. specialize (H (timestamp r) r).
  assert (E : meta_at (timestamp r) r = r) by (destruct r; reflexivity).
  rewrite E in H. rewrite H. reflexivity.
Qed.

(** Every call of [extract] resolves with a result for the URL it was
    given, stamped with the clock reading of the call. *)
Lemma extract_resolves now url response :
  exists r,
    extract URL_hostname now url response = inl r /\
    MetaExtractor.url r = url /\ timestamp r = now.
Proof.
  destruct response as [doc|message].
  - destruct (URL_hostname url None) as [host|] eqn:E.
    + rewrite (extract_completed URL_hostname now url doc host E).
      eexists. split; [reflexivity|]. split.
      * now rewrite passes_url.
      * now rewrite (blind_timestamp _ _ (passes_blind URL_hostname doc url host)).
    + rewrite (extract_invalid_url URL_hostname now url doc E).
      eexists. split; [reflexivity|]. split; reflexivity.
  - rewrite extract_fetch_failure. eexists. split; [reflexivity|]. split; reflexivity.
Qed.

(** *** bulkExtract *)

Lemma bulkExtract_loop_effect (turns : list turn) (done : list Results) :
  exists results,
    bulkExtract_loop URL_hostname turns done = inl (done ++ results) /\
    Forall2 (fun t r =>
               extract URL_hostname (turn_now t) (turn_url t) (turn_response t) = inl r /\
               MetaExtractor.url r = turn_url t /\ timestamp r = turn_now t)
      turns results.
Proof.
  revert done. induction turns as [|t turns IH]; intros done.
  - exists []. cbn. rewrite app_nil_r. split; [reflexivity | constructor].
  - cbn [bulkExtract_loop].
    destruct (extract_resolves (turn_now t) (turn_url t) (turn_response t))
      as (r & E & Hu & Ht).
    rewrite E. destruct (IH (done ++ [r])) as (results & L & F).
    exists (r :: results). rewrite L, <- app_assoc. split; [reflexivity|].
    constructor; [repeat split; assumption | exact F].
Qed.

(** X18. [bulkExtract] always resolves, with one result for each URL, in
    the order of the URLs: the result [extract] gives for that URL, which
    carries the URL and the clock reading of its call.  A URL whose request
    fails does not stop the loop: its result has status error and the
    message of the failure. *)
Theorem bulkExtract_one_result_per_url (turns : list turn) :
  exists results,
    bulkExtract URL_hostname turns = inl results /\
    List.length results = List.length turns /\
    Forall2 (fun t r =>
               extract URL_hostname (turn_now t) (turn_url t) (turn_response t) = inl r /\
               MetaExtractor.url r = turn_url t /\ timestamp r = turn_now t)
      turns results /\
    Forall2 (fun t r =>
               forall message, turn_response t = inr message ->
                               status r = "error" /\ error r = Some message)
      turns results.
Proof.
  destruct (bulkExtract_loop_effect turns []) as (results & L & F).
  exists results. split; [exact L|].
  split; [symmetry; apply (Forall2_length F)|]. split; [exact F|].
  clear L. induction F as [|t r turns results (E & _) F IH]; constructor; [|exact IH].
  intros message Hm. rewrite Hm, extract_fetch_failure in E.
  injection E as <-. split; reflexivity.
Qed.

End WithURL.

(** The page of the test suite: one H1, no H2. *)
(** The selector of [_extractCanonical] compares the rel attribute without
    regard to case: a link under [Canonical] is recorded, without warning
    and without deduction. *)
Lemma extractCanonical_reads_capital_rel :
  let r := _extractCanonical Samples.URL_hostname Cases.capital_canonical
             (initial "https://example.com/" "") in
  meta_lookup "canonical" (meta r) = Some (MString "https://example.com/") /\
  warnings r = [] /\ score r = 100.
Proof. vm_compute. repeat split. Qed.

Lemma headings_collected_witness :
  exists r,
    extract Samples.URL_hostname "" "https://example.com" (inl Samples.test_page) = inl r /\
    status r = "completed" /\
    headings_h1 r = ["Main Heading"] /\ headings_h2 r = [].
Proof.
  set (r := passes Samples.URL_hostname Samples.test_page "https://example.com"
              "example.com" (initial "https://example.com" "")).
  assert (H1 : extract Samples.URL_hostname "" "https://example.com"
                 (inl Samples.test_page) = inl r) by (vm_compute; reflexivity).
  assert (H2 : status r = "completed") by (vm_compute; reflexivity).
  destruct (headings_collected Samples.URL_hostname "" "https://example.com"
              Samples.test_page r H1 H2) as (E1 & E2 & _).
  exists r. split; [exact H1|]. split; [exact H2|].
  split; [rewrite E1 | rewrite E2]; vm_compute; reflexivity.
Defined.

(** The page [Samples.worst_page] has no H1. *)
Lemma h1_checked_witness :
  exists r,
    extract Samples.URL_hostname "" "https://example.com" (inl Samples.worst_page) = inl r /\
    status r = "completed" /\
    List.length (heading_texts "h1" Samples.worst_page) = 0%nat /\
    In "No H1 tag found - add exactly one H1 tag" (issues r).
Proof.
  set (r := passes Samples.URL_hostname Samples.worst_page "https://example.com"
              "example.com" (initial "https://example.com" "")).
  assert (H1 : extract Samples.URL_hostname "" "https://example.com"
                 (inl Samples.worst_page) = inl r) by (vm_compute; reflexivity).
  assert (H2 : status r = "completed") by (vm_compute; reflexivity).
  destruct (h1_checked Samples.URL_hostname "" "https://example.com"
              Samples.worst_page r H1 H2) as (E0 & _).
  exists r. split; [exact H1|]. split; [exact H2|].
  split; [reflexivity | apply E0; reflexivity].
Defined.

(** The same page: ten messages, and the score 9. *)
Lemma score_backed_by_messages_witness :
  exists r,
    extract Samples.URL_hostname "" "https://example.com" (inl Samples.worst_page) = inl r /\
    noted r = 10 /\ score r = 9 /\
    100 - 20 * noted r <= score r <= 100.
Proof.
  set (r := passes Samples.URL_hostname Samples.worst_page "https://example.com"
              "example.com" (initial "https://example.com" "")).
  assert (H1 : extract Samples.URL_hostname "" "https://example.com"
                 (inl Samples.worst_page) = inl r) by (vm_compute; reflexivity).
  destruct (score_backed_by_messages Samples.URL_hostname "" "https://example.com"
              (inl Samples.worst_page) r H1) as (B & _).
  exists r. split; [exact H1|].
  split; [vm_compute; reflexivity|]. split; [vm_compute; reflexivity | exact B].
Defined.

(** The page of the test suite: two internal links, one external link
    without rel attribute. *)
Lemma links_internal_external_witness :
  exists r,
    extract Samples.URL_hostname "" "https://example.com" (inl Samples.test_page) = inl r /\
    status r = "completed" /\
    links_internal r = 2 /\ links_external r = 1 /\
    In (rel_warning 1) (warnings r).
Proof.
  set (r := passes Samples.URL_hostname Samples.test_page "https://example.com"
              "example.com" (initial "https://example.com" "")).
  assert (H1 : extract Samples.URL_hostname "" "https://example.com"
                 (inl Samples.test_page) = inl r) by (vm_compute; reflexivity).
  assert (H2 : status r = "completed") by (vm_compute; reflexivity).
  destruct (links_internal_external Samples.URL_hostname "" "https://example.com"
              Samples.test_page r H1 H2) as (host & Hh & Ei & Ee & Hw & _).
  assert (Eh : host = "example.com") by (vm_compute in Hh; now injection Hh as <-).
  subst host.
  exists r. split; [exact H1|]. split; [exact H2|].
  split; [rewrite Ei; vm_compute; reflexivity|].
  split; [rewrite Ee; vm_compute; reflexivity|].
  apply Hw. vm_compute. reflexivity.
Defined.

(** The page of the test suite: a title of 29 characters, no description. *)
Lemma title_and_description_recorded_witness :
  exists r,
    extract Samples.URL_hostname "" "https://example.com" (inl Samples.test_page) = inl r /\
    status r = "completed" /\
    meta_lookup "title" (meta r) = Some (MContent "Test Page - SEO Audit Toolkit" 29) /\
    meta_lookup "description" (meta r) = Some MNull /\
    In "Missing meta description" (issues r).
Proof.
  set (r := passes Samples.URL_hostname Samples.test_page "https://example.com"
              "example.com" (initial "https://example.com" "")).
  assert (H1 : extract Samples.URL_hostname "" "https://example.com"
                 (inl Samples.test_page) = inl r) by (vm_compute; reflexivity).
  assert (H2 : status r = "completed") by (vm_compute; reflexivity).
  destruct (title_and_description_recorded Samples.URL_hostname "" "https://example.com"
              Samples.test_page r H1 H2) as (Et & Ed & _ & Hd).
  exists r. split; [exact H1|]. split; [exact H2|].
  split; [rewrite Et; vm_compute; reflexivity|].
  split; [rewrite Ed; vm_compute; reflexivity|].
  apply Hd. vm_compute. reflexivity.
Defined.

End MetaLogProps.

(* ===================================================================== *)
(** ** Properties of the toolkit *)
(* ===================================================================== *)

Module ToolkitProps.

Import SEOAuditToolkit AuditReports.

(** *** The [checks] object *)

Lemma check_set_keys (k : string) (v : checkResult) (l : list (string * checkResult)) :
  map fst (check_set k v l)
  = if existsb (String.eqb k) (map fst l) then map fst l else map fst l ++ [k].
Proof.
  induction l as [|[k0 v0] l IH]; [reflexivity|].
  cbn [check_set map fst existsb].
  destruct (String.eqb k k0) eqn:E; cbn [orb map fst].
  - apply String.eqb_eq in E. now subst k0.
  - rewrite IH. destruct (existsb (String.eqb k) (map fst l)); reflexivity.
Qed.

Lemma check_set_sound (P : PageSpeedResult -> Prop) (k : string) (v : checkResult)
  (l : list (string * checkResult)) :
  sound_entry P (k, v) -> Forall (sound_entry P) l ->
  Forall (sound_entry P) (check_set k v l).
Proof.
  intros Hv H. induction H as [|[k0 v0] l H0 H IH]; cbn [check_set].
  - constructor; [exact Hv | constructor].
  - destruct (String.eqb k k0); constructor; assumption.
Qed.

Lemma check_set_NoDup (k : string) (v : checkResult) (l : list (string * checkResult)) :
  NoDup (map fst l) -> NoDup (map fst (check_set k v l)).
Proof.
  intros H. rewrite check_set_keys.
  destruct (existsb (String.eqb k) (map fst l)) eqn:E; [exact H|].
  apply NoDup_app.
  - exact H.
  - constructor; [intros [] | constructor].
  - intros x Hx [<-|[]].
    assert (F : existsb (String.eqb k) (map fst l) = true).
    { apply existsb_exists. exists k. split; [exact Hx | apply String.eqb_refl]. }
    congruence.
Qed.

(** *** _calculateScore *)

Lemma count_checks (entries : list (string * checkResult)) (t n : Z) (i : Issues) :
  fold_left count_check entries (t, n, i)
  = (t + sum_by score_of entries,
     n + Z.of_nat (List.length entries),
     {| critical := critical i + sum_by (fun c => critical (issues_of c)) entries;
        warnings := warnings i + sum_by (fun c => warnings (issues_of c)) entries;
        passed := passed i + sum_by (fun c => passed (issues_of c)) entries |}).
Proof.
  revert t n i. induction entries as [|e entries IH]; intros t n i.
  - cbn. rewrite !Z.add_0_r. destruct i. reflexivity.
  - cbn [fold_left]. unfold count_check at 2. rewrite IH.
    cbn [sum_by fold_right List.length critical warnings passed].
    fold (sum_by score_of entries).
    fold (sum_by (fun c => critical (issues_of c)) entries).
    fold (sum_by (fun c => warnings (issues_of c)) entries).
    fold (sum_by (fun c => passed (issues_of c)) entries).
    rewrite Nat2Z.inj_succ. f_equal; [f_equal; lia|]. f_equal; lia.
Qed.

Lemma calculateScore_effect (r : Results) :
  _calculateScore r
  = set_score
      (if Z.of_nat (List.length (checks r)) >? 0
       then Math_round_div (sum_by score_of (checks r)) (Z.of_nat (List.length (checks r)))
       else 0)
      (set_issues
         {| critical := critical (issues r)
                        + sum_by (fun c => critical (issues_of c)) (checks r);
            warnings := warnings (issues r)
                        + sum_by (fun c => warnings (issues_of c)) (checks r);
            passed := passed (issues r)
                      + sum_by (fun c => passed (issues_of c)) (checks r) |}
         r).
Proof. unfold _calculateScore. rewrite count_checks. reflexivity. Qed.



Section WithPlatform.

Variable JSON_parse : string -> Json.value + string.
Variable Date_accepts : Json.value -> bool.
Variable URL_hostname : string -> option string -> option string.
Variable ora : Packages.binding.

(** *** The loop over the checks *)

Lemma set_check_kept P url now k v (r : Results) :
  sound_entry P (k, v) -> kept P url now r -> kept P url now (set_check k v r).
Proof.
  intros Hv (Hs & Hn & Hrest). unfold kept, set_check. cbn.
  split; [now apply check_set_sound|]. split; [now apply check_set_NoDup|].
  exact Hrest.
Qed.

Lemma raises_cons (check : string) (rest : list string) :
  raises ora (check :: rest) = raises ora [check] || raises ora rest.
Proof. unfold raises. destruct ora; cbn; [reflexivity|]. now rewrite orb_false_r. Qed.

(** A check stores a sound entry, or it is the page-speed check and the
    call of [ora] raises before anything is stored. *)
Lemma run_check_kept P (w : world) url now (i : nat) (check : string) (r : Results) :
  (forall j, P (pageSpeed_analyze w j)) -> kept P url now r ->
  exists r',
    run_check JSON_parse Date_accepts URL_hostname ora w url i check r
    = (if raises ora [check] then inr ora_message else inl tt, r') /\
    kept P url now r' /\
    (raises ora [check] = true -> r' = r) /\
    (existsb (String.eqb check) defaultChecks = false -> r' = r).
Proof.
  intros Hw Hk. unfold run_check, analyze, raises. cbn [existsb defaultChecks].
  destruct (String.eqb check "pageSpeed") eqn:E1.
  { destruct ora; cbn [Packages.ora_start orb].
    - eexists. split; [reflexivity|]. split; [|split; discriminate].
      apply set_check_kept; [|exact Hk]. split; [cbn; auto | apply Hw].
    - exists r. split; [reflexivity|]. split; [exact Hk|]. split; reflexivity. }
  assert (N : (if match ora with
                   | Packages.Callable => false
                   | Packages.Namespace => false || false
                   end then @inr unit string ora_message else inl tt) = inl tt)
    by (destruct ora; reflexivity).
  assert (F : match ora with
              | Packages.Callable => false
              | Packages.Namespace => false || false
              end = false) by (destruct ora; reflexivity).
  rewrite N, F.
  destruct (String.eqb check "meta") eqn:E2.
  { destruct (MetaProps.extract_returns_bounded URL_hostname (clock w i) url (fetch w i))
      as (m & -> & Hm).
    eexists. split; [reflexivity|]. split; [|split; discriminate].
    apply set_check_kept; [|exact Hk]. split; [cbn; auto | cbn; lia]. }
  destruct (String.eqb check "structuredData") eqn:E3.
  { destruct (ParserProps.parse_result_bare Date_accepts JSON_parse (clock w i) url (fetch w i))
      as (sd & -> & (_ & _ & _ & _ & Hsd)).
    eexists. split; [reflexivity|]. split; [|split; discriminate].
    apply set_check_kept; [|exact Hk]. split; [cbn; auto | exact Hsd]. }
  exists r. split; [reflexivity|]. split; [exact Hk|]. split; [discriminate | reflexivity].
Qed.

Lemma run_checks_kept P (w : world) url now (checksToRun : list string) (i : nat)
  (r : Results) :
  (forall j, P (pageSpeed_analyze w j)) -> kept P url now r ->
  exists r',
    run_checks JSON_parse Date_accepts URL_hostname ora w url i checksToRun r
    = (if raises ora checksToRun then inr ora_message else inl tt, r') /\
    kept P url now r' /\
    (unknown_names checksToRun = true -> r' = r).
Proof.
  intros Hw. revert i r. induction checksToRun as [|check rest IH]; intros i r Hk.
  - exists r. split; [destruct ora; reflexivity|]. split; [exact Hk | reflexivity].
  - cbn [run_checks]. unfold unknown_names. cbn [forallb]. rewrite raises_cons.
    destruct (run_check_kept P w url now i check r Hw Hk) as (r1 & E1 & K1 & R1 & U1).
    unfold bind. rewrite E1.
    destruct (raises ora [check]) eqn:Er; cbn [orb].
    + exists r1. split; [reflexivity|]. split; [exact K1|].
      intros H. apply andb_prop in H. destruct H as (Hc & _).
      apply negb_true_iff in Hc. apply U1, Hc.
    + destruct (IH (S i) r1 K1) as (r2 & E2 & K2 & U2).
      exists r2. split; [exact E2|]. split; [exact K2|].
      intros H. apply andb_prop in H. destruct H as (Hc & Hr).
      apply negb_true_iff in Hc. rewrite (U2 Hr). apply U1, Hc.
Qed.


(** [audit] resolves, for the URL it was given; its error field tells
    whether the call of [ora] raised. *)
Lemma audit_resolves (w : world) (now url : string) (checks : option (list string)) :
  exists r,
    audit JSON_parse Date_accepts URL_hostname ora w now url checks = inl r /\
    SEOAuditToolkit.url r = url /\
    error r
    = if raises ora (match checks with Some l => l | None => defaultChecks end)
      then Some ora_message else None.
Proof.
  unfold audit. cbv zeta.
  assert (K0 : kept (fun _ => True) url now (initial url now)).
  { unfold kept, initial. cbn. repeat split; constructor. }
  destruct (run_checks_kept (fun _ => True) w url now
              (match checks with Some l => l | None => defaultChecks end) 0
              (initial url now) (fun _ => I) K0)
    as (r1 & E & (_ & _ & Hu & _ & _ & _ & He & _) & _).
  unfold bind, try_catch, modify, get_state. rewrite E.
  destruct (raises ora (match checks with Some l => l | None => defaultChecks end));
    cbn [fst].
  - eexists. split; [reflexivity|]. split; [exact Hu | reflexivity].
  - eexists. split; [reflexivity|]. rewrite calculateScore_effect.
    split; [exact Hu | exact He].
Qed.


(** X20. With the default checks, what [audit] resolves to depends on the
    binding of [ora], because [pageSpeed] is the first check.  When [ora]
    is callable, the result holds the results of the three analysers under
    [pageSpeed], [meta] and [structuredData], in that order; its score is
    [Math.round] of the third of the sum of their three scores; its issue
    counters are those of the page-speed result plus those of the
    structured-data result (the issues and the warnings of the meta
    result, which are arrays, are not counted).  When [ora] is the
    namespace object of an ES module, the first check raises before
    anything is stored: [checks] stays empty, the two other analysers are
    not run, the score and the counters stay 0, and the result carries the
    message and the status [error]. *)
Theorem audit_default_checks (w : world) (now url : string) :
  exists m sd r,
    MetaExtractor.extract URL_hostname (clock w 1) url (fetch w 1) = inl m /\
    StructuredDataParser.parse JSON_parse Date_accepts (clock w 2) url (fetch w 2)
    = inl sd /\
    audit JSON_parse Date_accepts URL_hostname ora w now url None = inl r /\
    match ora with
    | Packages.Callable =>
        SEOAuditToolkit.checks r
        = [("pageSpeed", OfPageSpeed (pageSpeed_analyze w 0)); ("meta", OfMeta m);
           ("structuredData", OfStructuredData sd)] /\
        score r
        = Math_round_div
            (pageSpeed_score (pageSpeed_analyze w 0) + MetaExtractor.score m
             + StructuredDataParser.score sd) 3 /\
        critical (issues r)
        = PageSpeedAnalyzer.critical (pageSpeed_issues (pageSpeed_analyze w 0))
          + StructuredDataParser.issues_critical sd /\
        warnings (issues r)
        = PageSpeedAnalyzer.warnings (pageSpeed_issues (pageSpeed_analyze w 0))
          + StructuredDataParser.issues_warnings sd /\
        passed (issues r)
        = PageSpeedAnalyzer.passed (pageSpeed_issues (pageSpeed_analyze w 0))
          + StructuredDataParser.issues_passed sd /\
        error r = None /\ status r = None
    | Packages.Namespace =>
        SEOAuditToolkit.checks r = [] /\ score r = 0 /\
        issues r = {| critical := 0; warnings := 0; passed := 0 |} /\
        error r = Some "ora is not a function" /\ status r = Some "error"
    end.
Proof.
  destruct (MetaProps.extract_returns_bounded URL_hostname (clock w 1) url (fetch w 1))
    as (m & Em & _).
  destruct (ParserProps.parse_result_bare Date_accepts JSON_parse (clock w 2) url (fetch w 2))
    as (sd & Esd & _).
  exists m, sd.
  unfold audit, defaultChecks. cbv zeta. cbn [run_checks].
  unfold run_check, analyze. cbn [String.eqb Ascii.eqb Bool.eqb].
  destruct ora; cbn [Packages.ora_start].
  - eexists. split; [exact Em|]. split; [exact Esd|].
    rewrite Em, Esd.
    unfold bind, try_catch, modify, get_state, ret. cbn [fst].
    split; [reflexivity|]. cbn. repeat split; lia.
  - eexists. split; [exact Em|]. split; [exact Esd|].
    unfold bind, try_catch, modify, get_state, throw. cbn [fst].
    split; [reflexivity|]. cbn. repeat split.
Qed.

(** X21. When nothing answers (the PageSpeed request and every request for
    the page are rejected), [audit] still resolves, with every issue
    counter at 0.  With the default checks and a callable [ora] its score
    is 67, without error and without status: the two results that failed
    to fetch the page keep their initial score 100.  With the default
    checks and [ora] the namespace object of an ES module, the score is 0
    and the result carries the message of the call and the status
    [error].  With the checks [meta] and [structuredData] alone the score
    is 100 and there is no error, whatever the binding. *)
Theorem audit_of_unreachable_site (w : world) (now url : string) :
  unreachable w ->
  exists r r',
    audit JSON_parse Date_accepts URL_hostname ora w now url None = inl r /\
    issues r = {| critical := 0; warnings := 0; passed := 0 |} /\
    match ora with
    | Packages.Callable => score r = 67 /\ error r = None /\ status r = None
    | Packages.Namespace =>
        score r = 0 /\ error r = Some "ora is not a function" /\
        status r = Some "error"
    end /\
    audit JSON_parse Date_accepts URL_hostname ora w now url
      (Some ["meta"; "structuredData"]) = inl r' /\
    score r' = 100 /\ error r' = None /\ status r' = None.
Proof.
  intros (Hp & Hf).
  destruct (Hf 0%nat) as (m0 & F0). destruct (Hf 1%nat) as (m1 & F1).
  destruct (Hf 2%nat) as (m2 & F2).
  unfold audit, defaultChecks. cbv zeta. cbn [run_checks].
  unfold run_check, analyze. cbn [String.eqb Ascii.eqb Bool.eqb].
  rewrite (Hp 0%nat), F0, F1, F2.
  destruct ora; cbn [Packages.ora_start].
  - eexists. eexists. split; [reflexivity|].
    split; [reflexivity|]. split; [repeat split|].
    split; [reflexivity|]. repeat split.
  - eexists. eexists. split; [reflexivity|].
    split; [reflexivity|]. split; [repeat split|].
    split; [reflexivity|]. repeat split.
Qed.

(** *** bulkAnalyze *)

Lemma bulkAnalyze_effect (turns : list turn) (checks : option (list string))
  (done : list bulkResult) :
  exists results,
    fold_left
      (fun results t =>
         match audit JSON_parse Date_accepts URL_hostname ora
                 (turn_world t) (turn_now t) (turn_url t) checks with
         | inl result => results ++ [Audited result]
         | inr message => results ++ [Rejected (turn_url t) message]
         end)
      turns done
    = done ++ map Audited results /\
    Forall2 (fun t r =>
               audit JSON_parse Date_accepts URL_hostname ora
                 (turn_world t) (turn_now t) (turn_url t) checks = inl r /\
               SEOAuditToolkit.url r = turn_url t /\
               error r
               = if raises ora (match checks with Some l => l | None => defaultChecks end)
                 then Some ora_message else None)
      turns results.
Proof.
  revert done. induction turns as [|t turns IH]; intros done.
  - exists []. cbn. rewrite app_nil_r. split; [reflexivity | constructor].
  - cbn [fold_left].
    destruct (audit_resolves (turn_world t) (turn_now t) (turn_url t) checks)
      as (r & E & Hu & He).
    rewrite E. destruct (IH (done ++ [Audited r])) as (results & L & F).
    exists (r :: results). rewrite L, <- app_assoc. split; [reflexivity|].
    constructor; [repeat split; assumption | exact F].
Qed.

(** X22. [bulkAnalyze] returns one element for each URL, in the order of
    the URLs, and each is the result of [audit] for that URL: the handler
    of its loop, which would store an error object of its own, is never
    taken, because [audit] catches what its checks raise.  Every one of
    the results carries the message of the call of [ora] when [pageSpeed]
    is among the checks and [ora] is not callable, and none has an error
    field otherwise. *)
Theorem bulkAnalyze_one_audit_per_url (turns : list turn)
  (checks : option (list string)) :
  exists results,
    bulkAnalyze JSON_parse Date_accepts URL_hostname ora turns checks
    = map Audited results /\
    List.length results = List.length turns /\
    Forall2 (fun t r =>
               audit JSON_parse Date_accepts URL_hostname ora
                 (turn_world t) (turn_now t) (turn_url t) checks = inl r /\
               SEOAuditToolkit.url r = turn_url t /\
               error r
               = if raises ora (match checks with Some l => l | None => defaultChecks end)
                 then Some ora_message else None)
      turns results.
Proof.
  destruct (bulkAnalyze_effect turns checks []) as (results & L & F).
  exists results. split; [exact L|].
  split; [symmetry; apply (Forall2_length F) | exact F].
Qed.

End WithPlatform.


Lemma dead_world_unreachable : unreachable Cases.dead_world.
Proof. split; intros i; [reflexivity | eexists; reflexivity]. Defined.


Lemma audit_of_unreachable_site_witness :
  unreachable Cases.dead_world /\
  exists r,
    audit Samples.JSON_parse Samples.Date_accepts Samples.URL_hostname Packages.pinned
      Cases.dead_world "" "https://example.com" None = inl r /\
    score r = 0 /\
    issues r = {| critical := 0; warnings := 0; passed := 0 |} /\
    error r = Some "ora is not a function" /\ status r = Some "error".
Proof.
  split; [exact dead_world_unreachable|].
  destruct (audit_of_unreachable_site Samples.JSON_parse Samples.Date_accepts
              Samples.URL_hostname Packages.pinned Cases.dead_world ""
              "https://example.com" dead_world_unreachable)
    as (r & r' & E & Hi & (Hs & He & Hst) & _).
  exists r. repeat split; assumption.
Defined.

(** *** The issue counters of the page-speed analyser *)

(** One metric moves exactly one counter by one. *)
Lemma count_status_effect (i : PageSpeedAnalyzer.Issues) (status : string) :
  let i' := PageSpeedAnalyzer.count_status i status in
  PageSpeedAnalyzer.critical i'
  = PageSpeedAnalyzer.critical i + (if String.eqb "poor" status then 1 else 0) /\
  PageSpeedAnalyzer.critical i' + PageSpeedAnalyzer.warnings i'
  + PageSpeedAnalyzer.passed i'
  = PageSpeedAnalyzer.critical i + PageSpeedAnalyzer.warnings i
    + PageSpeedAnalyzer.passed i + 1 /\
  PageSpeedAnalyzer.passed i <= PageSpeedAnalyzer.passed i'
  <= PageSpeedAnalyzer.passed i + 1 /\
  PageSpeedAnalyzer.warnings i <= PageSpeedAnalyzer.warnings i'.
Proof.
  cbv zeta. unfold PageSpeedAnalyzer.count_status.
  rewrite (String.eqb_sym "poor" status).
  destruct (String.eqb status "poor");
    [|destruct (String.eqb status "needs-improvement")];
    cbn [PageSpeedAnalyzer.critical PageSpeedAnalyzer.warnings PageSpeedAnalyzer.passed];
    lia.
Qed.

(** X23. [_countIssues] puts each of the three Core Web Vitals in exactly
    one counter and every opportunity and every diagnostic in the warning
    counter: the critical counter grows by the number of vitals whose
    status is poor, the three counters together grow by 3 plus the number
    of opportunities plus the number of diagnostics, and the passed
    counter grows by 3 at most. *)
Theorem countIssues_total (Opportunity Diagnostic : Type)
  (results : PageSpeedAnalyzer.Results Opportunity Diagnostic) :
  let before := PageSpeedAnalyzer.issues results in
  let after := PageSpeedAnalyzer.issues (PageSpeedAnalyzer._countIssues results) in
  let poor :=
    Z.of_nat (List.length
      (filter (String.eqb "poor")
         [PageSpeedAnalyzer.metrics_lcp_status results;
          PageSpeedAnalyzer.metrics_fid_status results;
          PageSpeedAnalyzer.metrics_cls_status results])) in
  PageSpeedAnalyzer.critical after = PageSpeedAnalyzer.critical before + poor /\
  PageSpeedAnalyzer.critical after + PageSpeedAnalyzer.warnings after
  + PageSpeedAnalyzer.passed after
  = PageSpeedAnalyzer.critical before + PageSpeedAnalyzer.warnings before
    + PageSpeedAnalyzer.passed before + 3
    + Z.of_nat (List.length (PageSpeedAnalyzer.opportunities results))
    + Z.of_nat (List.length (PageSpeedAnalyzer.diagnostics results)) /\
  PageSpeedAnalyzer.passed before <= PageSpeedAnalyzer.passed after
  <= PageSpeedAnalyzer.passed before + 3 /\
  PageSpeedAnalyzer.warnings before
  + Z.of_nat (List.length (PageSpeedAnalyzer.opportunities results))
  + Z.of_nat (List.length (PageSpeedAnalyzer.diagnostics results))
  <= PageSpeedAnalyzer.warnings after.
Proof.
  cbv zeta. unfold PageSpeedAnalyzer._countIssues, PageSpeedAnalyzer.add_warnings.
  cbn [PageSpeedAnalyzer.issues fold_left
       PageSpeedAnalyzer.critical PageSpeedAnalyzer.warnings PageSpeedAnalyzer.passed].
  generalize (PageSpeedAnalyzer.issues results) as i0. intros i0.
  pose proof (count_status_effect i0 (PageSpeedAnalyzer.metrics_lcp_status results)) as H1.
  set (i1 := PageSpeedAnalyzer.count_status i0
               (PageSpeedAnalyzer.metrics_lcp_status results)) in *.
  pose proof (count_status_effect i1 (PageSpeedAnalyzer.metrics_fid_status results)) as H2.
  set (i2 := PageSpeedAnalyzer.count_status i1
               (PageSpeedAnalyzer.metrics_fid_status results)) in *.
  pose proof (count_status_effect i2 (PageSpeedAnalyzer.metrics_cls_status results)) as H3.
  set (i3 := PageSpeedAnalyzer.count_status i2
               (PageSpeedAnalyzer.metrics_cls_status results)) in *.
  cbv zeta in H1, H2, H3. clearbody i1 i2 i3. cbn [filter].
  destruct (String.eqb "poor" (PageSpeedAnalyzer.metrics_lcp_status results));
    destruct (String.eqb "poor" (PageSpeedAnalyzer.metrics_fid_status results));
    destruct (String.eqb "poor" (PageSpeedAnalyzer.metrics_cls_status results));
    cbn [List.length]; lia.
Qed.

End ToolkitProps.

(* ===================================================================== *)
(** ** Properties of the crawl *)
(* ===================================================================== *)

Module ScanProps.

Import FullSiteScan ScanReports.

Section Crawl.

Variable AuditResult : Type.
Variable maxPages : Z.
Variables chalk ora : Packages.binding.
Variable URL_accepts : string -> bool.
Variable audit : string -> AuditResult + string.
Variable internal_links : string -> list string.

Lemma has_In (l : list string) (u : string) : has l u = true <-> In u l.
Proof.
  unfold has. rewrite existsb_exists. split.
  - intros (x & Hx & E). apply String.eqb_eq in E. now subst x.
  - intros H. exists u. split; [exact H | apply String.eqb_refl].
Qed.

Lemma enqueue_all (visited : list string) (links queue : list string) :
  let queue' := fold_left (enqueue maxPages visited) links queue in
  Z.of_nat (List.length queue')
  <= Z.max (Z.of_nat (List.length queue)) (maxPages - Z.of_nat (List.length visited)) /\
  (List.length queue <= List.length queue')%nat /\
  forall u, In u queue' -> In u queue \/ In u links.
Proof.
  revert queue. induction links as [|l links IH]; intros queue; cbn [fold_left].
  - cbv zeta. split; [lia|]. split; [lia | auto].
  - destruct (IH (enqueue maxPages visited queue l)) as (Hn & Hm & Hi).
    cbv zeta. unfold enqueue in *.
    destruct (negb (has visited l) && negb (has queue l)
              && (Z.of_nat (List.length visited) + Z.of_nat (List.length queue)
                  <? maxPages)) eqn:E.
    + apply andb_prop in E. destruct E as (_ & E). apply Z.ltb_lt in E.
      rewrite length_app in Hn, Hm. cbn [List.length] in Hn, Hm.
      split; [lia|]. split; [lia|].
      intros u Hu. destruct (Hi u Hu) as [H|H].
      * apply in_app_or in H. destruct H as [H|[<-|[]]]; [now left | right; now left].
      * right. now right.
    + split; [lia|]. split; [lia|].
      intros u Hu. destruct (Hi u Hu) as [H|H]; [now left | right; now right].
Qed.

(** Taking a URL off the queue keeps the invariant and uses up budget. *)
Lemma shift_effect (baseUrl url : string) (rest : list string) (s : state AuditResult) :
  crawled maxPages internal_links baseUrl s ->
  urlsToVisit s = url :: rest ->
  Z.of_nat (List.length (visitedUrls s)) < maxPages ->
  let s0 := {| visitedUrls := visitedUrls s; urlsToVisit := rest; results := results s |} in
  crawled maxPages internal_links baseUrl s0 /\
  0 <= budget maxPages s0 < budget maxPages s.
Proof.
  intros (Hv & Hr & Hn & Hreach) Eq Ev. cbv zeta.
  unfold crawled, budget. rewrite Eq. cbn [visitedUrls urlsToVisit results].
  split.
  - repeat split; try assumption.
    intros u Hu. apply Hreach. rewrite Eq.
    destruct Hu as [Hu|Hu]; [now left|]. right. now right.
  - cbn [List.length]. nia.
Qed.

(** The [try] statement of [scanPage] and the visit that follows it keep
    the invariant and use up budget. *)
Lemma visit_effect (baseUrl url : string) (rest : list string) (s : state AuditResult) :
  crawled maxPages internal_links baseUrl s ->
  urlsToVisit s = url :: rest ->
  Z.of_nat (List.length (visitedUrls s)) < maxPages ->
  has (visitedUrls s) url = false ->
  let s0 := {| visitedUrls := visitedUrls s; urlsToVisit := rest; results := results s |} in
  let s1 := add_visited url (scanPage_try maxPages audit internal_links url s0) in
  crawled maxPages internal_links baseUrl s1 /\
  0 <= budget maxPages s1 < budget maxPages s.
Proof.
  intros (Hv & Hr & Hn & Hreach) Eq Ev Eh. cbv zeta.
  rewrite Eq in Hreach.
  assert (Hnew : ~ In url (visitedUrls s)).
  { intros Hin. apply has_In in Hin. congruence. }
  unfold add_visited, scanPage_try.
  pose proof (enqueue_all (visitedUrls s) (internal_links url) rest) as L.
  cbv zeta in L. destruct L as (Ln & _ & Li).
  unfold crawled, budget. rewrite Eq.
  destruct (audit url) as [auditResult|message]; cbv zeta;
    cbn [visitedUrls urlsToVisit results extractLinks];
    rewrite ?length_app; cbn [List.length].
  - split.
    + split; [lia|]. split; [lia|]. split.
      * apply NoDup_app; [exact Hn | constructor; [intros [] | constructor] |].
        intros x Hx [<-|[]]. contradiction.
      * intros u Hu.
        assert (C : In u (visitedUrls s) \/ u = url \/ In u rest
                    \/ In u (internal_links url)).
        { destruct Hu as [Hu|Hu].
          - apply in_app_or in Hu. destruct Hu as [Hu|[<-|[]]]; auto.
          - destruct (Li u Hu); auto. }
        destruct C as [C|[C|[C|C]]].
        -- destruct (Hreach u (or_introl C)) as [->|(p & Hp & Hl)]; [now left|].
           right. exists p. split; [apply in_or_app; now left | exact Hl].
        -- subst u.
           destruct (Hreach url (or_intror (or_introl eq_refl)))
             as [->|(p & Hp & Hl)]; [now left|].
           right. exists p. split; [apply in_or_app; now left | exact Hl].
        -- destruct (Hreach u (or_intror (or_intror C))) as [->|(p & Hp & Hl)];
             [now left|].
           right. exists p. split; [apply in_or_app; now left | exact Hl].
        -- right. exists url. split; [apply in_or_app; right; now left | exact C].
    + nia.
  - split.
    + split; [lia|]. split; [lia|]. split.
      * apply NoDup_app; [exact Hn | constructor; [intros [] | constructor] |].
        intros x Hx [<-|[]]. contradiction.
      * intros u Hu.
        assert (C : In u (visitedUrls s) \/ u = url \/ In u rest).
        { destruct Hu as [Hu|Hu]; [|auto].
          apply in_app_or in Hu. destruct Hu as [Hu|[<-|[]]]; auto. }
        destruct C as [C|[C|C]].
        -- destruct (Hreach u (or_introl C)) as [->|(p & Hp & Hl)]; [now left|].
           right. exists p. split; [apply in_or_app; now left | exact Hl].
        -- subst u.
           destruct (Hreach url (or_intror (or_introl eq_refl)))
             as [->|(p & Hp & Hl)]; [now left|].
           right. exists p. split; [apply in_or_app; now left | exact Hl].
        -- destruct (Hreach u (or_intror (or_intror C))) as [->|(p & Hp & Hl)];
             [now left|].
           right. exists p. split; [apply in_or_app; now left | exact Hl].
    + nia.
Qed.

(** A turn keeps the invariant and uses up budget, whether it returns or
    raises; it can only raise when [ora] is not callable. *)
Lemma turn_effect (baseUrl : string) (s s' : state AuditResult) (out : unit + string) :
  crawled maxPages internal_links baseUrl s ->
  FullSiteScan.turn maxPages ora audit internal_links s = Some (out, s') ->
  crawled maxPages internal_links baseUrl s' /\
  0 <= budget maxPages s' < budget maxPages s /\
  (ora = Packages.Callable -> out = inl tt).
Proof.
  intros Hs H. unfold FullSiteScan.turn in H.
  destruct (urlsToVisit s) as [|url rest] eqn:Eq; [discriminate|].
  destruct (Z.of_nat (List.length (visitedUrls s)) <? maxPages) eqn:Ev; [|discriminate].
  apply Z.ltb_lt in Ev. cbv zeta in H. cbn [visitedUrls urlsToVisit results] in H.
  pose proof (shift_effect baseUrl url rest s Hs Eq Ev) as Sh. cbv zeta in Sh.
  destruct (has (visitedUrls s) url) eqn:Eh; cbn [negb] in H.
  - (* already visited: skipped *)
    injection H as <- <-. split; [apply Sh|]. split; [apply Sh | reflexivity].
  - unfold scanPage, bind, modify, throw in H.
    destruct ora; cbn [Packages.ora_start] in H; injection H as <- <-.
    + (* scanned *)
      pose proof (visit_effect baseUrl url rest s Hs Eq Ev Eh) as V. cbv zeta in V.
      split; [apply V|]. split; [apply V | reflexivity].
    + (* the spinner does not start *)
      split; [apply Sh|]. split; [apply Sh | discriminate].
Qed.

(** With fuel for the budget, the loop comes to its end. *)
Lemma crawl_ends (baseUrl : string) (fuel : nat) (s : state AuditResult) :
  crawled maxPages internal_links baseUrl s -> budget maxPages s <= Z.of_nat fuel ->
  exists out s',
    FullSiteScan.crawl maxPages ora audit internal_links fuel s = Some (out, s') /\
    crawled maxPages internal_links baseUrl s' /\
    (out = inl tt -> FullSiteScan.turn maxPages ora audit internal_links s' = None) /\
    (ora = Packages.Callable -> out = inl tt).
Proof.
  revert s. induction fuel as [|fuel IH]; intros s Hs Hb; cbn [FullSiteScan.crawl].
  - destruct (FullSiteScan.turn maxPages ora audit internal_links s)
      as [[[[]|message] s1]|] eqn:E.
    + destruct (turn_effect baseUrl s s1 _ Hs E) as (_ & Hd & _). lia.
    + destruct (turn_effect baseUrl s s1 _ Hs E) as (Hs1 & _ & Ho).
      exists (inr message), s1. split; [reflexivity|]. split; [exact Hs1|].
      split; [discriminate | exact Ho].
    + exists (inl tt), s. split; [reflexivity|]. split; [exact Hs|].
      split; [intros _; exact E | reflexivity].
  - destruct (FullSiteScan.turn maxPages ora audit internal_links s)
      as [[[[]|message] s1]|] eqn:E.
    + destruct (turn_effect baseUrl s s1 _ Hs E) as (Hs1 & Hd & _).
      apply IH; [exact Hs1 | lia].
    + destruct (turn_effect baseUrl s s1 _ Hs E) as (Hs1 & _ & Ho).
      exists (inr message), s1. split; [reflexivity|]. split; [exact Hs1|].
      split; [discriminate | exact Ho].
    + exists (inl tt), s. split; [reflexivity|]. split; [exact Hs|].
      split; [intros _; exact E | reflexivity].
Qed.

Lemma crawl_more_fuel (fuel extra : nat) (s : state AuditResult)
  (x : (unit + string) * state AuditResult) :
  FullSiteScan.crawl maxPages ora audit internal_links fuel s = Some x ->
  FullSiteScan.crawl maxPages ora audit internal_links (fuel + extra) s = Some x.
Proof.
  revert s.
  induction fuel as [|fuel IH]; intros s H; cbn [FullSiteScan.crawl plus] in *.
  - destruct (FullSiteScan.turn maxPages ora audit internal_links s)
      as [[[[]|message] s1]|] eqn:E; [discriminate | |].
    + destruct extra; cbn [FullSiteScan.crawl]; rewrite E; exact H.
    + destruct extra; cbn [FullSiteScan.crawl]; rewrite E; exact H.
  - destruct (FullSiteScan.turn maxPages ora audit internal_links s)
      as [[[[]|message] s1]|]; [now apply IH | exact H | exact H].
Qed.

(** The state in which the loop of [scan] starts on a fresh instance. *)
Lemma start_crawled (baseUrl : string) :
  crawled maxPages internal_links baseUrl
    {| visitedUrls := []; urlsToVisit := [baseUrl]; results := @nil AuditResult |}.
Proof.
  unfold crawled. cbn. split; [lia|]. split; [lia|].
  split; [constructor|]. intros u [[]|[<-|[]]]. now left.
Qed.

(** X24. [scan] on a fresh instance, followed up to its call of
    [generateReport], comes to an end: with fuel for
    maxPages * (maxPages + 1) + 1 turns or more it ends in one and the same
    way and state.  In that state at most [maxPages] URLs are visited (none
    when [maxPages] is not positive), none twice; there are no more audit
    results than visited URLs; and every visited URL is the base URL or an
    internal link found on a visited page.  How it ends depends on the
    bindings of [chalk] and [ora].  When [chalk] is the namespace object of
    an ES module, the banner raises before the [try] statement: the
    promise rejects and the instance is untouched.  Otherwise a base URL
    that the URL constructor refuses ends in the handler, the instance
    untouched.  Otherwise, when [ora] is callable, the loop runs until its
    condition fails; when [ora] is the namespace object, the first page
    raises in [scanPage] and the handler exits (the loop is not entered
    when [maxPages] is not positive), with no URL visited and no result
    stored. *)
Theorem scan_stops_within_maxPages (baseUrl : string) :
  let enough := Z.to_nat (Z.max 0 maxPages * (Z.max 0 maxPages + 1) + 1) in
  exists e s,
    (forall fuel,
       (enough <= fuel)%nat ->
       FullSiteScan.scan maxPages chalk ora URL_accepts audit internal_links
         fuel baseUrl fresh = Some (e, s)) /\
    Z.of_nat (List.length (visitedUrls s)) <= Z.max 0 maxPages /\
    (List.length (results s) <= List.length (visitedUrls s))%nat /\
    NoDup (visitedUrls s) /\
    (forall u, In u (visitedUrls s) ->
               u = baseUrl \/ exists p, In p (visitedUrls s) /\ In u (internal_links p)) /\
    match chalk with
    | Packages.Namespace =>
        e = Raised "Cannot read properties of undefined (reading 'blue')" /\ s = fresh
    | Packages.Callable =>
        if URL_accepts baseUrl then
          match ora with
          | Packages.Callable =>
              e = Crawled /\
              FullSiteScan.turn maxPages ora audit internal_links s = None
          | Packages.Namespace =>
              e = (if 0 <? maxPages then Exited else Crawled) /\
              visitedUrls s = [] /\ results s = []
          end
        else e = Exited /\ s = fresh
    end.
Proof.
  intros enough.
  assert (F : forall e : ending, exists (e' : ending) (s : state AuditResult),
             (forall fuel : nat, (enough <= fuel)%nat -> Some (e, @fresh AuditResult) = Some (e', s)) /\
             Z.of_nat (List.length (visitedUrls s)) <= Z.max 0 maxPages /\
             (List.length (results s) <= List.length (visitedUrls s))%nat /\
             NoDup (visitedUrls s) /\
             (forall u, In u (visitedUrls s) ->
                        u = baseUrl
                        \/ exists p, In p (visitedUrls s) /\ In u (internal_links p)) /\
             e' = e /\ s = fresh).
  { intros e. exists e, fresh. split; [reflexivity|]. cbn.
    split; [lia|]. split; [lia|]. split; [constructor|].
    split; [intros u []|]. split; reflexivity. }
  unfold FullSiteScan.scan, scan_handler.
  destruct chalk; cbn [Packages.chalk_bold_blue Packages.chalk_red].
  2:{ destruct (F (Raised "Cannot read properties of undefined (reading 'blue')"))
        as (e & s & H1 & H2 & H3 & H4 & H5 & H6 & H7).
      exists e, s. repeat (split; [assumption|]). assumption. }
  destruct (URL_accepts baseUrl).
  2:{ destruct (F Exited) as (e & s & H1 & H2 & H3 & H4 & H5 & H6 & H7).
      exists e, s. repeat (split; [assumption|]). assumption. }
  cbv zeta. cbn [fresh visitedUrls urlsToVisit results app].
  pose proof (start_crawled baseUrl) as H0.
  set (s0 := {| visitedUrls := []; urlsToVisit := [baseUrl];
                results := @nil AuditResult |}) in *.
  destruct (Z_lt_le_dec 0 maxPages) as [Hpos|Hneg].
  - assert (Hb : budget maxPages s0 <= Z.of_nat enough).
    { unfold budget, s0, enough. cbn [visitedUrls urlsToVisit List.length].
      rewrite Z2Nat.id by nia. nia. }
    destruct (crawl_ends baseUrl enough s0 H0 Hb) as (out & s & E & Hs & Ht & Ho).
    destruct Hs as (Hv & Hr & Hn & Hreach).
    pose proof (fun extra => crawl_more_fuel enough extra s0 _ E) as More.
    destruct ora eqn:Eo.
    + rewrite (Ho eq_refl) in More. exists Crawled, s. split.
      * intros fuel Hf. replace fuel with (enough + (fuel - enough))%nat by lia.
        now rewrite More.
      * repeat (split; [assumption|]).
        split; [intros u Hu; apply Hreach; now left|].
        split; [reflexivity | now apply Ht, Ho].
    + exists Exited, {| visitedUrls := []; urlsToVisit := []; results := [] |}.
      assert (T : FullSiteScan.turn maxPages Packages.Namespace audit internal_links s0
                  = Some (inr "ora is not a function",
                          {| visitedUrls := []; urlsToVisit := []; results := [] |})).
      { unfold FullSiteScan.turn, s0. cbn [urlsToVisit visitedUrls results List.length].
        replace (Z.of_nat 0 <? maxPages) with true by (symmetry; apply Z.ltb_lt; cbn; lia).
        reflexivity. }
      split.
      * intros fuel _. destruct fuel; cbn [FullSiteScan.crawl]; now rewrite T.
      * cbn [visitedUrls results List.length].
        split; [lia|]. split; [lia|]. split; [constructor|].
        split; [intros u []|].
        replace (0 <? maxPages) with true by (symmetry; apply Z.ltb_lt; lia).
        repeat split.
  - assert (T : forall o, FullSiteScan.turn maxPages o audit internal_links s0 = None).
    { intros o. unfold FullSiteScan.turn, s0. cbn [urlsToVisit visitedUrls List.length].
      replace (Z.of_nat 0 <? maxPages) with false; [reflexivity|].
      symmetry. apply Z.ltb_ge. cbn. lia. }
    exists Crawled, s0. split.
    + intros fuel _. destruct fuel; cbn [FullSiteScan.crawl]; now rewrite T.
    + destruct H0 as (Hv & Hr & Hn & Hreach).
      repeat (split; [assumption|]).
      split; [intros u Hu; apply Hreach; now left|].
      destruct ora.
      * split; [reflexivity | apply T].
      * replace (0 <? maxPages) with false by (symmetry; apply Z.ltb_ge; lia).
        repeat split.
Qed.

End Crawl.

(** The site [Cases.site_links] scanned with [maxPages] at 2, both packages
    callable and every audit resolving: two pages are audited, the third
    is left waiting. *)
Lemma scan_of_small_site :
  FullSiteScan.scan 2 Packages.Callable Packages.Callable (fun _ => true)
    (fun url => inl url) Cases.site_links 7 "https://example.com/" fresh
  = Some (Crawled,
          {| visitedUrls := ["https://example.com/"; "https://example.com/a"];
             urlsToVisit := ["https://example.com/b"];
             results := ["https://example.com/"; "https://example.com/a"] |}).
Proof. vm_compute. reflexivity. Qed.

(** The same scan with the packages [package.json] asks for: the promise
    rejects at the banner, before the loop. *)
Lemma scan_with_pinned_packages :
  FullSiteScan.scan 2 Packages.pinned Packages.pinned (fun _ => true)
    (fun url => inl url) Cases.site_links 7 "https://example.com/" fresh
  = Some (Raised "Cannot read properties of undefined (reading 'blue')", fresh).
Proof. vm_compute. reflexivity. Qed.

End ScanProps.
